(** * LEDnetWF BLE strips: the model 0x56 packet codec and the session controller

    A shallow embedding of
    - [models/model_abstractions.py] ([DefaultModelAbstraction]),
    - [models/model_0x56.py] (the effect tables and [Model0x56]),
    - [lednetwf.py] (the retry decorator and the writing half of
      [LEDNETWFInstance]),
    followed by the properties of the effect code space, of the encoders, of
    the notification decoder, of the packet counter and of the retry policy.

    Python values are modelled as the code uses them: integers as [Z], a
    [bytearray] as a [list Z] whose stores check the range 0..255, a [str] as
    the list of its code points, a [float] as a binary64 primitive float, an
    exception as a constructor of [exn].  A method that mutates [self] is a
    function from the object to a result and the object as the method left
    it, also when the method raised. *)

From Stdlib Require Import ZArith List String Ascii Bool Lia.
From Stdlib Require Import DecimalString Floats.
Import ListNotations.
Local Open Scope Z_scope.

(* ================================================================== *)
(** ** The fragment of the Python runtime the sources rely on          *)
(* ================================================================== *)

Module Py.

(** Exception classes met in the sources: the built-in ones the byte and
    number operations raise, and the Bluetooth ones the retry decorator
    tells apart. *)
Inductive exn : Type :=
| IndexError
| KeyError
| ValueError
| TypeError
| OverflowError
| ZeroDivisionError
| AttributeError
| RuntimeError
| EOFError
| BrokenPipeError
| TimeoutError
| BleakError
| BleakDBusError
| BleakNotFoundError.

Definition exn_eqb (a b : exn) : bool :=
  match a, b with
  | IndexError, IndexError | KeyError, KeyError | ValueError, ValueError
  | TypeError, TypeError | OverflowError, OverflowError
  | ZeroDivisionError, ZeroDivisionError | AttributeError, AttributeError
  | RuntimeError, RuntimeError | EOFError, EOFError
  | BrokenPipeError, BrokenPipeError | TimeoutError, TimeoutError
  | BleakError, BleakError | BleakDBusError, BleakDBusError
  | BleakNotFoundError, BleakNotFoundError => true
  | _, _ => false
  end.

(** The outcome of evaluating an expression or a call. *)
Inductive result (A : Type) : Type :=
| Ok (a : A)
| Raise (e : exn).
Arguments Ok {A} a.
Arguments Raise {A} e.

Definition rbind {A B} (r : result A) (k : A -> result B) : result B :=
  match r with
  | Ok a => k a
  | Raise e => Raise e
  end.

Definition is_ok {A} (r : result A) : bool :=
  match r with Ok _ => true | Raise _ => false end.

(** A method body: state in, outcome and state out.  The state that comes
    out of a raising body holds the stores made before the raise. *)
Definition M (S A : Type) : Type := S -> result A * S.

Definition ret {S A} (a : A) : M S A := fun s => (Ok a, s).
Definition raise {S A} (e : exn) : M S A := fun s => (Raise e, s).
Definition bind {S A B} (m : M S A) (k : A -> M S B) : M S B :=
  fun s => match m s with
           | (Ok a, s') => k a s'
           | (Raise e, s') => (Raise e, s')
           end.
Definition get {S} : M S S := fun s => (Ok s, s).
Definition gets {S A} (f : S -> A) : M S A := fun s => (Ok (f s), s).
Definition modify {S} (f : S -> S) : M S unit := fun s => (Ok tt, f s).
Definition lift {S A} (r : result A) : M S A := fun s => (r, s).

(** [try: body except cls: handler], the handler taking no argument. *)
Definition try_except {S A} (body : M S A) (cls : exn) (handler : M S A) : M S A :=
  fun s => match body s with
           | (Raise e, s') => if exn_eqb e cls then handler s' else (Raise e, s')
           | r => r
           end.

Declare Scope py_scope.
Delimit Scope py_scope with py.
Notation "x <- m ;; k" := (bind m (fun x => k))
  (at level 100, m at next level, right associativity) : py_scope.
Notation "m ;;; k" := (bind m (fun _ => k))
  (at level 100, right associativity) : py_scope.
Notation "x <~ r ;; k" := (rbind r (fun x => k))
  (at level 100, r at next level, right associativity) : py_scope.

(** *** Sequences *)

(** [range(lo, hi)]. *)
Definition range (lo hi : Z) : list Z :=
  map (fun i => lo + Z.of_nat i) (seq 0 (Z.to_nat (hi - lo))).

(** [l[i]] for a constant, non-negative index. *)
Definition getitem (l : list Z) (i : nat) : result Z :=
  match nth_error l i with
  | Some v => Ok v
  | None => Raise IndexError
  end.

(** [l[i:j]] for constants [0 <= i <= j]: never raises, may come back short. *)
Definition slice (i j : nat) (l : list Z) : list Z :=
  firstn (j - i) (skipn i l).

Definition is_byte (v : Z) : bool := (0 <=? v) && (v <? 256).

Fixpoint replace_nth (i : nat) (v : Z) (l : list Z) : list Z :=
  match l, i with
  | [], _ => []
  | _ :: t, O => v :: t
  | h :: t, S i' => h :: replace_nth i' v t
  end.

(** [b[i] = v] on a bytearray: the index is checked, then the value. *)
Definition setitem (i : nat) (v : Z) (b : list Z) : result (list Z) :=
  if Nat.ltb i (List.length b)
  then if is_byte v then Ok (replace_nth i v b) else Raise ValueError
  else Raise IndexError.

(** [b[i:j] = vs] on a bytearray: every value is checked, then the slice is
    replaced, whatever the length of [vs]. *)
Definition setslice (i j : nat) (vs : list Z) (b : list Z) : result (list Z) :=
  if forallb is_byte vs
  then Ok (firstn i b ++ vs ++ skipn (Nat.max i j) b)%list
  else Raise ValueError.

(** [sum(l)]. *)
Definition sum (l : list Z) : Z := fold_left Z.add l 0.

Arguments getitem : simpl never.
Arguments setitem : simpl never.
Arguments setslice : simpl never.

(** *** Dictionaries: insertion-ordered, a store to a present key keeps its
    place. *)
Section Dict.
Context {K V : Type} (eqb : K -> K -> bool).

Fixpoint dict_set (d : list (K * V)) (k : K) (v : V) : list (K * V) :=
  match d with
  | [] => [(k, v)]
  | (k', v') :: t => if eqb k' k then (k', v) :: t else (k', v') :: dict_set t k v
  end.

Fixpoint dict_get (d : list (K * V)) (k : K) : option V :=
  match d with
  | [] => None
  | (k', v') :: t => if eqb k' k then Some v' else dict_get t k
  end.

(** [d[k]]. *)
Definition dict_item (d : list (K * V)) (k : K) : result V :=
  match dict_get d k with
  | Some v => Ok v
  | None => Raise KeyError
  end.
End Dict.

(** *** Strings *)

(** [str(n)] and [f"{n}"] for an integer. *)
Definition str_of_int (n : Z) : string := NilZero.string_of_int (Z.to_int n).

Definition hex_digit (d : Z) : ascii :=
  ascii_of_nat (Z.to_nat (if d <? 10 then 48 + d else 55 + d)).

(** [f"{b:02X}"] for [0 <= b < 256]. *)
Definition format_02X (b : Z) : string :=
  String (hex_digit (b / 16)) (String (hex_digit (b mod 16)) EmptyString).

(** The code points of a string literal of the sources. *)
Definition codepoints (s : string) : list Z :=
  map (fun c => Z.of_N (N_of_ascii c)) (list_ascii_of_string s).

(** Insertion into a list sorted by code points, and [sorted]. *)
Fixpoint insert_sorted (x : string) (l : list string) : list string :=
  match l with
  | [] => [x]
  | y :: t => if String.leb x y then x :: l else y :: insert_sorted x t
  end.

Definition sorted (l : list string) : list string :=
  fold_right insert_sorted [] l.

(** [x in l] for a list of strings. *)
Definition contains (l : list string) (x : string) : bool :=
  existsb (String.eqb x) l.

(** [s.rfind(c, 0, hi)] on code points: the last index below [hi] that
    holds [c], or [-1]. *)
Fixpoint rfind_from (c : Z) (s : list Z) (idx : Z) (found : Z) : Z :=
  match s with
  | [] => found
  | x :: t => rfind_from c t (idx + 1) (if x =? c then idx else found)
  end.

Definition rfind (c : Z) (s : list Z) (hi : nat) : Z :=
  rfind_from c (firstn hi s) 0 (-1).

(** *** [bytes.decode("utf-8", errors="ignore")]

    CPython's decoder: a well-formed sequence gives its code point; an
    ill-formed one is dropped up to, and not including, the first byte that
    cannot continue it; a sequence cut by the end of the data is dropped. *)
Definition is_cont (b : Z) : bool := (0x80 <=? b) && (b <? 0xC0).

Fixpoint utf8_decode_ignore (bs : list Z) : list Z :=
  match bs with
  | [] => []
  | b0 :: r0 =>
    if b0 <? 0x80 then b0 :: utf8_decode_ignore r0
    else if b0 <? 0xC2 then utf8_decode_ignore r0
    else if b0 <? 0xE0 then
      match r0 with
      | [] => []
      | b1 :: r1 =>
        if is_cont b1
        then Z.lor (Z.shiftl (Z.land b0 0x1F) 6) (Z.land b1 0x3F)
             :: utf8_decode_ignore r1
        else utf8_decode_ignore r0
      end
    else if b0 <? 0xF0 then
      match r0 with
      | [] => []
      | b1 :: r1 =>
        if negb (is_cont b1)
           || (if b1 <? 0xA0 then b0 =? 0xE0 else b0 =? 0xED)
        then utf8_decode_ignore r0
        else
          match r1 with
          | [] => []
          | b2 :: r2 =>
            if is_cont b2
            then Z.lor (Z.shiftl (Z.land b0 0x0F) 12)
                   (Z.lor (Z.shiftl (Z.land b1 0x3F) 6) (Z.land b2 0x3F))
                 :: utf8_decode_ignore r2
            else utf8_decode_ignore r1
          end
      end
    else if b0 <? 0xF5 then
      match r0 with
      | [] => []
      | b1 :: r1 =>
        if negb (is_cont b1)
           || (if b1 <? 0x90 then b0 =? 0xF0 else b0 =? 0xF4)
        then utf8_decode_ignore r0
        else
          match r1 with
          | [] => []
          | b2 :: r2 =>
            if negb (is_cont b2) then utf8_decode_ignore r1
            else
              match r2 with
              | [] => []
              | b3 :: r3 =>
                if is_cont b3
                then Z.lor (Z.shiftl (Z.land b0 0x07) 18)
                       (Z.lor (Z.shiftl (Z.land b1 0x3F) 12)
                          (Z.lor (Z.shiftl (Z.land b2 0x3F) 6) (Z.land b3 0x3F)))
                     :: utf8_decode_ignore r3
                else utf8_decode_ignore r2
              end
          end
      end
    else utf8_decode_ignore r0
  end.

(** *** [bytearray.fromhex]

    Pairs of hexadecimal digits, ASCII white space allowed between the
    pairs; anything else is a [ValueError]. *)
Definition is_space (c : Z) : bool :=
  (c =? 32) || ((9 <=? c) && (c <=? 13)).

Definition hex_value (c : Z) : option Z :=
  if (48 <=? c) && (c <=? 57) then Some (c - 48)
  else if (97 <=? c) && (c <=? 102) then Some (c - 87)
  else if (65 <=? c) && (c <=? 70) then Some (c - 55)
  else None.

Fixpoint fromhex (s : list Z) : result (list Z) :=
  match s with
  | [] => Ok []
  | c :: r =>
    if is_space c then fromhex r
    else
      match hex_value c, r with
      | Some top, d :: r' =>
        match hex_value d with
        | Some bot => rbind (fromhex r') (fun t => Ok (top * 16 + bot :: t))
        | None => Raise ValueError
        end
      | _, _ => Raise ValueError
      end
  end.

(** A [bytearray.fromhex("...")] literal of the sources (every one of them
    is well formed). *)
Definition hex_literal (s : string) : list Z :=
  match fromhex (codepoints s) with
  | Ok b => b
  | Raise _ => []
  end.

End Py.

(* ================================================================== *)
(** ** Python floats (binary64) and [colorsys]                          *)
(* ================================================================== *)

Module PyFloat.
Import Py.

(** [float(n)]: the nearest binary64, ties to even; too large an integer
    is an [OverflowError]. *)
Definition float_of_int (n : Z) : result float :=
  let f := SF2Prim (binary_normalize prec emax n 0 false) in
  if is_infinity f then Raise OverflowError else Ok f.

(** [int(x)]: truncation towards zero. *)
Definition int_of_float (x : float) : result Z :=
  match Prim2SF x with
  | S754_nan => Raise ValueError
  | S754_infinity _ => Raise OverflowError
  | S754_zero _ => Ok 0
  | S754_finite sign m e =>
    let a := if 0 <=? e then Z.shiftl (Z.pos m) e else Z.shiftr (Z.pos m) (- e) in
    Ok (if sign then - a else a)
  end.

(** [a / b] on two integers: the quotient correctly rounded.  The quotient
    is taken with 64 bits and more, the last one standing for a non-zero
    remainder, and rounded once. *)
Definition int_truediv (a b : Z) : result float :=
  if b =? 0 then Raise ZeroDivisionError
  else
    let neg := xorb (a <? 0) (b <? 0) in
    let k := Z.log2 (Z.abs b) + 64 in
    let n := Z.shiftl (Z.abs a) k in
    let m := 2 * (n / Z.abs b) + (if n mod Z.abs b =? 0 then 0 else 1) in
    let f := SF2Prim (binary_normalize prec emax (if neg then - m else m) (- k - 1) neg) in
    if is_infinity f then Raise OverflowError else Ok f.

(** [x / y] on floats. *)
Definition truediv (x y : float) : result float :=
  if PrimFloat.eqb y 0 then Raise ZeroDivisionError else Ok (x / y)%float.

(** [n / y] for an integer [n] and a float [y]. *)
Definition int_div_float (n : Z) (y : float) : result float :=
  rbind (float_of_int n) (fun x => truediv x y).

Arguments float_of_int : simpl never.
Arguments int_of_float : simpl never.
Arguments int_truediv : simpl never.

(** C's [fmod(x, 1.0)]: what is left of [x] once its integer part is taken
    away, exactly. *)
Definition fmod1 (x : float) : float :=
  match int_of_float x with
  | Ok i =>
    match float_of_int i with
    | Ok t => (x - t)%float
    | Raise _ => nan
    end
  | Raise _ => nan
  end.

(** [x % 1.0]. *)
Definition mod1 (x : float) : float :=
  let m := fmod1 x in
  if PrimFloat.eqb m 0 then 0%float
  else if PrimFloat.ltb m 0 then (m + 1)%float
  else m.

(** [max(a, b, c)] and [min(a, b, c)]: the first one that no later one
    beats. *)
Definition max3 (a b c : float) : float :=
  let m := if PrimFloat.ltb a b then b else a in
  if PrimFloat.ltb m c then c else m.

Definition min3 (a b c : float) : float :=
  let m := if PrimFloat.ltb b a then b else a in
  if PrimFloat.ltb c m then c else m.

End PyFloat.

(** [Lib/colorsys.py], the two conversions the models call. *)
Module Colorsys.
Import Py PyFloat.

Definition rgb_to_hsv (r g b : float) : result (float * float * float) :=
  let maxc := max3 r g b in
  let minc := min3 r g b in
  let rangec := (maxc - minc)%float in
  let v := maxc in
  if PrimFloat.eqb minc maxc then Ok (0%float, 0%float, v)
  else
    rbind (truediv rangec maxc) (fun s =>
    rbind (truediv (maxc - r) rangec) (fun rc =>
    rbind (truediv (maxc - g) rangec) (fun gc =>
    rbind (truediv (maxc - b) rangec) (fun bc =>
    let h :=
      if PrimFloat.eqb r maxc then (bc - gc)%float
      else if PrimFloat.eqb g maxc then (2 + rc - bc)%float
      else (4 + gc - rc)%float in
    Ok (mod1 (h / 6), s, v))))).

Definition hsv_to_rgb (h s v : float) : result (float * float * float) :=
  if PrimFloat.eqb s 0 then Ok (v, v, v)
  else
    rbind (int_of_float (h * 6)) (fun i =>
    rbind (float_of_int i) (fun fi =>
    let f := (h * 6 - fi)%float in
    let p := (v * (1 - s))%float in
    let q := (v * (1 - s * f))%float in
    let t := (v * (1 - s * (1 - f)))%float in
    let i := i mod 6 in
    if i =? 0 then Ok (v, t, p)
    else if i =? 1 then Ok (q, v, p)
    else if i =? 2 then Ok (p, v, t)
    else if i =? 3 then Ok (p, q, v)
    else if i =? 4 then Ok (t, p, v)
    else if i =? 5 then Ok (v, p, q)
    else Raise TypeError)).

End Colorsys.

(* ================================================================== *)
(** ** [models/model_abstractions.py]                                   *)
(* ================================================================== *)

Module ModelAbstractions.
Import Py PyFloat.
Local Open Scope py_scope.

(** [homeassistant.components.light]: the colour modes of the data model
    and the name of "no effect". *)
Inductive ColorMode : Type := UNKNOWN | HS | BRIGHTNESS | COLOR_TEMP.

Definition ColorMode_eqb (a b : ColorMode) : bool :=
  match a, b with
  | UNKNOWN, UNKNOWN | HS, HS | BRIGHTNESS, BRIGHTNESS | COLOR_TEMP, COLOR_TEMP => true
  | _, _ => false
  end.

Definition EFFECT_OFF : string := "off".

(** [const.py] is not part of the sources at hand: of its two enumerations
    only the set of member values matters to the decoder, and it is taken as
    given.  A member is held by its value. *)
Class Consts : Type := {
  LedTypes_StripLight : Z -> bool;
  ColorOrdering : Z -> bool
}.

(** [Enum(v)]: the member of value [v], or [ValueError]. *)
Definition enum_call (members : Z -> bool) (v : Z) : result Z :=
  if members v then Ok v else Raise ValueError.

(** The attributes of a model object.  [_parent_instance] is the owner's
    [_segments], the one attribute the model reaches through the
    back-reference, and [None] before the owner attached itself;
    [_color_mode] and [_delay] are absent until stored. *)
Record DeviceState : Type := {
  manu_data : list Z;
  fw_major : Z;
  fw_minor : string;
  led_count : option Z;
  is_on : bool;
  chip_type : option Z;
  color_order : option Z;
  brightness : option Z;
  hs_color : Z * Z;
  effect : string;
  effect_speed : Z;
  color_mode : ColorMode;
  _color_mode : option ColorMode;
  color_temperature_kelvin : option Z;
  bg_color : Z * Z * Z;
  _parent_instance : option Z;
  _delay : option Z
}.

Definition with_led_count v (s : DeviceState) : DeviceState :=
  {| manu_data := manu_data s; fw_major := fw_major s; fw_minor := fw_minor s;
     led_count := v; is_on := is_on s; chip_type := chip_type s;
     color_order := color_order s; brightness := brightness s;
     hs_color := hs_color s; effect := effect s; effect_speed := effect_speed s;
     color_mode := color_mode s; _color_mode := _color_mode s;
     color_temperature_kelvin := color_temperature_kelvin s;
     bg_color := bg_color s; _parent_instance := _parent_instance s;
     _delay := _delay s |}.

Definition with_is_on v (s : DeviceState) : DeviceState :=
  {| manu_data := manu_data s; fw_major := fw_major s; fw_minor := fw_minor s;
     led_count := led_count s; is_on := v; chip_type := chip_type s;
     color_order := color_order s; brightness := brightness s;
     hs_color := hs_color s; effect := effect s; effect_speed := effect_speed s;
     color_mode := color_mode s; _color_mode := _color_mode s;
     color_temperature_kelvin := color_temperature_kelvin s;
     bg_color := bg_color s; _parent_instance := _parent_instance s;
     _delay := _delay s |}.

Definition with_chip_type v (s : DeviceState) : DeviceState :=
  {| manu_data := manu_data s; fw_major := fw_major s; fw_minor := fw_minor s;
     led_count := led_count s; is_on := is_on s; chip_type := v;
     color_order := color_order s; brightness := brightness s;
     hs_color := hs_color s; effect := effect s; effect_speed := effect_speed s;
     color_mode := color_mode s; _color_mode := _color_mode s;
     color_temperature_kelvin := color_temperature_kelvin s;
     bg_color := bg_color s; _parent_instance := _parent_instance s;
     _delay := _delay s |}.

Definition with_color_order v (s : DeviceState) : DeviceState :=
  {| manu_data := manu_data s; fw_major := fw_major s; fw_minor := fw_minor s;
     led_count := led_count s; is_on := is_on s; chip_type := chip_type s;
     color_order := v; brightness := brightness s;
     hs_color := hs_color s; effect := effect s; effect_speed := effect_speed s;
     color_mode := color_mode s; _color_mode := _color_mode s;
     color_temperature_kelvin := color_temperature_kelvin s;
     bg_color := bg_color s; _parent_instance := _parent_instance s;
     _delay := _delay s |}.

Definition with_brightness v (s : DeviceState) : DeviceState :=
  {| manu_data := manu_data s; fw_major := fw_major s; fw_minor := fw_minor s;
     led_count := led_count s; is_on := is_on s; chip_type := chip_type s;
     color_order := color_order s; brightness := v;
     hs_color := hs_color s; effect := effect s; effect_speed := effect_speed s;
     color_mode := color_mode s; _color_mode := _color_mode s;
     color_temperature_kelvin := color_temperature_kelvin s;
     bg_color := bg_color s; _parent_instance := _parent_instance s;
     _delay := _delay s |}.

Definition with_hs_color v (s : DeviceState) : DeviceState :=
  {| manu_data := manu_data s; fw_major := fw_major s; fw_minor := fw_minor s;
     led_count := led_count s; is_on := is_on s; chip_type := chip_type s;
     color_order := color_order s; brightness := brightness s;
     hs_color := v; effect := effect s; effect_speed := effect_speed s;
     color_mode := color_mode s; _color_mode := _color_mode s;
     color_temperature_kelvin := color_temperature_kelvin s;
     bg_color := bg_color s; _parent_instance := _parent_instance s;
     _delay := _delay s |}.

Definition with_effect v (s : DeviceState) : DeviceState :=
  {| manu_data := manu_data s; fw_major := fw_major s; fw_minor := fw_minor s;
     led_count := led_count s; is_on := is_on s; chip_type := chip_type s;
     color_order := color_order s; brightness := brightness s;
     hs_color := hs_color s; effect := v; effect_speed := effect_speed s;
     color_mode := color_mode s; _color_mode := _color_mode s;
     color_temperature_kelvin := color_temperature_kelvin s;
     bg_color := bg_color s; _parent_instance := _parent_instance s;
     _delay := _delay s |}.

Definition with_effect_speed v (s : DeviceState) : DeviceState :=
  {| manu_data := manu_data s; fw_major := fw_major s; fw_minor := fw_minor s;
     led_count := led_count s; is_on := is_on s; chip_type := chip_type s;
     color_order := color_order s; brightness := brightness s;
     hs_color := hs_color s; effect := effect s; effect_speed := v;
     color_mode := color_mode s; _color_mode := _color_mode s;
     color_temperature_kelvin := color_temperature_kelvin s;
     bg_color := bg_color s; _parent_instance := _parent_instance s;
     _delay := _delay s |}.

Definition with_color_mode v (s : DeviceState) : DeviceState :=
  {| manu_data := manu_data s; fw_major := fw_major s; fw_minor := fw_minor s;
     led_count := led_count s; is_on := is_on s; chip_type := chip_type s;
     color_order := color_order s; brightness := brightness s;
     hs_color := hs_color s; effect := effect s; effect_speed := effect_speed s;
     color_mode := v; _color_mode := _color_mode s;
     color_temperature_kelvin := color_temperature_kelvin s;
     bg_color := bg_color s; _parent_instance := _parent_instance s;
     _delay := _delay s |}.

Definition with__color_mode v (s : DeviceState) : DeviceState :=
  {| manu_data := manu_data s; fw_major := fw_major s; fw_minor := fw_minor s;
     led_count := led_count s; is_on := is_on s; chip_type := chip_type s;
     color_order := color_order s; brightness := brightness s;
     hs_color := hs_color s; effect := effect s; effect_speed := effect_speed s;
     color_mode := color_mode s; _color_mode := v;
     color_temperature_kelvin := color_temperature_kelvin s;
     bg_color := bg_color s; _parent_instance := _parent_instance s;
     _delay := _delay s |}.

Definition with_color_temperature_kelvin v (s : DeviceState) : DeviceState :=
  {| manu_data := manu_data s; fw_major := fw_major s; fw_minor := fw_minor s;
     led_count := led_count s; is_on := is_on s; chip_type := chip_type s;
     color_order := color_order s; brightness := brightness s;
     hs_color := hs_color s; effect := effect s; effect_speed := effect_speed s;
     color_mode := color_mode s; _color_mode := _color_mode s;
     color_temperature_kelvin := v;
     bg_color := bg_color s; _parent_instance := _parent_instance s;
     _delay := _delay s |}.

Definition with_bg_color v (s : DeviceState) : DeviceState :=
  {| manu_data := manu_data s; fw_major := fw_major s; fw_minor := fw_minor s;
     led_count := led_count s; is_on := is_on s; chip_type := chip_type s;
     color_order := color_order s; brightness := brightness s;
     hs_color := hs_color s; effect := effect s; effect_speed := effect_speed s;
     color_mode := color_mode s; _color_mode := _color_mode s;
     color_temperature_kelvin := color_temperature_kelvin s;
     bg_color := v; _parent_instance := _parent_instance s;
     _delay := _delay s |}.

Definition with__parent_instance v (s : DeviceState) : DeviceState :=
  {| manu_data := manu_data s; fw_major := fw_major s; fw_minor := fw_minor s;
     led_count := led_count s; is_on := is_on s; chip_type := chip_type s;
     color_order := color_order s; brightness := brightness s;
     hs_color := hs_color s; effect := effect s; effect_speed := effect_speed s;
     color_mode := color_mode s; _color_mode := _color_mode s;
     color_temperature_kelvin := color_temperature_kelvin s;
     bg_color := bg_color s; _parent_instance := v;
     _delay := _delay s |}.

Definition with__delay v (s : DeviceState) : DeviceState :=
  {| manu_data := manu_data s; fw_major := fw_major s; fw_minor := fw_minor s;
     led_count := led_count s; is_on := is_on s; chip_type := chip_type s;
     color_order := color_order s; brightness := brightness s;
     hs_color := hs_color s; effect := effect s; effect_speed := effect_speed s;
     color_mode := color_mode s; _color_mode := _color_mode s;
     color_temperature_kelvin := color_temperature_kelvin s;
     bg_color := bg_color s; _parent_instance := _parent_instance s;
     _delay := v |}.

Definition triple_to_list (t : Z * Z * Z) : list Z :=
  let '(a, b, c) := t in [a; b; c].

(** [process_manu_data] and the rest of [DefaultModelAbstraction.__init__]:
    [manu_data] is the payload of the first entry of the advertisement's
    manufacturer data, [None] when there is none. *)
Definition DefaultModelAbstraction_init (manu : option (list Z)) : result DeviceState :=
  match manu with
  | Some md =>
    fw <~ getitem md 0 ;;
    m8 <~ getitem md 8 ;;
    m9 <~ getitem md 9 ;;
    m10 <~ getitem md 10 ;;
    lc <~ getitem md 24 ;;
    m14 <~ getitem md 14 ;;
    Ok {| manu_data := md; fw_major := fw;
          fw_minor := (format_02X m8 ++ format_02X m9 ++ "." ++ format_02X m10)%string;
          led_count := Some lc; is_on := m14 =? 0x23;
          chip_type := None; color_order := None; brightness := None;
          hs_color := (0, 100); effect := EFFECT_OFF; effect_speed := 50;
          color_mode := UNKNOWN; _color_mode := None;
          color_temperature_kelvin := None; bg_color := (0, 0, 0);
          _parent_instance := None; _delay := None |}
  | None =>
    Ok {| manu_data := repeat 0 25; fw_major := 0x00;
          fw_minor := "Unknown version";
          led_count := None; is_on := false;
          chip_type := None; color_order := None; brightness := None;
          hs_color := (0, 100); effect := EFFECT_OFF; effect_speed := 50;
          color_mode := UNKNOWN; _color_mode := None;
          color_temperature_kelvin := None; bg_color := (0, 0, 0);
          _parent_instance := None; _delay := None |}
  end.

Definition get_hs_color : M DeviceState (Z * Z) := gets hs_color.
Definition get_brightness : M DeviceState (option Z) := gets brightness.

(** [int(self.brightness * 100 / 255)]. *)
Definition get_brightness_percent : M DeviceState Z :=
  b <- gets brightness ;;
  match b with
  | None => raise TypeError
  | Some b => lift (f <~ int_truediv (b * 100) 255 ;; int_of_float f)
  end.

(** [rgb_to_hsv]: hue 0-360, saturation 0-100, value 0-255. *)
Definition rgb_to_hsv (rgb : list Z) : result (Z * Z * Z) :=
  r <~ getitem rgb 0 ;;
  r <~ int_div_float r 255 ;;
  g <~ getitem rgb 1 ;;
  g <~ int_div_float g 255 ;;
  b <~ getitem rgb 2 ;;
  b <~ int_div_float b 255 ;;
  hsv <~ Colorsys.rgb_to_hsv r g b ;;
  let '(h, s, v) := hsv in
  h <~ int_of_float (h * 360) ;;
  s <~ int_of_float (s * 100) ;;
  v <~ int_of_float (v * 255) ;;
  Ok (h, s, v).

(** [hsv_to_rgb]: the three components are left as [int] made them, the
    byte range is checked where they are stored. *)
Definition hsv_to_rgb (h s : Z) (v : option Z) : result (list Z) :=
  h <~ int_div_float h 360 ;;
  s <~ int_div_float s 100 ;;
  v <~ match v with
       | Some v => int_div_float v 255
       | None => Raise TypeError
       end ;;
  rgb <~ Colorsys.hsv_to_rgb h s v ;;
  let '(r, g, b) := rgb in
  r <~ int_of_float (r * 255) ;;
  g <~ int_of_float (g * 255) ;;
  b <~ int_of_float (b * 255) ;;
  Ok [r; g; b].

Arguments rgb_to_hsv : simpl never.
Arguments hsv_to_rgb : simpl never.

Definition get_rgb_color : M DeviceState (list Z) :=
  s <- get ;;
  lift (hsv_to_rgb (fst (hs_color s)) (snd (hs_color s)) (brightness s)).

Definition turn_on_packet : list Z :=
  Eval vm_compute in
    hex_literal "00 01 80 00 00 0d 0e 0b 3b 23 00 00 00 00 00 00 00 32 00 00 90".

Definition turn_off_packet : list Z :=
  Eval vm_compute in
    hex_literal "00 01 80 00 00 0d 0e 0b 3b 24 00 00 00 00 00 00 00 32 00 00 91".

(** [turn_on]: the background colour is a non-empty tuple, hence true; the
    foreground colour is written when a brightness is known and not 0. *)
Definition turn_on : M DeviceState (list Z) :=
  modify (with_is_on true) ;;;
  s <- get ;;
  p <- lift (setslice 13 16 (triple_to_list (bg_color s)) turn_on_packet) ;;
  match brightness s with
  | Some b =>
    if b =? 0 then ret p
    else
      rgb <- lift (hsv_to_rgb (fst (hs_color s)) (snd (hs_color s)) (brightness s)) ;;
      lift (setslice 10 13 rgb p)
  | None => ret p
  end.

Definition turn_off : M DeviceState (list Z) :=
  modify (with_is_on false) ;;;
  ret turn_off_packet.

End ModelAbstractions.

(* ================================================================== *)
(** ** [models/model_0x56.py]                                           *)
(* ================================================================== *)

Module Model0x56.
Import Py PyFloat.
Export ModelAbstractions.
Local Open Scope py_scope.

(** *** The effect tables *)

(** The three loops and the single store that fill [EFFECT_MAP_0x56]. *)
Definition EFFECT_MAP_0x56 : list (string * Z) :=
  let d := [] in
  let d := fold_left
             (fun d e => dict_set String.eqb d ("Effect " ++ str_of_int e)%string e)
             (range 1 100) d in
  let d := dict_set String.eqb d "Cycle Modes"%string 255 in
  let d := fold_left
             (fun d e =>
                dict_set String.eqb d ("Static Effect " ++ str_of_int e)%string
                  (Z.shiftl e 8))
             (range 1 11) d in
  let d := fold_left
             (fun d e =>
                dict_set String.eqb d
                  ("Sound Reactive " ++ str_of_int (e - 0x32))%string (Z.shiftl e 8))
             (range (1 + 0x32) (16 + 0x32)) d in
  d.

(** [sorted(EFFECT_MAP_0x56)]: the names. *)
Definition EFFECT_LIST_0x56 : list string :=
  sorted (map fst EFFECT_MAP_0x56).

(** [{v: k for k, v in EFFECT_MAP_0x56.items()}]. *)
Definition EFFECT_ID_TO_NAME_0x56 : list (Z * string) :=
  fold_left (fun d kv => dict_set Z.eqb d (snd kv) (fst kv)) EFFECT_MAP_0x56 [].

(** The codes of the three ranges, as the loops compute them. *)
Definition plain_codes : list Z := (range 1 100 ++ [255])%list.
Definition static_codes : list Z := map (fun e => Z.shiftl e 8) (range 1 11).
Definition sound_codes : list Z :=
  map (fun e => Z.shiftl (e + 0x32) 8) (range 1 16).

(** Name to code and back, as the encoder ([EFFECT_MAP_0x56.get]) and the
    decoder ([EFFECT_ID_TO_NAME_0x56[...]]) look them up. *)
Definition encode_effect (name : string) : option Z :=
  dict_get String.eqb EFFECT_MAP_0x56 name.

Definition decode_effect (code : Z) : result string :=
  dict_item Z.eqb EFFECT_ID_TO_NAME_0x56 code.

Arguments EFFECT_MAP_0x56 : simpl never.
Arguments EFFECT_LIST_0x56 : simpl never.
Arguments EFFECT_ID_TO_NAME_0x56 : simpl never.
Arguments encode_effect : simpl never.
Arguments decode_effect : simpl never.

(** *** The packets *)

Definition GET_EFFECT_COLOR_SETTINGS_PACKET : list Z :=
  Eval vm_compute in hex_literal "00 04 80 00 00 05 06 0a 44 4a 4b 0f e8".

Definition INITIAL_PACKET (s : DeviceState) : list Z :=
  if fw_major s =? 0x80
  then hex_literal "00 01 80 00 00 0c 0d 0b 10 14 19 09 05 0d 2b 38 05 00 0f cf"
  else hex_literal "00 01 80 00 00 04 05 0a 81 8a 8b 96".

Definition GET_LED_SETTINGS_PACKET (s : DeviceState) : list Z :=
  if fw_major s =? 0x80
  then hex_literal "00 05 80 00 00 05 06 0a 63 12 21 0f a5"
  else hex_literal "00 02 80 00 00 05 06 0a 63 12 21 f0 86".

Definition color_packet_template : list Z :=
  Eval vm_compute in
    hex_literal "00 00 80 00 00 0d 0e 0b 41 02 ff 00 00 00 00 00 32 00 00 f0 64".

Definition music_packet_template : list Z :=
  Eval vm_compute in
    hex_literal "00 22 80 00 00 0d 0e 0b 73 00 26 01 ff 00 00 ff 00 00 20 1a d2".

Definition effect_packet_template : list Z :=
  Eval vm_compute in hex_literal "00 00 80 00 00 05 06 0b 42 01 32 64 d9".

Definition led_settings_packet_template : list Z :=
  Eval vm_compute in
    hex_literal "00 00 80 00 00 0b 0c 0b 62 00 64 00 03 01 00 64 03 f0 21".

(** *** [Model0x56.__init__] *)

Definition init_body : M DeviceState unit :=
  s <- get ;;
  let md := manu_data s in
  m15 <- lift (getitem md 15) ;;
  if m15 =? 0x61 then
    r <- lift (getitem md 18) ;;
    g <- lift (getitem md 19) ;;
    b <- lift (getitem md 20) ;;
    hsv <- lift (rgb_to_hsv [r; g; b]) ;;
    modify (with_hs_color (fst (fst hsv), snd (fst hsv))) ;;;
    hsv' <- lift (rgb_to_hsv [r; g; b]) ;;
    modify (with_brightness (Some (snd hsv'))) ;;;
    modify (with_color_mode HS) ;;;
    m16 <- lift (getitem md 16) ;;
    if negb (m16 =? 0xf0) then
      m17 <- lift (getitem md 17) ;;
      modify (with_effect_speed m17) ;;;
      if (0x01 <=? m16) && (m16 <=? 0x0a) then
        name <- lift (decode_effect (Z.shiftl m16 8)) ;;
        modify (with_effect name)
      else modify (with_effect EFFECT_OFF)
    else ret tt
  else if m15 =? 0x62 then
    modify (with__color_mode (Some BRIGHTNESS)) ;;;
    eff <- lift (getitem md 16) ;;
    let scaled_effect := Z.shiftl (eff + 0x32) 8 in
    name <- lift (decode_effect scaled_effect) ;;
    modify (with_effect name)
  else if m15 =? 0x25 then
    eff <- lift (getitem md 16) ;;
    name <- lift (decode_effect eff) ;;
    modify (with_effect name) ;;;
    m17 <- lift (getitem md 17) ;;
    modify (with_effect_speed m17) ;;;
    m18 <- lift (getitem md 18) ;;
    modify (with_brightness (Some (m18 * 255 / 100))) ;;;
    modify (with_color_mode BRIGHTNESS)
  else ret tt.

(** The constructor: the object when it returns, the exception otherwise. *)
Definition init (manu : option (list Z)) : result DeviceState :=
  s0 <~ DefaultModelAbstraction_init manu ;;
  match init_body (with_bg_color (0, 0, 0) s0) with
  | (Ok _, s) => Ok s
  | (Raise e, _) => Raise e
  end.

(** The [segments] property: read and written through the owner. *)
Definition segments : M DeviceState (option Z) := gets _parent_instance.

Definition set_segments (value : Z) : M DeviceState unit :=
  s <- get ;;
  match _parent_instance s with
  | Some _ => modify (with__parent_instance (Some value))
  | None => ret tt
  end.

(** *** State updates shared by the decoders *)

Definition update_color_state (rgb_color : list Z) : M DeviceState unit :=
  hsv <- lift (rgb_to_hsv rgb_color) ;;
  modify (with_hs_color (fst (fst hsv), snd (fst hsv))) ;;;
  modify (with_brightness (Some (snd hsv))).

Definition update_effect_state (mode selected_effect : Z) (rgb_color : list Z)
    (effect_speed brightness : Z) : M DeviceState unit :=
  (* the debug line formats brightness/255 *)
  _ <- lift (int_truediv brightness 255) ;;
  if mode =? 0x61 then
    if selected_effect =? 0xf0 then
      update_color_state rgb_color ;;;
      modify (with_effect EFFECT_OFF) ;;;
      modify (with_color_mode HS) ;;;
      modify (with_color_temperature_kelvin None)
    else if (0x01 <=? selected_effect) && (selected_effect <=? 0x0a) then
      modify (with_color_mode HS) ;;;
      name <- lift (decode_effect (Z.shiftl selected_effect 8)) ;;
      modify (with_effect name) ;;;
      modify (with_effect_speed effect_speed) ;;;
      update_color_state rgb_color
    else ret tt
  else if mode =? 0x62 then
    let scaled_effect := Z.shiftl (selected_effect + 0x32) 8 in
    try_except
      (name <- lift (decode_effect scaled_effect) ;;
       modify (with_effect name))
      KeyError
      (modify (with_effect "Unknown"%string))
  else if mode =? 0x25 then
    name <- lift (decode_effect selected_effect) ;;
    modify (with_effect name) ;;;
    modify (with_effect_speed effect_speed) ;;;
    modify (with_color_mode BRIGHTNESS)
  else ret tt.

(** *** The encoders *)

Definition set_color (hs_color : Z * Z) (brightness : Z) : M DeviceState (list Z) :=
  modify (with_color_mode HS) ;;;
  modify (with_hs_color hs_color) ;;;
  modify (with_brightness (Some brightness)) ;;;
  s <- get ;;
  rgb_color <- lift (hsv_to_rgb (fst hs_color) (snd hs_color) (ModelAbstractions.brightness s)) ;;
  let rgb_packet := color_packet_template in
  rgb_packet <- lift (setitem 9 0 rgb_packet) ;;
  rgb_packet <- lift (setslice 10 13 rgb_color rgb_packet) ;;
  rgb_packet <- lift (setslice 13 16 (triple_to_list (bg_color s)) rgb_packet) ;;
  rgb_packet <- lift (setitem 16 (effect_speed s) rgb_packet) ;;
  rgb_packet <- lift (setitem 20 (Z.land (sum (slice 8 19 rgb_packet)) 0xFF) rgb_packet) ;;
  (* the debug line formats get_rgb_color() *)
  _ <- get_rgb_color ;;
  ret rgb_packet.

Definition set_effect (effect : string) (brightness : option Z) : M DeviceState (list Z) :=
  if negb (contains EFFECT_LIST_0x56 effect) then raise ValueError
  else
    modify (with_effect effect) ;;;
    modify (with_brightness brightness) ;;;
    match encode_effect effect with
    | None => raise TypeError
    | Some effect_id =>
      if (0x0100 <=? effect_id) && (effect_id <=? 0x1100) then
        let effect_id := Z.shiftr effect_id 8 in
        let effect_packet := color_packet_template in
        effect_packet <- lift (setitem 9 effect_id effect_packet) ;;
        rgb <- get_rgb_color ;;
        effect_packet <- lift (setslice 10 13 rgb effect_packet) ;;
        s <- get ;;
        effect_packet <- lift (setslice 13 16 (triple_to_list (bg_color s)) effect_packet) ;;
        effect_packet <- lift (setitem 16 (effect_speed s) effect_packet) ;;
        lift (setitem 20 (Z.land (sum (slice 8 19 effect_packet)) 0xFF) effect_packet)
      else if (0x2100 <=? effect_id) && (effect_id <=? 0x4100) then
        let effect_packet := music_packet_template in
        let effect_id := Z.shiftr effect_id 8 - 0x32 in
        effect_packet <- lift (setitem 9 1 effect_packet) ;;
        effect_packet <- lift (setitem 11 effect_id effect_packet) ;;
        rgb <- get_rgb_color ;;
        effect_packet <- lift (setslice 12 15 rgb effect_packet) ;;
        s <- get ;;
        effect_packet <- lift (setslice 15 18 (triple_to_list (bg_color s)) effect_packet) ;;
        effect_packet <- lift (setitem 18 (effect_speed s) effect_packet) ;;
        pct <- get_brightness_percent ;;
        effect_packet <- lift (setitem 19 pct effect_packet) ;;
        lift (setitem 20 (Z.land (sum (slice 8 19 effect_packet)) 0xFF) effect_packet)
      else
        let effect_packet := effect_packet_template in
        modify (with_color_mode BRIGHTNESS) ;;;
        effect_packet <- lift (setitem 9 effect_id effect_packet) ;;
        s <- get ;;
        effect_packet <- lift (setitem 10 (effect_speed s) effect_packet) ;;
        pct <- get_brightness_percent ;;
        effect_packet <- lift (setitem 11 pct effect_packet) ;;
        lift (setitem 12 (Z.land (sum (slice 8 11 effect_packet)) 0xFF) effect_packet)
    end.

Definition set_brightness (brightness : Z) : M DeviceState (option (list Z)) :=
  s <- get ;;
  if match ModelAbstractions.brightness s with
     | Some b => brightness =? b
     | None => false
     end
  then ret None
  else
    modify (with_brightness (Some (Z.min 255 (Z.max 0 brightness)))) ;;;
    s <- get ;;
    match color_mode s with
    | HS => p <- set_color (hs_color s) brightness ;; ret (Some p)
    | BRIGHTNESS => p <- set_effect (effect s) (Some brightness) ;; ret (Some p)
    | _ => ret None
    end.

(** The options [set_led_settings] reads: a key that is absent, or holds
    [None], is [None] here. *)
Record LedOptions : Type := {
  CONF_LEDCOUNT : option Z;
  CONF_LEDTYPE : option Z;
  CONF_COLORORDER : option Z;
  CONF_DELAY : option Z;
  CONF_SEGMENTS : option Z
}.

Definition set_led_settings (options : LedOptions) : M DeviceState (option (list Z)) :=
  modify (with__delay (Some (match CONF_DELAY options with Some d => d | None => 120 end))) ;;;
  let segs := match CONF_SEGMENTS options with Some n => n | None => 1 end in
  match CONF_LEDCOUNT options, CONF_LEDTYPE options, CONF_COLORORDER options with
  | Some led_count, Some chip_type, Some color_order =>
    modify (with_chip_type (Some chip_type)) ;;;
    modify (with_color_order (Some color_order)) ;;;
    modify (with_led_count (Some led_count)) ;;;
    set_segments segs ;;;
    let p := led_settings_packet_template in
    (* led_count.to_bytes(2, byteorder='big') *)
    (if (0 <=? led_count) && (led_count <? 65536) then ret tt else raise OverflowError) ;;;
    p <- lift (setslice 9 11 [Z.shiftr led_count 8; Z.land led_count 0xFF] p) ;;
    sg <- segments ;;
    match sg with
    | None => raise TypeError
    | Some sg =>
      p <- lift (setitem 12 sg p) ;;
      p <- lift (setitem 13 chip_type p) ;;
      p <- lift (setitem 14 color_order p) ;;
      p <- lift (setitem 15 (Z.land led_count 0xFF) p) ;;
      p <- lift (setitem 16 sg p) ;;
      p <- lift (setitem 17 (Z.land (sum (slice 9 18 p)) 0xFF) p) ;;
      ret (Some p)
    end
  | _, _, _ => ret None
  end.

(** *** [notification_handler] *)

Fixpoint bytes_eqb (a b : list Z) : bool :=
  match a, b with
  | [], [] => true
  | x :: a', y :: b' => (x =? y) && bytes_eqb a' b'
  | _, _ => false
  end.

Definition QUOTE : Z := 34.

(** The quoted payload of a text notification: the text between the last
    quote and the quote before it, when both stand after position 0. *)
Definition quoted_payload (notification_data : list Z) : option (list Z) :=
  let last_quote := rfind QUOTE notification_data (List.length notification_data) in
  if 0 <? last_quote then
    let first_quote := rfind QUOTE notification_data (Z.to_nat last_quote) in
    if 0 <? first_quote
    then Some (firstn (Z.to_nat last_quote - Z.to_nat (first_quote + 1))
                 (skipn (Z.to_nat (first_quote + 1)) notification_data))
    else None
  else None.

Section Decoder.
Context {C : Consts}.

(** Firmware 0x80: fields at fixed offsets of the raw frame. *)
Definition notification_handler_0x80 (data : list Z) : M DeviceState unit :=
  if bytes_eqb (slice 5 8 data) [0x0b; 0x0c; 0x15] then
    d11 <- lift (getitem data 11) ;;
    modify (with_led_count (Some d11)) ;;;
    d14 <- lift (getitem data 14) ;;
    chip <- lift (enum_call LedTypes_StripLight d14) ;;
    modify (with_chip_type (Some chip)) ;;;
    d15 <- lift (getitem data 15) ;;
    order <- lift (enum_call ColorOrdering d15) ;;
    modify (with_color_order (Some order)) ;;;
    s <- get ;;
    match _parent_instance s with
    | Some _ => d13 <- lift (getitem data 13) ;; set_segments d13
    | None => ret tt
    end
  else if bytes_eqb (slice 5 7 data) [0x0e; 0x0f] then
    d10 <- lift (getitem data 10) ;;
    modify (with_is_on (d10 =? 0x23)) ;;;
    mode_type <- lift (getitem data 11) ;;
    effect_num <- lift (getitem data 12) ;;
    effect_speed <- lift (getitem data 13) ;;
    r <- lift (getitem data 14) ;;
    g <- lift (getitem data 15) ;;
    b <- lift (getitem data 16) ;;
    brightness <- lift (getitem data 15) ;;
    update_effect_state mode_type effect_num [r; g; b] effect_speed brightness
  else ret tt.

(** The status block of a text notification ([payload[0] == 0x81]). *)
Definition status_response (payload : list Z) : M DeviceState unit :=
  power <- lift (getitem payload 2) ;;
  mode <- lift (getitem payload 3) ;;
  selected_effect <- lift (getitem payload 4) ;;
  p12 <- lift (getitem payload 12) ;;
  modify (with_led_count (Some p12)) ;;;
  modify (with_is_on (power =? 0x23)) ;;;
  if mode =? 0x61 then
    if selected_effect =? 0xf0 then
      let rgb_color := slice 6 9 payload in
      modify (with_effect EFFECT_OFF) ;;;
      modify (with_color_mode HS) ;;;
      modify (with_color_temperature_kelvin None) ;;;
      update_color_state rgb_color
    else if (0x01 <=? selected_effect) && (selected_effect <=? 0x0a) then
      modify (with_color_mode HS) ;;;
      name <- lift (decode_effect (Z.shiftl selected_effect 8)) ;;
      modify (with_effect name) ;;;
      p5 <- lift (getitem payload 5) ;;
      modify (with_effect_speed p5) ;;;
      hsv <- lift (rgb_to_hsv (slice 6 9 payload)) ;;
      modify (with_hs_color (fst (fst hsv), snd (fst hsv))) ;;;
      modify (with_brightness (Some (snd hsv)))
    else ret tt
  else if mode =? 0x62 then
    effect <- lift (getitem payload 4) ;;
    let scaled_effect := Z.shiftl (effect + 0x32) 8 in
    try_except
      (name <- lift (decode_effect scaled_effect) ;;
       modify (with_effect name))
      KeyError
      (modify (with_effect "Unknown"%string))
  else if mode =? 0x25 then
    name <- lift (decode_effect selected_effect) ;;
    modify (with_effect name) ;;;
    p5 <- lift (getitem payload 5) ;;
    modify (with_effect_speed p5) ;;;
    modify (with_color_mode BRIGHTNESS) ;;;
    p6 <- lift (getitem payload 6) ;;
    modify (with_brightness (Some (p6 * 255 / 100)))
  else ret tt.

(** The effect-colour block ([payload[0] == 0x0F], [payload[1] == 0x44]). *)
Definition settings_response (payload : list Z) : M DeviceState unit :=
  p1 <- lift (getitem payload 1) ;;
  if p1 =? 0x44 then
    current_effect_id <- lift (getitem payload 2) ;;
    f0 <- lift (getitem payload 3) ;;
    f1 <- lift (getitem payload 4) ;;
    f2 <- lift (getitem payload 5) ;;
    b0 <- lift (getitem payload 6) ;;
    b1 <- lift (getitem payload 7) ;;
    b2 <- lift (getitem payload 8) ;;
    effect_speed <- lift (getitem payload 9) ;;
    modify (with_bg_color (b0, b1, b2))
  else ret tt.

(** The LED-settings block ([payload[1] == 0x63]). *)
Definition led_settings_response (payload : list Z) : M DeviceState unit :=
  p2 <- lift (getitem payload 2) ;;
  p3 <- lift (getitem payload 3) ;;
  p5 <- lift (getitem payload 5) ;;
  modify (with_led_count (Some ((p2 * 256 + p3) * p5))) ;;;
  p5 <- lift (getitem payload 5) ;;
  set_segments p5 ;;;
  p6 <- lift (getitem payload 6) ;;
  chip <- lift (enum_call LedTypes_StripLight p6) ;;
  modify (with_chip_type (Some chip)) ;;;
  p7 <- lift (getitem payload 7) ;;
  order <- lift (enum_call ColorOrdering p7) ;;
  modify (with_color_order (Some order)).

(** Other firmware: a text envelope around a hexadecimal payload. *)
Definition notification_handler_text (data : list Z) : M DeviceState unit :=
  let notification_data := utf8_decode_ignore data in
  match quoted_payload notification_data with
  | None => ret tt
  | Some payload =>
    payload <- lift (fromhex payload) ;;
    p0 <- lift (getitem payload 0) ;;
    (if p0 =? 0x81 then status_response payload else ret tt) ;;;
    p0 <- lift (getitem payload 0) ;;
    (if p0 =? 0x0F then settings_response payload else ret tt) ;;;
    p1 <- lift (getitem payload 1) ;;
    (if p1 =? 0x63 then led_settings_response payload else ret tt)
  end.

Definition notification_handler (data : list Z) : M DeviceState unit :=
  s <- get ;;
  if fw_major s =? 0x80
  then notification_handler_0x80 data
  else notification_handler_text data.

End Decoder.

End Model0x56.

(* ================================================================== *)
(** ** [lednetwf.py]                                                    *)
(* ================================================================== *)

Module Lednetwf.
Import Py.
Export Model0x56.
Local Open Scope py_scope.

Definition DEFAULT_ATTEMPTS : Z := 3.
Definition BLEAK_BACKOFF_TIME : Z := 3.

(** *** The retry decorator *)

(** [bleak_retry_connector] is imported, not part of the sources: which
    exceptions its tuple [BLEAK_RETRY_EXCEPTIONS] (here [BLEAK_EXCEPTIONS])
    holds is taken as given. *)
Class BleakRetry : Type := {
  BLEAK_EXCEPTIONS : exn -> bool
}.

(** [RETRY_BACKOFF_EXCEPTIONS = (BleakDBusError)]. *)
Definition RETRY_BACKOFF_EXCEPTIONS (e : exn) : bool := exn_eqb e BleakDBusError.

Section Retry.
Context {B : BleakRetry} {St A : Type}.
(** [asyncio.sleep], as the state sees it, and the wrapped coroutine. *)
Variable sleep : Z -> St -> St.
Variable func : M St A.

(** The body of [for attempt in range(attempts)], over the attempts that
    are left; the loop running out returns [None]. *)
Fixpoint retry_loop (max_attempts : Z) (attempts : list Z) : M St (option A) :=
  match attempts with
  | [] => ret None
  | attempt :: rest =>
    fun s =>
      match func s with
      | (Ok v, s1) => (Ok (Some v), s1)
      | (Raise err, s1) =>
        if exn_eqb err BleakNotFoundError then (Raise err, s1)
        else if RETRY_BACKOFF_EXCEPTIONS err then
          if max_attempts <=? attempt then (Raise err, s1)
          else retry_loop max_attempts rest (sleep BLEAK_BACKOFF_TIME s1)
        else if BLEAK_EXCEPTIONS err then
          if max_attempts <=? attempt then (Raise err, s1)
          else retry_loop max_attempts rest s1
        else (Raise err, s1)
      end
  end.

Definition retry_bluetooth_connection_error : M St (option A) :=
  let attempts := DEFAULT_ATTEMPTS in
  let max_attempts := attempts - 1 in
  retry_loop max_attempts (range 0 attempts).

(** The policy in the words of the specification: an attempt budget, and
    three kinds of transport error. *)
Inductive bucket : Type :=
| DeviceNotFound
| BackoffWorthy
| OtherRecoverable
| NotTransport.

Definition classify (e : exn) : bucket :=
  if exn_eqb e BleakNotFoundError then DeviceNotFound
  else if exn_eqb e BleakDBusError then BackoffWorthy
  else if BLEAK_EXCEPTIONS e then OtherRecoverable
  else NotTransport.

(** [retry_policy delay budget s out]: started in [s] with [budget]
    attempts left, the command ends in [out]. *)
Inductive retry_policy (delay : Z) : nat -> St -> result (option A) * St -> Prop :=
| policy_done : forall budget s v s1,
    func s = (Ok v, s1) ->
    retry_policy delay (S budget) s (Ok (Some v), s1)
| policy_not_found : forall budget s e s1,
    func s = (Raise e, s1) -> classify e = DeviceNotFound ->
    retry_policy delay (S budget) s (Raise e, s1)
| policy_not_transport : forall budget s e s1,
    func s = (Raise e, s1) -> classify e = NotTransport ->
    retry_policy delay (S budget) s (Raise e, s1)
| policy_backoff : forall budget s e s1 out,
    func s = (Raise e, s1) -> classify e = BackoffWorthy ->
    retry_policy delay (S budget) (sleep delay s1) out ->
    retry_policy delay (S (S budget)) s out
| policy_again : forall budget s e s1 out,
    func s = (Raise e, s1) -> classify e = OtherRecoverable ->
    retry_policy delay (S budget) s1 out ->
    retry_policy delay (S (S budget)) s out
| policy_exhausted : forall s e s1,
    func s = (Raise e, s1) ->
    classify e = BackoffWorthy \/ classify e = OtherRecoverable ->
    retry_policy delay 1 s (Raise e, s1).
End Retry.

(** *** The writing half of [LEDNETWFInstance] *)

(** The Bluetooth stack is outside the sources: [Link] gathers what
    [_ensure_connected] and the client own ([_client], [_disconnect_timer],
    [_expected_disconnect], the resolved characteristics and the radio
    behind them); connecting and the GATT write act on it and on nothing
    else, and either may raise. *)
Class Transport : Type := {
  Link : Type;
  _ensure_connected : Link -> result unit * Link;
  write_gatt_char : list Z -> Link -> result unit * Link
}.

(** What the instance asked of the outside world, latest first. *)
Inductive event : Type :=
| Connect
| GattWrite (frame : list Z)
| Sleep (seconds : Z).

Section Instance.
Context {C : Consts} {B : BleakRetry} {T : Transport}.

Record Instance : Type := {
  _packet_counter : Z;
  _model_interface : DeviceState;
  _ignore_notifications : bool;
  link : Link;
  journal : list event
}.

Definition with_packet_counter v (i : Instance) : Instance :=
  {| _packet_counter := v; _model_interface := _model_interface i;
     _ignore_notifications := _ignore_notifications i;
     link := link i; journal := journal i |}.

Definition with_model_interface v (i : Instance) : Instance :=
  {| _packet_counter := _packet_counter i; _model_interface := v;
     _ignore_notifications := _ignore_notifications i;
     link := link i; journal := journal i |}.

Definition with_link v (i : Instance) : Instance :=
  {| _packet_counter := _packet_counter i; _model_interface := _model_interface i;
     _ignore_notifications := _ignore_notifications i;
     link := v; journal := journal i |}.

Definition log (e : event) (i : Instance) : Instance :=
  {| _packet_counter := _packet_counter i; _model_interface := _model_interface i;
     _ignore_notifications := _ignore_notifications i;
     link := link i; journal := e :: journal i |}.

(** A call of a method of the model object. *)
Definition on_model {A} (m : M DeviceState A) : M Instance A :=
  fun i => let '(r, s) := m (_model_interface i) in (r, with_model_interface s i).

(** A call into the Bluetooth stack. *)
Definition on_link {A} (m : Link -> result A * Link) : M Instance A :=
  fun i => let '(r, l) := m (link i) in (r, with_link l i).

Definition ensure_connected : M Instance unit :=
  modify (log Connect) ;;;
  on_link _ensure_connected.

Definition _write_while_connected (data : list Z) : M Instance unit :=
  modify (log (GattWrite data)) ;;;
  on_link (write_gatt_char data).

Definition _write (data : option (list Z)) : M Instance unit :=
  match data with
  | None => ret tt
  | Some data =>
    ensure_connected ;;;
    i <- get ;;
    (if 65535 <? _packet_counter i then modify (with_packet_counter 0) else ret tt) ;;;
    i <- get ;;
    data <- lift (setitem 0 (Z.shiftr (Z.land 0xFF00 (_packet_counter i)) 8) data) ;;
    i <- get ;;
    data <- lift (setitem 1 (Z.land 0x00FF (_packet_counter i)) data) ;;
    modify (fun i => with_packet_counter (_packet_counter i + 1) i) ;;;
    _write_while_connected data
  end.

Definition _notification_handler (data : list Z) : M Instance unit :=
  i <- get ;;
  if _ignore_notifications i then ret tt
  else on_model (notification_handler data).

(** The decorator on a method of the instance: the back-off shows in the
    journal. *)
Definition retrying {A} (func : M Instance A) : M Instance (option A) :=
  retry_bluetooth_connection_error (fun t => log (Sleep t)) func.

Definition set_hs_color (hs : Z * Z) (new_brightness : Z) : M Instance (option unit) :=
  retrying
    (byte_pattern <- on_model (set_color hs new_brightness) ;;
     _write (Some byte_pattern)).

Definition set_effect (effect : string) (new_brightness : option Z) : M Instance (option unit) :=
  retrying
    (byte_pattern <- on_model (Model0x56.set_effect effect new_brightness) ;;
     _write (Some byte_pattern)).

Definition set_effect_speed (speed : Z) : M Instance (option unit) :=
  retrying
    (let speed := Z.max 0 (Z.min 100 speed) in
     on_model (modify (with_effect_speed speed)) ;;;
     i <- get ;;
     if String.eqb (effect (_model_interface i)) EFFECT_OFF then ret tt
     else
       _ <- set_effect (effect (_model_interface i)) (brightness (_model_interface i)) ;;
       ret tt).

Definition turn_on : M Instance (option unit) :=
  retrying (p <- on_model ModelAbstractions.turn_on ;; _write (Some p)).

Definition turn_off : M Instance (option unit) :=
  retrying (p <- on_model ModelAbstractions.turn_off ;; _write (Some p)).

(** *** [send_initial_packets]

    The three request packets are bytearrays the model object holds
    ([INITIAL_PACKET], [GET_LED_SETTINGS_PACKET],
    [GET_EFFECT_COLOR_SETTINGS_PACKET]); [send_initial_packets] hands them
    to [_write] as they are, and [_write] stamps the bytearray it is
    given: the two stores land in the packet the model holds. *)
Inductive request : Type := Initial | GetLedSettings | GetEffectColorSettings.

Record Requests : Type := {
  initial_packet : list Z;
  get_led_settings_packet : list Z;
  get_effect_color_settings_packet : list Z
}.

(** The packets as the constructors build them. *)
Definition Requests_init (s : DeviceState) : Requests :=
  {| initial_packet := INITIAL_PACKET s;
     get_led_settings_packet := GET_LED_SETTINGS_PACKET s;
     get_effect_color_settings_packet := GET_EFFECT_COLOR_SETTINGS_PACKET |}.

Definition held (r : request) (q : Requests) : list Z :=
  match r with
  | Initial => initial_packet q
  | GetLedSettings => get_led_settings_packet q
  | GetEffectColorSettings => get_effect_color_settings_packet q
  end.

Definition hold (r : request) (v : list Z) (q : Requests) : Requests :=
  match r with
  | Initial =>
    {| initial_packet := v; get_led_settings_packet := get_led_settings_packet q;
       get_effect_color_settings_packet := get_effect_color_settings_packet q |}
  | GetLedSettings =>
    {| initial_packet := initial_packet q; get_led_settings_packet := v;
       get_effect_color_settings_packet := get_effect_color_settings_packet q |}
  | GetEffectColorSettings =>
    {| initial_packet := initial_packet q;
       get_led_settings_packet := get_led_settings_packet q;
       get_effect_color_settings_packet := v |}
  end.

(** The instance together with the packets of its model object. *)
Record Session : Type := {
  instance : Instance;
  requests : Requests
}.

Definition on_instance {A} (m : M Instance A) : M Session A :=
  fun s => let '(r, i) := m (instance s) in (r, {| instance := i; requests := requests s |}).

Definition on_requests (f : Requests -> Requests) : M Session unit :=
  modify (fun s => {| instance := instance s; requests := f (requests s) |}).

(** [_write(data)] where [data] is a packet the model holds. *)
Definition _write_held (r : request) : M Session unit :=
  on_instance ensure_connected ;;;
  on_instance
    (i <- get ;;
     if 65535 <? _packet_counter i then modify (with_packet_counter 0) else ret tt) ;;;
  s <- get ;;
  data <- lift (setitem 0 (Z.shiftr (Z.land 0xFF00 (_packet_counter (instance s))) 8)
                  (held r (requests s))) ;;
  on_requests (hold r data) ;;;
  s <- get ;;
  data <- lift (setitem 1 (Z.land 0x00FF (_packet_counter (instance s)))
                  (held r (requests s))) ;;
  on_requests (hold r data) ;;;
  on_instance (modify (fun i => with_packet_counter (_packet_counter i + 1) i)) ;;;
  s <- get ;;
  on_instance (_write_while_connected (held r (requests s))).

(** Three requests in a row, outside the decorator; the model of this
    family has all three packets. *)
Definition send_initial_packets : M Session unit :=
  _write_held Initial ;;;
  _write_held GetLedSettings ;;;
  _write_held GetEffectColorSettings.

(** The frames handed to the GATT write, oldest first, and the sequence
    number a frame carries in its first two bytes. *)
Definition frames_written (i : Instance) : list (list Z) :=
  rev (flat_map (fun e => match e with GattWrite f => [f] | _ => [] end) (journal i)).

Definition sequence_number (frame : list Z) : Z :=
  nth 0 frame 0 * 256 + nth 1 frame 0.

(** Consecutive calls of [_write], whatever each of them returned. *)
Definition write_all (datas : list (list Z)) (i : Instance) : Instance :=
  fold_left (fun i d => snd (_write (Some d) i)) datas i.

End Instance.

End Lednetwf.

(* ================================================================== *)
(** ** Properties                                                       *)
(* ================================================================== *)

Import Py PyFloat Lednetwf.

(** *** Reasoning on method bodies

    [keeps f m]: whatever [m] returns or raises, the state it leaves has
    the [f] it found.  [preserves P m]: the state [m] leaves satisfies [P]
    when the state it found did. *)

Section MonadFacts.
Context {St : Type}.

Definition preserves {A} (P : St -> Prop) (m : M St A) : Prop :=
  forall s, P s -> P (snd (m s)).

Definition keeps {A X} (f : St -> X) (m : M St A) : Prop :=
  forall s, f (snd (m s)) = f s.

Lemma keeps_preserves {A X} (f : St -> X) (m : M St A) (Q : X -> Prop) :
  keeps f m -> preserves (fun s => Q (f s)) m.
Proof. intros H s Hs. now rewrite H. Qed.

Lemma preserves_bind {A B} (P : St -> Prop) (m : M St A) (k : A -> M St B) :
  preserves P m -> (forall a, preserves P (k a)) -> preserves P (bind m k).
Proof.
  intros Hm Hk s Hs. unfold bind. specialize (Hm s Hs).
  destruct (m s) as [[a | e] s1]; cbn [snd] in *; [now apply Hk | exact Hm].
Qed.

Lemma establishes_bind {A B} (P : St -> Prop) (m : M St A) (k : A -> M St B) :
  (forall s, P (snd (m s))) -> (forall a, preserves P (k a)) ->
  forall s, P (snd (bind m k s)).
Proof.
  intros Hm Hk s. unfold bind. specialize (Hm s).
  destruct (m s) as [[a | e] s1]; cbn [snd] in *; [now apply Hk | exact Hm].
Qed.

Lemma preserves_ret {A} (P : St -> Prop) (a : A) : preserves P (ret a).
Proof. intros s Hs. exact Hs. Qed.

Lemma preserves_raise {A} (P : St -> Prop) (e : exn) : preserves P (@raise St A e).
Proof. intros s Hs. exact Hs. Qed.

Lemma preserves_lift {A} (P : St -> Prop) (r : result A) : preserves P (lift r).
Proof. intros s Hs. exact Hs. Qed.

Lemma preserves_get (P : St -> Prop) : preserves P get.
Proof. intros s Hs. exact Hs. Qed.

Lemma preserves_gets {A} (P : St -> Prop) (f : St -> A) : preserves P (gets f).
Proof. intros s Hs. exact Hs. Qed.

Lemma preserves_modify (P : St -> Prop) (g : St -> St) :
  (forall s, P s -> P (g s)) -> preserves P (modify g).
Proof. intros H s Hs. now apply H. Qed.

Lemma preserves_try_except {A} (P : St -> Prop) (body handler : M St A) (cls : exn) :
  preserves P body -> preserves P handler -> preserves P (try_except body cls handler).
Proof.
  intros Hb Hh s Hs. unfold try_except. specialize (Hb s Hs).
  destruct (body s) as [[a | e] s1]; cbn [snd] in *; [exact Hb |].
  destruct (exn_eqb e cls); [now apply Hh | exact Hb].
Qed.

Lemma keeps_bind {A B X} (f : St -> X) (m : M St A) (k : A -> M St B) :
  keeps f m -> (forall a, keeps f (k a)) -> keeps f (bind m k).
Proof.
  intros Hm Hk s. unfold bind. specialize (Hm s).
  destruct (m s) as [[a | e] s1]; cbn [snd] in *; [now rewrite Hk | exact Hm].
Qed.

Lemma keeps_ret {A X} (f : St -> X) (a : A) : keeps f (ret a).
Proof. intros s. reflexivity. Qed.

Lemma keeps_raise {A X} (f : St -> X) (e : exn) : keeps f (@raise St A e).
Proof. intros s. reflexivity. Qed.

Lemma keeps_lift {A X} (f : St -> X) (r : result A) : keeps f (lift r).
Proof. intros s. reflexivity. Qed.

Lemma keeps_get {X} (f : St -> X) : keeps f get.
Proof. intros s. reflexivity. Qed.

Lemma keeps_gets {A X} (f : St -> X) (g : St -> A) : keeps f (gets g).
Proof. intros s. reflexivity. Qed.

Lemma keeps_modify {X} (f : St -> X) (g : St -> St) :
  (forall s, f (g s) = f s) -> keeps f (modify g).
Proof. intros H s. apply H. Qed.

Lemma keeps_try_except {A X} (f : St -> X) (body handler : M St A) (cls : exn) :
  keeps f body -> keeps f handler -> keeps f (try_except body cls handler).
Proof.
  intros Hb Hh s. unfold try_except. specialize (Hb s).
  destruct (body s) as [[a | e] s1]; cbn [snd] in *; [exact Hb |].
  destruct (exn_eqb e cls); [now rewrite Hh | exact Hb].
Qed.
End MonadFacts.

Create HintDb keeps_db.

(** One syntax-directed step on a [keeps] goal. *)
Ltac keeps_step :=
  lazymatch goal with
  | |- keeps _ (bind _ _) => apply keeps_bind; [| intros ?]
  | |- keeps _ (ret _) => apply keeps_ret
  | |- keeps _ (raise _) => apply keeps_raise
  | |- keeps _ (lift _) => apply keeps_lift
  | |- keeps _ get => apply keeps_get
  | |- keeps _ (gets _) => apply keeps_gets
  | |- keeps _ (modify _) => apply keeps_modify; intros ?; reflexivity
  | |- keeps _ (try_except _ _ _) => apply keeps_try_except
  | |- keeps _ (if ?b then _ else _) => destruct b
  | |- keeps _ (match ?x with _ => _ end) => destruct x
  | |- keeps _ _ => solve [auto with keeps_db]
  end.

Ltac keeps_tac := repeat keeps_step.

(** Running a body on a given state: the combinators are unfolded. *)
Ltac unfold_monad :=
  unfold bind, lift, modify, get, gets, ret, raise, try_except, rbind.

(** *** The effect code space *)

Definition disjoint (a b : list Z) : Prop :=
  forall c, In c a -> In c b -> False.

Definition disjointb (a b : list Z) : bool :=
  forallb (fun c => negb (existsb (Z.eqb c) b)) a.

Lemma disjointb_sound (a b : list Z) : disjointb a b = true -> disjoint a b.
Proof.
  unfold disjointb, disjoint. intros H c Ha Hb.
  rewrite forallb_forall in H. specialize (H c Ha).
  apply negb_true_iff in H.
  assert (existsb (Z.eqb c) b = true) as E.
  { apply existsb_exists. exists c. split; [assumption | apply Z.eqb_refl]. }
  congruence.
Qed.

Lemma dict_get_In {V : Type} (d : list (string * V)) (k : string) (v : V) :
  dict_get String.eqb d k = Some v -> In (k, v) d.
Proof.
  induction d as [| [k' v'] d IH]; simpl; [discriminate |].
  destruct (String.eqb k' k) eqn:E.
  - intros [= <-]. apply String.eqb_eq in E. subst. now left.
  - intros H. right. auto.
Qed.

(** Every entry of the table decodes back to its name. *)
Definition roundtrip_entry (entry : string * Z) : bool :=
  match decode_effect (snd entry) with
  | Ok name => String.eqb name (fst entry)
  | Raise _ => false
  end.

Lemma roundtrip_entries : forallb roundtrip_entry EFFECT_MAP_0x56 = true.
Proof. vm_compute. reflexivity. Qed.

Lemma encode_decode (name : string) (code : Z) :
  encode_effect name = Some code -> decode_effect code = Ok name.
Proof.
  intros H. apply dict_get_In in H.
  pose proof roundtrip_entries as R. rewrite forallb_forall in R.
  specialize (R _ H). unfold roundtrip_entry in R.
  cbv beta iota delta [fst snd] in R.
  destruct (decode_effect code) as [n |]; [| discriminate].
  apply String.eqb_eq in R. subst. reflexivity.
Qed.

(** C1. Every name of [EFFECT_MAP_0x56] is encoded to a code that
    [EFFECT_ID_TO_NAME_0x56] decodes back to the same name; the names of the
    sorted list are exactly those of the table; the codes of the table are
    the plain codes (the effect number itself, and 255), then the static
    codes [e << 8] for [e] in 1..10, then the sound-reactive codes
    [(e + 0x32) << 8] for [e] in 1..15; and these three sets of codes are
    pairwise disjoint. *)
Theorem effect_codes_roundtrip_and_disjoint :
  (forall name, In name EFFECT_LIST_0x56 ->
     exists code, encode_effect name = Some code /\ decode_effect code = Ok name)
  /\ (forall name code, encode_effect name = Some code -> decode_effect code = Ok name)
  /\ map snd EFFECT_MAP_0x56 = (plain_codes ++ static_codes ++ sound_codes)%list
  /\ disjoint plain_codes static_codes
  /\ disjoint plain_codes sound_codes
  /\ disjoint static_codes sound_codes.
Proof.
  split; [| split; [| split; [| split; [| split]]]].
  - intros name Hin.
    assert (forallb (fun n => match encode_effect n with Some _ => true | None => false end)
              EFFECT_LIST_0x56 = true) as Hall by (vm_compute; reflexivity).
    rewrite forallb_forall in Hall. specialize (Hall _ Hin).
    destruct (encode_effect name) as [code |] eqn:E; [| discriminate].
    exists code. split; [reflexivity | apply encode_decode; exact E].
  - exact encode_decode.
  - vm_compute. reflexivity.
  - apply disjointb_sound. vm_compute. reflexivity.
  - apply disjointb_sound. vm_compute. reflexivity.
  - apply disjointb_sound. vm_compute. reflexivity.
Qed.

(** *** The packet counter *)

Lemma land_0xFF (c : Z) : Z.land 0x00FF c = c mod 256.
Proof. rewrite Z.land_comm. apply (Z.land_ones c 8). lia. Qed.

Lemma high_byte (c : Z) : Z.shiftr (Z.land 0xFF00 c) 8 = (c / 256) mod 256.
Proof.
  rewrite Z.shiftr_land. change (Z.shiftr 0xFF00 8) with (Z.ones 8).
  rewrite Z.land_comm, Z.land_ones by lia.
  rewrite Z.shiftr_div_pow2 by lia. reflexivity.
Qed.

Lemma is_byte_mod (c : Z) : is_byte (c mod 256) = true.
Proof.
  unfold is_byte. pose proof (Z.mod_pos_bound c 256 ltac:(lia)).
  apply andb_true_iff. split; [apply Z.leb_le | apply Z.ltb_lt]; lia.
Qed.

Lemma range_succ (n : Z) : 0 <= n -> range 0 (n + 1) = (range 0 n ++ [n])%list.
Proof.
  intros Hn. unfold range.
  replace (Z.to_nat (n + 1 - 0)) with (Z.to_nat (n - 0) + 1)%nat by lia.
  rewrite seq_app, map_app. simpl. f_equal. f_equal. lia.
Qed.

Lemma In_range (lo hi x : Z) : In x (range lo hi) <-> lo <= x < hi.
Proof.
  unfold range. rewrite in_map_iff. split.
  - intros (i & <- & Hi). apply in_seq in Hi. lia.
  - intros H. exists (Z.to_nat (x - lo)). split; [lia |]. apply in_seq. lia.
Qed.

Section PacketCounter.
Context {C : Consts} {B : BleakRetry} {T : Transport}.

(** The value the counter is reset to before it is used. *)
Definition wrapped (c : Z) : Z := if 65535 <? c then 0 else c.

(** The frame [_write] hands to the GATT write for a counter [c]. *)
Definition stamped (c : Z) (data : list Z) : list Z :=
  replace_nth 1 (Z.land 0x00FF c) (replace_nth 0 (Z.shiftr (Z.land 0xFF00 c) 8) data).

Lemma sequence_number_stamped (c : Z) (data : list Z) :
  (2 <= List.length data)%nat -> sequence_number (stamped c data) = c mod 65536.
Proof.
  intros Hlen. destruct data as [| a [| b rest]]; simpl in Hlen; try lia.
  unfold stamped, sequence_number. cbn [replace_nth nth].
  rewrite land_0xFF, high_byte.
  pose proof (Z.div_mod c 256 ltac:(lia)).
  pose proof (Z.mod_pos_bound c 256 ltac:(lia)).
  pose proof (Z.div_mod (c / 256) 256 ltac:(lia)).
  pose proof (Z.mod_pos_bound (c / 256) 256 ltac:(lia)).
  apply Z.mod_unique_pos with (q := c / 256 / 256); lia.
Qed.

(** One call, when connecting succeeds and the frame has its two leading
    bytes: the counter, wrapped, stamps the frame and moves on by one. *)
Lemma write_step (data : list Z) (i : Instance) :
  fst (_ensure_connected (link i)) = Ok tt ->
  (2 <= List.length data)%nat ->
  _packet_counter (snd (_write (Some data) i)) = wrapped (_packet_counter i) + 1
  /\ frames_written (snd (_write (Some data) i))
     = (frames_written i ++ [stamped (wrapped (_packet_counter i)) data])%list
  /\ link (snd (_write (Some data) i))
     = snd (write_gatt_char (stamped (wrapped (_packet_counter i)) data)
              (snd (_ensure_connected (link i)))).
Proof.
  intros Hconn Hlen.
  unfold _write, ensure_connected, _write_while_connected, on_link, bind, modify, get, lift, ret.
  cbn [link log]. destruct (_ensure_connected (link i)) as [r l] eqn:E.
  cbn [fst snd] in *. subst r. cbn [_packet_counter with_link log].
  fold (wrapped (_packet_counter i)).
  assert (_packet_counter
            (snd ((if 65535 <? _packet_counter i
                   then fun s : Instance => (Ok tt, with_packet_counter 0 s)
                   else fun s : Instance => (Ok tt, s))
                    (with_link l (log Connect i))))
          = wrapped (_packet_counter i)) as Hc.
  { unfold wrapped. destruct (65535 <? _packet_counter i); reflexivity. }
  unfold wrapped in *.
  destruct data as [| a [| b rest]]; simpl in Hlen; try lia.
  destruct (65535 <? _packet_counter i) eqn:Ec; cbn -[Z.land Z.shiftr Z.mul];
    unfold setitem; cbn [List.length Nat.ltb Nat.leb replace_nth];
    rewrite ?land_0xFF, ?high_byte, ?is_byte_mod;
    cbn -[Z.land Z.shiftr Z.modulo Z.div];
    rewrite ?land_0xFF, ?high_byte, ?is_byte_mod;
    cbn -[Z.land Z.shiftr Z.modulo Z.div];
    destruct (write_gatt_char _ l) as [r' l'] eqn:Ew;
    unfold frames_written, stamped; cbn -[Z.land Z.shiftr Z.modulo Z.div];
    rewrite ?land_0xFF, ?high_byte in *; rewrite ?Ew;
    repeat split; try reflexivity.
Qed.

(** The counter after [n] calls that started from 0. *)
Definition counter_after (n : Z) : Z :=
  if n =? 0 then 0 else (n - 1) mod 65536 + 1.

Lemma wrapped_counter_after (n : Z) :
  0 <= n -> wrapped (counter_after n) = n mod 65536.
Proof.
  intros Hn. unfold wrapped, counter_after.
  destruct (n =? 0) eqn:E0.
  - apply Z.eqb_eq in E0. subst. reflexivity.
  - apply Z.eqb_neq in E0.
    pose proof (Z.div_mod (n - 1) 65536 ltac:(lia)) as Hd.
    pose proof (Z.mod_pos_bound (n - 1) 65536 ltac:(lia)) as Hb.
    destruct (65535 <? (n - 1) mod 65536 + 1) eqn:E1.
    + apply Z.ltb_lt in E1.
      apply Z.mod_unique_pos with (q := (n - 1) / 65536 + 1); lia.
    + apply Z.ltb_ge in E1.
      apply Z.mod_unique_pos with (q := (n - 1) / 65536); lia.
Qed.

Lemma counter_after_succ (n : Z) :
  0 <= n -> n mod 65536 + 1 = counter_after (n + 1).
Proof.
  intros Hn. unfold counter_after.
  destruct (n + 1 =? 0) eqn:E; [apply Z.eqb_eq in E; lia |].
  replace (n + 1 - 1) with n by lia. reflexivity.
Qed.

Lemma write_all_snoc (datas : list (list Z)) (d : list Z) (i : Instance) :
  write_all (datas ++ [d]) i = snd (_write (Some d) (write_all datas i)).
Proof. unfold write_all. rewrite fold_left_app. reflexivity. Qed.

(** Any number of calls: the frames carry 0, 1, 2, ... modulo 65536. *)
Lemma write_all_sequence (datas : list (list Z)) (i : Instance) :
  (forall l, fst (_ensure_connected l) = Ok tt) ->
  _packet_counter i = 0 ->
  Forall (fun d => (2 <= List.length d)%nat) datas ->
  _packet_counter (write_all datas i) = counter_after (Z.of_nat (List.length datas))
  /\ map sequence_number (frames_written (write_all datas i))
     = (map sequence_number (frames_written i)
        ++ map (fun k => k mod 65536) (range 0 (Z.of_nat (List.length datas))))%list.
Proof.
  intros Hconn Hzero. induction datas as [| d datas IH] using rev_ind; intros Hall.
  - cbn. rewrite app_nil_r. split; [exact Hzero | reflexivity].
  - apply Forall_app in Hall. destruct Hall as [Hds Hd].
    inversion Hd as [| ? ? Hlen _]; subst.
    destruct (IH Hds) as [Hc Hf]. clear IH.
    rewrite write_all_snoc.
    destruct (write_step d (write_all datas i) (Hconn _) Hlen) as (Hc' & Hf' & _).
    rewrite length_app. cbn [List.length].
    replace (Z.of_nat (List.length datas + 1)) with (Z.of_nat (List.length datas) + 1) by lia.
    rewrite Hc' , Hf', Hc, wrapped_counter_after by lia. split.
    + apply counter_after_succ. lia.
    + rewrite map_app, Hf, range_succ, map_app by lia. cbn [map].
      rewrite sequence_number_stamped by exact Hlen.
      rewrite Z.mod_mod by lia. rewrite <- app_assoc. reflexivity.
Qed.

Lemma map_mod_range (n : Z) :
  0 <= n <= 65536 -> map (fun k => k mod 65536) (range 0 n) = range 0 n.
Proof.
  intros Hn. rewrite <- (map_id (range 0 n)) at 2.
  apply map_ext_in. intros k Hk. apply In_range in Hk.
  apply Z.mod_small. lia.
Qed.

Local Opaque range.

(** C5. 65537 consecutive calls of [_write] with data, from a packet
    counter of 0, each call reaching the device (connecting succeeds, the
    frame has its two leading bytes): the sequence numbers in the first
    two bytes of the frames written, big-endian, are 0, 1, ..., 65535 in
    this order, and the 65537th frame carries 0 again. *)
Theorem sequence_numbers_wrap_once (datas : list (list Z)) (i : Instance) :
  (forall l, fst (_ensure_connected l) = Ok tt) ->
  _packet_counter i = 0 ->
  Forall (fun d => (2 <= List.length d)%nat) datas ->
  Z.of_nat (List.length datas) = 65537 ->
  map sequence_number (frames_written (write_all datas i))
  = (map sequence_number (frames_written i) ++ range 0 65536 ++ [0])%list.
Proof.
  intros Hconn Hzero Hall Hlen.
  destruct (write_all_sequence datas i Hconn Hzero Hall) as [_ Hf].
  rewrite Hf, Hlen.
  replace 65537 with (65536 + 1) by lia.
  rewrite range_succ, map_app, map_mod_range by lia.
  cbn [map]. rewrite Z.mod_same by lia. reflexivity.
Qed.

Local Transparent range.

(** C9. [_write(None)] returns at once and leaves the instance as it was:
    no connection is attempted, the packet counter keeps its value,
    nothing is handed to the GATT write, and the link (client, timers) is
    untouched. *)
Theorem write_none_is_noop (i : Instance) :
  _write None i = (Ok tt, i)
  /\ journal (snd (_write None i)) = journal i
  /\ _packet_counter (snd (_write None i)) = _packet_counter i
  /\ link (snd (_write None i)) = link i
  /\ frames_written (snd (_write None i)) = frames_written i.
Proof. repeat split. Qed.

End PacketCounter.

(** *** The retry decorator *)

Section RetryFacts.
Context {B : BleakRetry} {St A : Type}.
Variable sleep : Z -> St -> St.
Variable func : M St A.

(** The attempts [k, k+1, ..., k+n] of a loop whose last index is
    [k + n]: the loop follows the policy with a budget of [n + 1]. *)
Lemma retry_loop_policy (n : nat) :
  forall (k : Z) (s : St),
    retry_policy sleep func BLEAK_BACKOFF_TIME (S n) s
      (retry_loop sleep func (k + Z.of_nat n)
         (map (fun i => k + Z.of_nat i) (seq 0 (S n))) s).
Proof.
  induction n as [| n IH]; intros k s.
  - cbn [seq map retry_loop].
    destruct (func s) as [[v | e] s1] eqn:E; [now apply policy_done |].
    destruct (exn_eqb e BleakNotFoundError) eqn:N.
    { eapply policy_not_found; [exact E | unfold classify; now rewrite N]. }
    replace (k + Z.of_nat 0 <=? k + Z.of_nat 0) with true
      by (symmetry; apply Z.leb_le; lia).
    unfold RETRY_BACKOFF_EXCEPTIONS.
    destruct (exn_eqb e BleakDBusError) eqn:D.
    { apply policy_exhausted; [exact E | left; unfold classify; now rewrite N, D]. }
    destruct (BLEAK_EXCEPTIONS e) eqn:R.
    { apply policy_exhausted; [exact E | right; unfold classify; now rewrite N, D, R]. }
    eapply policy_not_transport; [exact E | unfold classify; now rewrite N, D, R].
  - change (seq 0 (S (S n))) with (0%nat :: seq 1 (S n)).
    rewrite <- seq_shift, map_cons, map_map. cbn [retry_loop].
    assert (map (fun i => k + Z.of_nat (S i)) (seq 0 (S n))
            = map (fun i => (k + 1) + Z.of_nat i) (seq 0 (S n))) as ->.
    { apply map_ext. intros i. lia. }
    replace (k + Z.of_nat (S n)) with ((k + 1) + Z.of_nat n) by lia.
    destruct (func s) as [[v | e] s1] eqn:E; [now apply policy_done |].
    destruct (exn_eqb e BleakNotFoundError) eqn:N.
    { eapply policy_not_found; [exact E | unfold classify; now rewrite N]. }
    replace (k + 1 + Z.of_nat n <=? k + Z.of_nat 0) with false
      by (symmetry; apply Z.leb_gt; lia).
    unfold RETRY_BACKOFF_EXCEPTIONS.
    destruct (exn_eqb e BleakDBusError) eqn:D.
    { eapply policy_backoff; [exact E | unfold classify; now rewrite N, D | apply IH]. }
    destruct (BLEAK_EXCEPTIONS e) eqn:R.
    { eapply policy_again; [exact E | unfold classify; now rewrite N, D, R | apply IH]. }
    eapply policy_not_transport; [exact E | unfold classify; now rewrite N, D, R].
Qed.

(** C7. The decorator follows the three-bucket policy with a budget of 3
    attempts and a delay of 3: a [BleakNotFoundError] is raised again at
    once; a [BleakDBusError] is followed by a sleep of 3 and the next
    attempt; any other member of [BLEAK_EXCEPTIONS] is followed by the
    next attempt with no sleep; an error of the last attempt is raised to
    the caller.  So a command that fails every time with the same error
    is run once when the device is not found or the error is no transport
    error, three times with two sleeps of 3 in between for a
    [BleakDBusError], and three times with no sleep for another
    recoverable error; and a command that fails once with a recoverable
    error and then returns gives its result, after a sleep of 3 in the
    first case and no sleep in the second. *)
Theorem retry_decorator_policy (s : St) :
  retry_policy sleep func 3 3 s (retry_bluetooth_connection_error sleep func s)
  /\ (forall (e : exn) (step : St -> St),
        (forall s', func s' = (Raise e, step s')) ->
        retry_bluetooth_connection_error sleep func s
        = match classify e with
          | DeviceNotFound => (Raise e, step s)
          | BackoffWorthy => (Raise e, step (sleep 3 (step (sleep 3 (step s)))))
          | OtherRecoverable => (Raise e, step (step (step s)))
          | NotTransport => (Raise e, step s)
          end)
  /\ (forall (e : exn) (v : A) (s1 s2 : St),
        func s = (Raise e, s1) -> classify e = BackoffWorthy ->
        func (sleep 3 s1) = (Ok v, s2) ->
        retry_bluetooth_connection_error sleep func s = (Ok (Some v), s2))
  /\ (forall (e : exn) (v : A) (s1 s2 : St),
        func s = (Raise e, s1) -> classify e = OtherRecoverable ->
        func s1 = (Ok v, s2) ->
        retry_bluetooth_connection_error sleep func s = (Ok (Some v), s2)).
Proof.
  split; [exact (retry_loop_policy 2 0 s) |].
  unfold retry_bluetooth_connection_error, classify.
  change (range 0 DEFAULT_ATTEMPTS) with [0; 1; 2].
  change (DEFAULT_ATTEMPTS - 1) with 2.
  cbn [retry_loop]. unfold RETRY_BACKOFF_EXCEPTIONS.
  change BLEAK_BACKOFF_TIME with 3.
  change (2 <=? 0) with false. change (2 <=? 1) with false. change (2 <=? 2) with true.
  cbv iota.
  split; [| split].
  - intros e step Hf.
    repeat match goal with
           | |- context [func ?x] => rewrite (Hf x)
           end.
    destruct (exn_eqb e BleakNotFoundError); [reflexivity |].
    destruct (exn_eqb e BleakDBusError); [reflexivity |].
    destruct (BLEAK_EXCEPTIONS e); reflexivity.
  - intros e v s1 s2 E1 Hc E2. rewrite E1.
    destruct (exn_eqb e BleakNotFoundError); [discriminate |].
    destruct (exn_eqb e BleakDBusError).
    + rewrite E2. reflexivity.
    + destruct (BLEAK_EXCEPTIONS e); discriminate.
  - intros e v s1 s2 E1 Hc E2. rewrite E1.
    destruct (exn_eqb e BleakNotFoundError); [discriminate |].
    destruct (exn_eqb e BleakDBusError); [discriminate |].
    destruct (BLEAK_EXCEPTIONS e); [| discriminate].
    rewrite E2. reflexivity.
Qed.

(** What every attempt establishes, the decorated call establishes. *)
Lemma retry_loop_preserves (P : St -> Prop) :
  (forall s, P s -> P (snd (func s))) ->
  (forall t s, P s -> P (sleep t s)) ->
  forall max_attempts attempts s,
    P s -> P (snd (retry_loop sleep func max_attempts attempts s)).
Proof.
  intros Hf Hs max_attempts attempts.
  induction attempts as [| a rest IH]; intros s HP; [exact HP |].
  cbn [retry_loop]. specialize (Hf s HP).
  destruct (func s) as [[v | e] s1]; cbn [snd] in *; [exact Hf |].
  destruct (exn_eqb e BleakNotFoundError); [exact Hf |].
  destruct (RETRY_BACKOFF_EXCEPTIONS e).
  { destruct (max_attempts <=? a); [exact Hf | apply IH, Hs, Hf]. }
  destruct (BLEAK_EXCEPTIONS e); [| exact Hf].
  destruct (max_attempts <=? a); [exact Hf | apply IH, Hf].
Qed.

Lemma retry_establishes (P : St -> Prop) :
  (forall s, P (snd (func s))) ->
  (forall t s, P s -> P (sleep t s)) ->
  forall s, P (snd (retry_bluetooth_connection_error sleep func s)).
Proof.
  intros Hf Hs s. unfold retry_bluetooth_connection_error.
  change (range 0 DEFAULT_ATTEMPTS) with [0; 1; 2].
  generalize [1; 2]. intros rest. cbn [retry_loop].
  pose proof (Hf s) as H1.
  destruct (func s) as [[v | e] s1]; cbn [snd] in *; [exact H1 |].
  destruct (exn_eqb e BleakNotFoundError); [exact H1 |].
  destruct (RETRY_BACKOFF_EXCEPTIONS e).
  { destruct (DEFAULT_ATTEMPTS - 1 <=? 0); [exact H1 |].
    apply retry_loop_preserves; auto. }
  destruct (BLEAK_EXCEPTIONS e); [| exact H1].
  destruct (DEFAULT_ATTEMPTS - 1 <=? 0); [exact H1 |].
  apply retry_loop_preserves; auto.
Qed.

Lemma retry_preserves (P : St -> Prop) :
  (forall s, P s -> P (snd (func s))) ->
  (forall t s, P s -> P (sleep t s)) ->
  forall s, P s -> P (snd (retry_bluetooth_connection_error sleep func s)).
Proof.
  intros Hf Hs s HP. unfold retry_bluetooth_connection_error.
  apply retry_loop_preserves; assumption.
Qed.

(** A first attempt that returns ends the call. *)
Lemma retry_returns_at_once (s s1 : St) (v : A) :
  func s = (Ok v, s1) ->
  retry_bluetooth_connection_error sleep func s = (Ok (Some v), s1).
Proof.
  intros E. unfold retry_bluetooth_connection_error.
  change (range 0 DEFAULT_ATTEMPTS) with [0; 1; 2].
  generalize [1; 2]. intros rest. cbn [retry_loop].
  rewrite E. reflexivity.
Qed.
End RetryFacts.

(** *** [set_effect_speed] *)

Lemma set_effect_keeps_speed (name : string) (b : option Z) :
  keeps effect_speed (Model0x56.set_effect name b).
Proof.
  unfold Model0x56.set_effect, get_rgb_color, get_brightness_percent. keeps_tac.
Qed.

Section EffectSpeed.
Context {C : Consts} {B : BleakRetry} {T : Transport}.

Lemma on_link_keeps_model {A} (m : Link -> result A * Link) :
  keeps _model_interface (on_link m).
Proof. intros i. unfold on_link. destruct (m (link i)). reflexivity. Qed.

Lemma write_keeps_model (data : option (list Z)) :
  keeps _model_interface (_write data).
Proof.
  pose proof @on_link_keeps_model.
  unfold _write, ensure_connected, _write_while_connected. keeps_tac.
Qed.

Definition clamp_speed (speed : Z) : Z := Z.max 0 (Z.min 100 speed).

(** The decorated [set_effect] leaves the effect speed alone. *)
Lemma set_effect_stores_speed (name : string) (b : option Z) (v : Z) (i : Instance) :
  effect_speed (_model_interface i) = v ->
  effect_speed (_model_interface (snd (set_effect name b i))) = v.
Proof.
  unfold set_effect, retrying.
  apply (retry_preserves _ _ (fun i => effect_speed (_model_interface i) = v)).
  - intros j Hj. unfold on_model, bind.
    pose proof (set_effect_keeps_speed name b (_model_interface j)) as K.
    destruct (Model0x56.set_effect name b (_model_interface j)) as [[p | e] s'];
      cbn [snd] in *.
    + rewrite write_keeps_model. cbn. congruence.
    + cbn. congruence.
  - intros t j Hj. exact Hj.
Qed.

(** C10. For every integer [speed], [set_effect_speed] leaves
    [max(0, min(100, speed))] as the effect speed of the model, a value
    in 0..100; and when the effect is "off" it returns after that one
    store: the instance is otherwise as before, so nothing was sent, no
    connection was attempted and the packet counter did not move. *)
Theorem set_effect_speed_clamps (speed : Z) (i : Instance) :
  effect_speed (_model_interface (snd (set_effect_speed speed i))) = clamp_speed speed
  /\ 0 <= clamp_speed speed <= 100
  /\ (effect (_model_interface i) = EFFECT_OFF ->
      set_effect_speed speed i
      = (Ok (Some tt),
         with_model_interface (with_effect_speed (clamp_speed speed) (_model_interface i)) i)
      /\ journal (snd (set_effect_speed speed i)) = journal i
      /\ _packet_counter (snd (set_effect_speed speed i)) = _packet_counter i
      /\ link (snd (set_effect_speed speed i)) = link i).
Proof.
  split; [| split].
  - unfold set_effect_speed, retrying.
    apply (retry_establishes _ _
             (fun i => effect_speed (_model_interface i) = clamp_speed speed)).
    + intros j. fold (clamp_speed speed). apply establishes_bind.
      * intros k. reflexivity.
      * intros _. apply preserves_bind; [apply preserves_get | intros k].
        destruct (String.eqb (effect (_model_interface k)) EFFECT_OFF);
          [apply preserves_ret |].
        apply preserves_bind; [| intros ?; apply preserves_ret].
        intros k' Hk'. now apply set_effect_stores_speed.
    + intros t j Hj. exact Hj.
  - unfold clamp_speed. lia.
  - intros Hoff.
    assert (set_effect_speed speed i
            = (Ok (Some tt),
               with_model_interface
                 (with_effect_speed (clamp_speed speed) (_model_interface i)) i)) as E.
    { unfold set_effect_speed, retrying. apply retry_returns_at_once.
      fold (clamp_speed speed).
      unfold on_model, bind, modify, get, ret. lazy beta iota zeta.
      cbn [_model_interface with_model_interface effect with_effect_speed].
      rewrite Hoff. reflexivity. }
    rewrite E. repeat split.
Qed.
End EffectSpeed.

(** *** [hsv_to_rgb] on the documented ranges

    Hue 0..359, saturation 0..100 and brightness 0..255 are finitely many
    inputs: the three components are checked to be bytes on all of them,
    with the float comparisons standing for the truncation. *)

Lemma digits2_pos_bound (m : positive) : Z.pos m < 2 ^ Z.pos (digits2_pos m).
Proof.
  induction m as [m IH | m IH |]; cbn [digits2_pos];
    rewrite ?Pos2Z.inj_succ, ?Z.pow_succ_r by lia; lia.
Qed.

Definition byte_float (y : float) : bool :=
  PrimFloat.leb 0 y && PrimFloat.ltb y 256.

(** A float in [0, 256) truncates to a byte. *)
Lemma int_of_float_byte (y : float) :
  byte_float y = true -> exists z, int_of_float y = Ok z /\ is_byte z = true.
Proof.
  unfold byte_float. rewrite andb_true_iff, leb_spec, ltb_spec.
  replace (Prim2SF 0) with (S754_zero false) by (vm_compute; reflexivity).
  replace (Prim2SF 256) with (S754_finite false 4503599627370496 (-44))
    by (vm_compute; reflexivity).
  pose proof (Prim2SF_valid y) as Hv. unfold int_of_float.
  destruct (Prim2SF y) as [sz | si | | sg m e]; intros [Hle Hlt].
  - exists 0. split; reflexivity.
  - destruct si; discriminate.
  - discriminate.
  - destruct sg; [discriminate |].
    cbn [SpecFloat.valid_binary] in Hv. unfold bounded, canonical_mantissa, fexp in Hv.
    apply andb_true_iff in Hv. destruct Hv as [Hc _]. apply Z.eqb_eq in Hc.
    pose proof (digits2_pos_bound m) as Hd.
    assert (Z.pos (digits2_pos m) <= 53) as Hdig.
    { change prec with 53 in Hc.
      pose proof (Z.le_max_l (Z.pos (digits2_pos m) + e - 53) (SpecFloat.emin 53 emax)) as Hm.
      change Z.max with IntDef.Z.max in Hm. lia. }
    assert (Z.pos m < 2 ^ 53) as Hm53.
    { eapply Z.lt_le_trans; [exact Hd |]. apply Z.pow_le_mono_r; lia. }
    change (2 ^ 53) with 9007199254740992 in Hm53.
    clear Hd Hc Hdig Hle.
    unfold SFltb, SFcompare in Hlt.
    destruct (e ?= -44) eqn:Ee; try discriminate.
    + apply Z.compare_eq in Ee. subst e.
      destruct (PosDef.Pos.compare_cont Eq m 4503599627370496) eqn:Em;
        try discriminate.
      assert (Z.pos m < 4503599627370496) as Hm52 by exact Em.
      clear Hlt Em.
      eexists. split; [reflexivity |].
      change (0 <=? -44) with false. change (- -44) with 44. cbv iota.
      rewrite Z.shiftr_div_pow2 by lia.
      change (2 ^ 44) with 17592186044416.
      unfold is_byte. apply andb_true_iff. split.
      * apply Z.leb_le. apply Z.div_pos; lia.
      * apply Z.ltb_lt. apply Z.div_lt_upper_bound; lia.
    + rewrite Z.compare_lt_iff in Ee.
      eexists. split; [reflexivity |].
      replace (0 <=? e) with false by (symmetry; apply Z.leb_gt; lia).
      rewrite Z.shiftr_div_pow2 by lia.
      assert (2 ^ 45 <= 2 ^ (- e)) as Hp by (apply Z.pow_le_mono_r; lia).
      unfold is_byte. apply andb_true_iff. split.
      * apply Z.leb_le. apply Z.div_pos; lia.
      * apply Z.ltb_lt. apply Z.div_lt_upper_bound; [lia |].
        change (2 ^ 45) with 35184372088832 in Hp. lia.
Qed.

(** What [hsv_to_rgb] does once its three arguments are floats. *)
Definition components (h s v : float) : result (list Z) :=
  rbind (Colorsys.hsv_to_rgb h s v) (fun rgb =>
  let '(r, g, b) := rgb in
  rbind (int_of_float (r * 255)) (fun r =>
  rbind (int_of_float (g * 255)) (fun g =>
  rbind (int_of_float (b * 255)) (fun b =>
  Ok [r; g; b])))).

Lemma hsv_to_rgb_components (h s v : Z) :
  hsv_to_rgb h s (Some v)
  = rbind (int_div_float h 360) (fun fh =>
    rbind (int_div_float s 100) (fun fs =>
    rbind (int_div_float v 255) (fun fv => components fh fs fv))).
Proof. reflexivity. Qed.

Definition colour_ok (c : float) : bool := byte_float (c * 255).

(** The check for one hue: the sector and the fraction are found once, the
    four candidate components are checked for every saturation and value. *)
Definition hue_ok (sats vals : list (result float)) (rh : result float) : bool :=
  match rh with
  | Raise _ => false
  | Ok fh =>
    match int_of_float (fh * 6) with
    | Raise _ => false
    | Ok i =>
      match float_of_int i with
      | Raise _ => false
      | Ok fi =>
        let f := (fh * 6 - fi)%float in
        forallb
          (fun rs =>
             match rs with
             | Raise _ => false
             | Ok fs =>
               let xp := (1 - fs)%float in
               let xq := (1 - fs * f)%float in
               let xt := (1 - fs * (1 - f))%float in
               forallb
                 (fun rv =>
                    match rv with
                    | Raise _ => false
                    | Ok fv =>
                      colour_ok fv && colour_ok (fv * xp)
                      && colour_ok (fv * xq) && colour_ok (fv * xt)
                    end)
                 vals
             end)
          sats
      end
    end
  end.

(** The three argument lists of the check: every hue, saturation and
    brightness of the documented ranges, as [hsv_to_rgb] divides them. *)
Definition hue_floats : list (result float) :=
  map (fun h => int_div_float h 360) (range 0 360).
Definition saturation_floats : list (result float) :=
  map (fun s => int_div_float s 100) (range 0 101).
Definition value_floats : list (result float) :=
  map (fun v => int_div_float v 255) (range 0 256).

Lemma In_hue_floats (h : Z) : 0 <= h < 360 -> In (int_div_float h 360) hue_floats.
Proof.
  intros H. apply (in_map (fun h => int_div_float h 360)). now apply In_range.
Qed.

Lemma In_saturation_floats (s : Z) :
  0 <= s <= 100 -> In (int_div_float s 100) saturation_floats.
Proof.
  intros H. apply (in_map (fun s => int_div_float s 100)). apply In_range. lia.
Qed.

Lemma In_value_floats (v : Z) :
  0 <= v <= 255 -> In (int_div_float v 255) value_floats.
Proof.
  intros H. apply (in_map (fun v => int_div_float v 255)). apply In_range. lia.
Qed.

Lemma all_colours_checked :
  forallb (hue_ok saturation_floats value_floats) hue_floats = true.
Proof. vm_compute. reflexivity. Qed.

Lemma hsv_to_rgb_bytes (h s v : Z) :
  0 <= h < 360 -> 0 <= s <= 100 -> 0 <= v <= 255 ->
  exists r g b,
    hsv_to_rgb h s (Some v) = Ok [r; g; b]
    /\ is_byte r = true /\ is_byte g = true /\ is_byte b = true.
Proof.
  intros Hh Hs Hv.
  pose proof (In_saturation_floats s Hs) as Is.
  pose proof (In_value_floats v Hv) as Iv.
  pose proof all_colours_checked as H.
  rewrite forallb_forall in H.
  specialize (H _ (In_hue_floats h Hh)).
  rewrite hsv_to_rgb_components.
  revert Is Iv H.
  generalize saturation_floats, value_floats. intros sats vals Is Iv H.
  destruct (int_div_float h 360) as [fh |]; [| discriminate].
  unfold hue_ok in H.
  destruct (int_of_float (fh * 6)) as [i |] eqn:Ei; [| discriminate].
  destruct (float_of_int i) as [fi |] eqn:Ef; [| discriminate].
  cbv zeta in H. rewrite forallb_forall in H.
  specialize (H _ Is).
  destruct (int_div_float s 100) as [fs |]; [| discriminate].
  rewrite forallb_forall in H.
  specialize (H _ Iv).
  destruct (int_div_float v 255) as [fv |]; [| discriminate].
  apply andb_true_iff in H. destruct H as [H Ht].
  apply andb_true_iff in H. destruct H as [H Hq].
  apply andb_true_iff in H. destruct H as [Hv' Hp].
  destruct (int_of_float_byte _ Hv') as (zv & Ezv & Bv).
  destruct (int_of_float_byte _ Hp) as (zp & Ezp & Bp).
  destruct (int_of_float_byte _ Hq) as (zq & Ezq & Bq).
  destruct (int_of_float_byte _ Ht) as (zt & Ezt & Bt).
  cbv beta iota delta [rbind components Colorsys.hsv_to_rgb].
  destruct (PrimFloat.eqb fs 0).
  - rewrite Ezv. exists zv, zv, zv. repeat split; assumption.
  - rewrite Ei, Ef. cbv zeta.
    pose proof (Z.mod_pos_bound i 6 ltac:(lia)) as Hi.
    destruct (i mod 6 =? 0) eqn:E0;
      [rewrite Ezv, Ezt, Ezp; exists zv, zt, zp; repeat split; assumption |].
    destruct (i mod 6 =? 1) eqn:E1;
      [rewrite Ezq, Ezv, Ezp; exists zq, zv, zp; repeat split; assumption |].
    destruct (i mod 6 =? 2) eqn:E2;
      [rewrite Ezp, Ezv, Ezt; exists zp, zv, zt; repeat split; assumption |].
    destruct (i mod 6 =? 3) eqn:E3;
      [rewrite Ezp, Ezq, Ezv; exists zp, zq, zv; repeat split; assumption |].
    destruct (i mod 6 =? 4) eqn:E4;
      [rewrite Ezt, Ezp, Ezv; exists zt, zp, zv; repeat split; assumption |].
    destruct (i mod 6 =? 5) eqn:E5;
      [rewrite Ezv, Ezp, Ezq; exists zv, zp, zq; repeat split; assumption |].
    apply Z.eqb_neq in E0, E1, E2, E3, E4, E5. lia.
Qed.

(** *** The checksum of [set_color] *)

(** The background colour and the effect speed of the state are bytes, as
    the constructor and the decoders leave them. *)
Definition stored_bytes (st : DeviceState) : Prop :=
  forallb is_byte (triple_to_list (bg_color st)) = true
  /\ is_byte (effect_speed st) = true.

Lemma land_0xFF_r (c : Z) : Z.land c 0xFF = c mod 256.
Proof. apply (Z.land_ones c 8). lia. Qed.

(** C6. For a brightness in 0..255, a hue in 0..359 and a saturation in
    0..100, on a state whose background colour and effect speed are bytes,
    [set_color] returns a packet of 21 bytes; bytes 9..16 are the mode 0,
    the foreground RGB of [hsv_to_rgb], the background RGB and the effect
    speed; and byte 20 is the sum of bytes 8..18 of that packet modulo
    256. *)
Theorem set_color_checksum (h s b : Z) (st : DeviceState) :
  0 <= h < 360 -> 0 <= s <= 100 -> 0 <= b <= 255 -> stored_bytes st ->
  exists pkt rgb,
    fst (set_color (h, s) b st) = Ok pkt
    /\ hsv_to_rgb h s (Some b) = Ok rgb
    /\ List.length pkt = 21%nat
    /\ slice 9 17 pkt
       = (0 :: rgb ++ triple_to_list (bg_color st) ++ [effect_speed st])%list
    /\ nth 20 pkt 0 = sum (slice 8 19 pkt) mod 256.
Proof.
  intros Hh Hs Hb [Hbg Hsp].
  destruct (hsv_to_rgb_bytes h s b Hh Hs Hb) as (r & g & bl & Hrgb & Br & Bg & Bb).
  destruct (bg_color st) as [[b0 b1] b2] eqn:Ebg.
  cbn [triple_to_list forallb] in Hbg.
  apply andb_true_iff in Hbg. destruct Hbg as [B0 Hbg].
  apply andb_true_iff in Hbg. destruct Hbg as [B1 Hbg].
  apply andb_true_iff in Hbg. destruct Hbg as [B2 _].
  unfold set_color, get_rgb_color. unfold_monad.
  cbn [fst snd brightness hs_color bg_color effect_speed
       with_color_mode with_hs_color with_brightness].
  rewrite Hrgb, Ebg.
  unfold setitem, setslice.
  repeat first
    [ rewrite Br | rewrite Bg | rewrite Bb | rewrite B0 | rewrite B1 | rewrite B2
    | rewrite Hsp | rewrite land_0xFF_r | rewrite is_byte_mod
    | progress change (is_byte 0) with true
    | progress cbv [color_packet_template List.length Nat.ltb Nat.leb replace_nth
                    firstn skipn Nat.max app triple_to_list forallb andb
                    slice Nat.sub sum fold_left fst] ].
  eexists. eexists.
  split; [reflexivity |]. split; [reflexivity |]. split; [reflexivity |].
  split; [reflexivity |].
  cbv [nth slice firstn skipn Nat.sub sum fold_left]. reflexivity.
Qed.

(** *** "off" and the colour mode *)

(** What the code keeps: the colour mode is never colour temperature, and
    while the effect is "off" it is not brightness-only. *)
Definition off_is_colour (s : DeviceState) : Prop :=
  color_mode s <> COLOR_TEMP
  /\ (effect s = EFFECT_OFF -> color_mode s <> BRIGHTNESS).

Lemma dict_item_In (d : list (Z * string)) (k : Z) (v : string) :
  dict_item Z.eqb d k = Ok v -> In (k, v) d.
Proof.
  unfold dict_item. induction d as [| [k' v'] d IH]; cbn [dict_get]; [discriminate |].
  destruct (Z.eqb k' k) eqn:E.
  - intros [= <-]. apply Z.eqb_eq in E. subst. now left.
  - intros H. right. auto.
Qed.

(** No name of the table is "off". *)
Lemma decoded_name_not_off (code : Z) (name : string) :
  decode_effect code = Ok name -> name <> EFFECT_OFF.
Proof.
  intros H. apply dict_item_In in H.
  assert (forallb (fun e => negb (String.eqb (snd e) EFFECT_OFF)) EFFECT_ID_TO_NAME_0x56
          = true) as Hall by (vm_compute; reflexivity).
  rewrite forallb_forall in Hall. specialize (Hall _ H).
  cbv beta iota delta [snd] in Hall. apply negb_true_iff in Hall.
  apply String.eqb_neq in Hall. exact Hall.
Qed.

Lemma listed_name_not_off (name : string) :
  contains EFFECT_LIST_0x56 name = true -> name <> EFFECT_OFF.
Proof.
  intros H ->. 
  assert (contains EFFECT_LIST_0x56 EFFECT_OFF = false) as E by (vm_compute; reflexivity).
  congruence.
Qed.

Ltac case_step :=
  match goal with
  | |- context [match ?r with Ok _ => _ | Raise _ => _ end] => destruct r eqn:?
  | |- context [match ?o with Some _ => _ | None => _ end] => destruct o eqn:?
  | |- context [if ?b then _ else _] => destruct b eqn:?
  | |- context [let (_, _) := ?p in _] => destruct p eqn:?
  end.

Ltac off_facts :=
  repeat match goal with
  | H : decode_effect _ = Ok _ |- _ => apply decoded_name_not_off in H
  end.

(** A body run by cases on every result it depends on. *)
Ltac run_off :=
  unfold_monad;
  repeat (cbn [fst snd]; case_step);
  cbn [fst snd]; off_facts;
  cbn [effect color_mode with_led_count with_is_on with_chip_type with_color_order
       with_brightness with_hs_color with_effect with_effect_speed with_color_mode
       with__color_mode with_color_temperature_kelvin with_bg_color
       with__parent_instance with__delay] in *;
  try solve [tauto | intuition congruence | intuition discriminate].

Lemma update_color_state_off (rgb : list Z) : preserves off_is_colour (update_color_state rgb).
Proof. intros s [H1 H2]. unfold off_is_colour, update_color_state. run_off. Qed.

Lemma update_effect_state_off (mode sel : Z) (rgb : list Z) (speed br : Z) :
  preserves off_is_colour (update_effect_state mode sel rgb speed br).
Proof.
  intros s [H1 H2]. unfold off_is_colour, update_effect_state, update_color_state. run_off.
Qed.

Create HintDb off_db.

Ltac preserves_step :=
  lazymatch goal with
  | |- preserves _ (bind _ _) => apply preserves_bind; [| intros ?]
  | |- preserves _ (ret _) => apply preserves_ret
  | |- preserves _ (raise _) => apply preserves_raise
  | |- preserves _ (lift _) => apply preserves_lift
  | |- preserves _ get => apply preserves_get
  | |- preserves _ (gets _) => apply preserves_gets
  | |- preserves _ (modify _) => apply preserves_modify; intros ? ?; assumption
  | |- preserves _ (try_except _ _ _) => apply preserves_try_except
  | |- preserves _ (if ?b then _ else _) => destruct b
  | |- preserves _ (match ?x with _ => _ end) => destruct x
  | |- preserves _ _ => solve [auto with off_db]
  end.

Ltac preserves_tac := repeat preserves_step.

Lemma keeps_off {A} (m : M DeviceState A) :
  keeps effect m -> keeps color_mode m -> preserves off_is_colour m.
Proof.
  intros He Hc s Hs. unfold off_is_colour in *. now rewrite He, Hc.
Qed.

Lemma set_segments_keeps {X} (f : DeviceState -> X) (v : Z) :
  (forall w s, f (with__parent_instance w s) = f s) -> keeps f (set_segments v).
Proof.
  intros H. unfold set_segments.
  apply keeps_bind; [apply keeps_get | intros s].
  destruct (_parent_instance s); [apply keeps_modify; intros; apply H | apply keeps_ret].
Qed.

Lemma set_color_off (hs : Z * Z) (b : Z) : preserves off_is_colour (set_color hs b).
Proof.
  intros s [H1 H2]. unfold off_is_colour, set_color, get_rgb_color. run_off.
Qed.

Lemma set_effect_off (name : string) (b : option Z) :
  preserves off_is_colour (Model0x56.set_effect name b).
Proof.
  intros s [H1 H2].
  unfold off_is_colour, Model0x56.set_effect, get_rgb_color, get_brightness_percent.
  destruct (contains EFFECT_LIST_0x56 name) eqn:Hin; cbn [negb].
  - apply listed_name_not_off in Hin. run_off.
  - cbn. tauto.
Qed.

#[local] Hint Resolve set_color_off set_effect_off update_color_state_off
  update_effect_state_off : off_db.

Lemma set_brightness_off (b : Z) : preserves off_is_colour (set_brightness b).
Proof. unfold set_brightness. preserves_tac. Qed.

Lemma turn_on_off : preserves off_is_colour ModelAbstractions.turn_on.
Proof.
  apply keeps_off; unfold ModelAbstractions.turn_on; keeps_tac.
Qed.

Lemma turn_off_off : preserves off_is_colour ModelAbstractions.turn_off.
Proof.
  apply keeps_off; unfold ModelAbstractions.turn_off; keeps_tac.
Qed.

Lemma set_led_settings_off (o : LedOptions) : preserves off_is_colour (set_led_settings o).
Proof.
  apply keeps_off; unfold set_led_settings, segments;
    pose proof (set_segments_keeps effect) as K1;
    pose proof (set_segments_keeps color_mode) as K2;
    keeps_tac; first [apply K1 | apply K2]; reflexivity.
Qed.

(** The commands and notifications a model object goes through once it is
    built: the encoders, the decoder, and the two stores its owner makes
    directly ([LEDNETWFInstance.__init__] attaches itself and copies the
    configured chip type and colour order; [set_effect_speed] stores the
    speed). *)
Inductive operation : Type :=
| OpSetColor (hs : Z * Z) (brightness : Z)
| OpSetEffect (name : string) (brightness : option Z)
| OpSetBrightness (brightness : Z)
| OpTurnOn
| OpTurnOff
| OpSetLedSettings (options : LedOptions)
| OpNotification (data : list Z)
| OpStoreEffectSpeed (speed : Z)
| OpAttach (segments : Z) (chip order : option Z).

Section Reachable.
Context {C : Consts}.

(** The state an operation leaves, whether it returned or raised. *)
Definition apply_operation (o : operation) (s : DeviceState) : DeviceState :=
  match o with
  | OpSetColor hs b => snd (set_color hs b s)
  | OpSetEffect name b => snd (Model0x56.set_effect name b s)
  | OpSetBrightness b => snd (set_brightness b s)
  | OpTurnOn => snd (ModelAbstractions.turn_on s)
  | OpTurnOff => snd (ModelAbstractions.turn_off s)
  | OpSetLedSettings o => snd (set_led_settings o s)
  | OpNotification data => snd (notification_handler data s)
  | OpStoreEffectSpeed v => with_effect_speed v s
  | OpAttach segs chip order =>
    with_color_order order (with_chip_type chip (with__parent_instance (Some segs) s))
  end.

Inductive reachable : DeviceState -> Prop :=
| reachable_init : forall manu s, init manu = Ok s -> reachable s
| reachable_step : forall o s, reachable s -> reachable (apply_operation o s).

Lemma notification_handler_0x80_off (data : list Z) :
  preserves off_is_colour (notification_handler_0x80 data).
Proof.
  pose proof (fun v => keeps_off _ (set_segments_keeps effect v (fun _ _ => eq_refl))
                         (set_segments_keeps color_mode v (fun _ _ => eq_refl))) as K.
  unfold notification_handler_0x80. preserves_tac; apply K.
Qed.

Lemma status_response_off (payload : list Z) :
  preserves off_is_colour (status_response payload).
Proof.
  intros s [H1 H2]. unfold off_is_colour, status_response, update_color_state. run_off.
Qed.

Lemma settings_response_off (payload : list Z) :
  preserves off_is_colour (settings_response payload).
Proof. unfold settings_response. preserves_tac. Qed.

Lemma led_settings_response_off (payload : list Z) :
  preserves off_is_colour (led_settings_response payload).
Proof.
  pose proof (fun v => keeps_off _ (set_segments_keeps effect v (fun _ _ => eq_refl))
                         (set_segments_keeps color_mode v (fun _ _ => eq_refl))) as K.
  unfold led_settings_response. preserves_tac; apply K.
Qed.

Lemma notification_handler_off (data : list Z) :
  preserves off_is_colour (notification_handler data).
Proof.
  pose proof notification_handler_0x80_off. pose proof status_response_off.
  pose proof settings_response_off. pose proof led_settings_response_off.
  unfold notification_handler, notification_handler_text. preserves_tac.
Qed.

Lemma init_off (manu : option (list Z)) (s : DeviceState) :
  init manu = Ok s -> off_is_colour s.
Proof.
  unfold init. unfold rbind at 1.
  destruct (DefaultModelAbstraction_init manu) as [s0 |] eqn:E0; [| discriminate].
  assert (off_is_colour (with_bg_color (0, 0, 0) s0)) as H0.
  { unfold DefaultModelAbstraction_init in E0. unfold rbind in E0.
    destruct manu as [md |].
    - repeat match type of E0 with
             | match ?r with Ok _ => _ | Raise _ => _ end = _ =>
               destruct r; [| discriminate]
             end.
      injection E0 as <-. split; cbn; [discriminate | intros _; discriminate].
    - injection E0 as <-. split; cbn; [discriminate | intros _; discriminate]. }
  assert (preserves off_is_colour init_body) as Hb.
  { intros t [H1 H2]. unfold off_is_colour, init_body. run_off. }
  specialize (Hb _ H0).
  destruct (init_body (with_bg_color (0, 0, 0) s0)) as [[u | e] s1]; [| discriminate].
  intros [= <-]. exact Hb.
Qed.

Lemma apply_operation_off (o : operation) (s : DeviceState) :
  off_is_colour s -> off_is_colour (apply_operation o s).
Proof.
  destruct o; cbn [apply_operation].
  - apply set_color_off.
  - apply set_effect_off.
  - apply set_brightness_off.
  - apply turn_on_off.
  - apply turn_off_off.
  - apply set_led_settings_off.
  - apply notification_handler_off.
  - intros H. exact H.
  - intros H. exact H.
Qed.

(** C8, as the code has it. In every reachable state (built from
    manufacturer data or from none, then any sequence of commands and
    notifications), an effect of "off" implies that the colour mode is
    hue-saturation or still unknown, the value the constructor leaves
    when the advertised mode byte is not 0x61. *)
Theorem off_implies_hs_or_unknown (s : DeviceState) :
  reachable s -> effect s = EFFECT_OFF -> color_mode s = HS \/ color_mode s = UNKNOWN.
Proof.
  intros Hr.
  assert (off_is_colour s) as [H1 H2].
  { induction Hr as [manu s Hi | o s Hr IH].
    - exact (init_off manu s Hi).
    - apply apply_operation_off. exact IH. }
  intros Hoff. specialize (H2 Hoff).
  destruct (color_mode s); [now right | now left | congruence | congruence].
Qed.
End Reachable.

(** *** What the encoders check *)

Lemma replace_nth_length (i : nat) (v : Z) (l : list Z) :
  List.length (replace_nth i v l) = List.length l.
Proof.
  revert i. induction l as [| x l IH]; intros [| i]; cbn; try reflexivity.
  now rewrite IH.
Qed.

Lemma setitem_length (i : nat) (v : Z) (b b' : list Z) :
  setitem i v b = Ok b' -> List.length b' = List.length b.
Proof.
  unfold setitem. destruct (Nat.ltb i (List.length b)); [| discriminate].
  destruct (is_byte v); [| discriminate].
  intros [= <-]. apply replace_nth_length.
Qed.

Lemma setslice_length (i j : nat) (vs b b' : list Z) :
  setslice i j vs b = Ok b' -> (i <= j)%nat -> (j <= List.length b)%nat ->
  List.length vs = (j - i)%nat -> List.length b' = List.length b.
Proof.
  unfold setslice. destruct (forallb is_byte vs); [| discriminate].
  intros [= <-] Hij Hj Hvs.
  rewrite !length_app, length_firstn, length_skipn, Hvs. lia.
Qed.

Lemma hsv_to_rgb_length (h s : Z) (v : option Z) (rgb : list Z) :
  hsv_to_rgb h s v = Ok rgb -> List.length rgb = 3%nat.
Proof.
  unfold hsv_to_rgb, rbind.
  repeat match goal with
         | |- match ?r with Ok _ => _ | Raise _ => _ end = _ -> _ =>
           destruct r; [| discriminate]
         | |- (let '(_, _) := ?p in _) = _ -> _ => destruct p
         end.
  intros [= <-]. reflexivity.
Qed.

Lemma set_color_stores (hs : Z * Z) (br : Z) (st : DeviceState) :
  snd (set_color hs br st)
  = with_brightness (Some br) (with_hs_color hs (with_color_mode HS st)).
Proof.
  unfold set_color, get_rgb_color. unfold_monad.
  repeat (cbn [fst snd]; try reflexivity; case_step).
Qed.

Lemma set_color_length (hs : Z * Z) (br : Z) (st : DeviceState) (pkt : list Z) :
  fst (set_color hs br st) = Ok pkt -> List.length pkt = 21%nat.
Proof.
  unfold set_color, get_rgb_color. unfold_monad. cbn [fst snd].
  destruct (hsv_to_rgb _ _ _) as [rgb |] eqn:Eh; [| discriminate].
  apply hsv_to_rgb_length in Eh.
  destruct (setitem 9 0 color_packet_template) as [p1 |] eqn:E1; [| discriminate].
  apply setitem_length in E1. change (List.length color_packet_template) with 21%nat in E1.
  destruct (setslice 10 13 rgb p1) as [p2 |] eqn:E2; [| discriminate].
  apply setslice_length in E2; [| lia | lia | exact Eh].
  destruct (setslice 13 16 _ p2) as [p3 |] eqn:E3; [| discriminate].
  apply setslice_length in E3;
    [| lia | lia | destruct (bg_color _) as [[? ?] ?]; reflexivity].
  destruct (setitem 16 _ p3) as [p4 |] eqn:E4; [| discriminate].
  apply setitem_length in E4.
  destruct (setitem 20 _ p4) as [p5 |] eqn:E5; [| discriminate].
  apply setitem_length in E5.
  cbn [fst snd]. intros [= <-]. lia.
Qed.

Lemma set_effect_stores_brightness (name : string) (b : option Z) (st : DeviceState) :
  contains EFFECT_LIST_0x56 name = true ->
  brightness (snd (Model0x56.set_effect name b st)) = b.
Proof.
  intros Hin. unfold Model0x56.set_effect. rewrite Hin. cbn [negb].
  unfold bind at 1. unfold modify at 1.
  apply (establishes_bind (fun s => brightness s = b)).
  - intros s. reflexivity.
  - intros _. apply (keeps_preserves brightness _ (fun x => x = b)).
    unfold get_rgb_color, get_brightness_percent. keeps_tac.
Qed.

(** C3, as the code has it. [set_effect] with a name that is not in the
    effect table raises [ValueError]: it returns nothing, builds no packet
    and leaves the state as it was; with a name of the table it stores the
    brightness it is given, whatever it is. [set_color] checks neither the
    brightness nor the hue and saturation: it stores the colour mode, the
    colour and the brightness it was given; if the conversion raises, that
    exception goes through; otherwise the call returns a packet of 21
    bytes, with the mode 0, the RGB, the stored background colour and the
    stored effect speed at bytes 9..16, exactly when these seven values
    are bytes, and raises [ValueError], from the byte store, when one of
    them is not. *)
Theorem encoders_raise_and_do_not_validate
    (name listed : string) (b : option Z) (hs : Z * Z) (br : Z) (st : DeviceState) :
  contains EFFECT_LIST_0x56 name = false ->
  contains EFFECT_LIST_0x56 listed = true ->
  Model0x56.set_effect name b st = (Raise ValueError, st)
  /\ brightness (snd (Model0x56.set_effect listed b st)) = b
  /\ snd (set_color hs br st)
     = with_brightness (Some br) (with_hs_color hs (with_color_mode HS st))
  /\ match hsv_to_rgb (fst hs) (snd hs) (Some br) with
     | Raise e => fst (set_color hs br st) = Raise e
     | Ok rgb =>
       if forallb is_byte (rgb ++ triple_to_list (bg_color st) ++ [effect_speed st])
       then exists pkt,
              fst (set_color hs br st) = Ok pkt
              /\ List.length pkt = 21%nat
              /\ slice 9 17 pkt
                 = (0 :: rgb ++ triple_to_list (bg_color st) ++ [effect_speed st])%list
       else fst (set_color hs br st) = Raise ValueError
     end.
Proof.
  intros Habsent Hlisted. split; [| split; [| split]].
  - unfold Model0x56.set_effect. rewrite Habsent. reflexivity.
  - now apply set_effect_stores_brightness.
  - apply set_color_stores.
  - unfold set_color, get_rgb_color. unfold_monad.
    cbn [fst snd brightness hs_color bg_color effect_speed
         with_color_mode with_hs_color with_brightness].
    destruct (hsv_to_rgb (fst hs) (snd hs) (Some br)) as [rgb | e] eqn:Eh;
      [| reflexivity].
    pose proof (hsv_to_rgb_length _ _ _ _ Eh) as Hlen.
    destruct rgb as [| r [| g [| bl [| ? ?]]]]; try discriminate Hlen.
    destruct (bg_color st) as [[b0 b1] b2].
    cbn [triple_to_list app forallb].
    unfold setitem, setslice.
    change (is_byte 0) with true.
    cbv [color_packet_template List.length Nat.ltb Nat.leb replace_nth
         firstn skipn Nat.max app forallb].
    destruct (is_byte r); [| reflexivity].
    destruct (is_byte g); [| reflexivity].
    destruct (is_byte bl); [| reflexivity].
    destruct (is_byte b0); [| reflexivity].
    destruct (is_byte b1); [| reflexivity].
    destruct (is_byte b2); [| reflexivity].
    cbn [andb].
    cbv [List.length Nat.ltb Nat.leb replace_nth].
    destruct (is_byte (effect_speed st)); [| reflexivity].
    rewrite land_0xFF_r, is_byte_mod.
    cbv [List.length Nat.ltb Nat.leb replace_nth slice firstn skipn Nat.sub fst].
    eexists. split; [reflexivity |]. split; reflexivity.
Qed.

(** *** The notification decoder on frames it cannot use *)

Lemma int_truediv_byte (br : Z) :
  0 <= br < 256 -> exists f, int_truediv br 255 = Ok f.
Proof.
  intros H.
  assert (forallb (fun b => is_ok (int_truediv b 255)) (range 0 256) = true) as Hall
    by (vm_compute; reflexivity).
  rewrite forallb_forall in Hall. specialize (Hall br (proj2 (In_range 0 256 br) H)).
  destruct (int_truediv br 255) as [f |]; [now exists f | discriminate].
Qed.

(** A text notification whose status block announces mode 0x25 and the
    effect code 0, which is in no table: [x"8100232500326400000000001e"]. *)
Definition status_frame_unknown_effect : list Z :=
  (120 :: QUOTE :: codepoints "8100232500326400000000001e" ++ [QUOTE])%list.

(** The same report in the binary layout of firmware 0x80. *)
Definition status_frame_unknown_effect_0x80 : list Z :=
  [0; 0; 0x80; 0; 0; 0x0e; 0x0f; 0; 0; 0; 0x23; 0x25; 0; 0x32; 0; 0; 0].

(** The documented LED-settings answer of firmware 0x80, cut after its
    twelfth byte. *)
Definition truncated_led_settings_frame : list Z :=
  [0x04; 0x04; 0x80; 0; 0; 0x0b; 0x0c; 0x15; 0; 0x63; 0; 0x0f].

(** Manufacturer data of a firmware 0x80 device that advertises no mode. *)
Definition manu_data_0x80 : list Z := 0x80 :: repeat 0 24.

Section DecoderFacts.
Context {C : Consts}.

(** C4, on the code. An effect code that is in no table raises [KeyError]
    in the effects mode 0x25, in [update_effect_state] and in the status
    block of a text notification alike (there after the LED count and the
    power state were stored), where the music mode 0x62 catches the same
    error and stores "Unknown". *)
Theorem unknown_effect_code_in_mode_0x25_raises :
  (forall st sel rgb speed br,
      0 <= br < 256 -> decode_effect sel = Raise KeyError ->
      update_effect_state 0x25 sel rgb speed br st = (Raise KeyError, st))
  /\ (forall st sel rgb speed br,
      0 <= br < 256 -> decode_effect (Z.shiftl (sel + 0x32) 8) = Raise KeyError ->
      update_effect_state 0x62 sel rgb speed br st
      = (Ok tt, with_effect "Unknown" st))
  /\ (forall st payload power sel p12,
      getitem payload 2 = Ok power -> getitem payload 3 = Ok 0x25 ->
      getitem payload 4 = Ok sel -> getitem payload 12 = Ok p12 ->
      decode_effect sel = Raise KeyError ->
      status_response payload st
      = (Raise KeyError, with_is_on (power =? 0x23) (with_led_count (Some p12) st)))
  /\ (exists st, init None = Ok st
      /\ notification_handler status_frame_unknown_effect st
         = (Raise KeyError, with_is_on true (with_led_count (Some 30) st)))
  /\ (exists st, init (Some manu_data_0x80) = Ok st
      /\ notification_handler status_frame_unknown_effect_0x80 st
         = (Raise KeyError, with_is_on true st)).
Proof.
  split; [| split; [| split; [| split]]].
  - intros st sel rgb speed br Hbr Hdec.
    destruct (int_truediv_byte br Hbr) as [f Hf].
    unfold update_effect_state. unfold_monad. rewrite Hf, Hdec. reflexivity.
  - intros st sel rgb speed br Hbr Hdec.
    destruct (int_truediv_byte br Hbr) as [f Hf].
    unfold update_effect_state. unfold_monad. rewrite Hf, Hdec. reflexivity.
  - intros st payload power sel p12 H2 H3 H4 H12 Hdec.
    unfold status_response. unfold_monad. rewrite H2, H3, H4, H12, Hdec. reflexivity.
  - eexists. split; [reflexivity |]. vm_compute. reflexivity.
  - eexists. split; [reflexivity |]. vm_compute. reflexivity.
Qed.

End DecoderFacts.

(* ================================================================== *)
(** ** Concrete runs                                                    *)
(* ================================================================== *)

(** A link that is always up, for running the instance. *)
Definition always_connected : Transport :=
  {| Link := unit;
     _ensure_connected := fun l => (Ok tt, l);
     write_gatt_char := fun _ l => (Ok tt, l) |}.

(** An instance around a model object, nothing sent yet. *)
Definition fresh_instance (st : DeviceState) : @Instance always_connected :=
  @Build_Instance always_connected 0 st false tt [].

(** A stand-in for the two enumerations of [const.py] in the concrete
    runs: every value is a member. *)
Definition every_value : Consts :=
  {| LedTypes_StripLight := fun _ => true; ColorOrdering := fun _ => true |}.

(** The object [Model0x56(None)] builds, and the one built from
    [manu_data_0x80]. *)
Definition blank_state : DeviceState :=
  {| manu_data := repeat 0 25; fw_major := 0; fw_minor := "Unknown version";
     led_count := None; is_on := false; chip_type := None;
     color_order := None; brightness := None; hs_color := (0, 100);
     effect := EFFECT_OFF; effect_speed := 50; color_mode := UNKNOWN;
     _color_mode := None; color_temperature_kelvin := None;
     bg_color := (0, 0, 0); _parent_instance := None; _delay := None |}.

Definition blank_state_0x80 : DeviceState :=
  {| manu_data := manu_data_0x80; fw_major := 0x80; fw_minor := "0000.00";
     led_count := Some 0; is_on := false; chip_type := None;
     color_order := None; brightness := None; hs_color := (0, 100);
     effect := EFFECT_OFF; effect_speed := 50; color_mode := UNKNOWN;
     _color_mode := None; color_temperature_kelvin := None;
     bg_color := (0, 0, 0); _parent_instance := None; _delay := None |}.

Lemma init_blank : init None = Ok blank_state.
Proof. reflexivity. Qed.

Lemma init_blank_0x80 : init (Some manu_data_0x80) = Ok blank_state_0x80.
Proof. reflexivity. Qed.

(** C2, the claim as stated fails: on a firmware 0x80 device the truncated
    LED-settings frame raises [IndexError], and the LED count, 0 before,
    is 15 afterwards. *)
Lemma truncated_frame_raises_after_a_store :
  init (Some manu_data_0x80) = Ok blank_state_0x80
  /\ led_count blank_state_0x80 = Some 0
  /\ (forall C : Consts,
        notification_handler truncated_led_settings_frame blank_state_0x80
        = (Raise IndexError, with_led_count (Some 15) blank_state_0x80))
  /\ with_led_count (Some 15) blank_state_0x80 <> blank_state_0x80.
Proof.
  split; [reflexivity |]. split; [reflexivity |]. split.
  - intros C. vm_compute. reflexivity.
  - intros H. apply (f_equal led_count) in H. discriminate H.
Qed.

(** C3, the claim as stated fails: an unknown effect name makes
    [set_effect] raise; a hue of 720 and a brightness of 300 are encoded
    into packets; a brightness of 256 makes [set_color] raise. *)
Lemma encoders_raise_or_encode_out_of_range :
  contains EFFECT_LIST_0x56 "Rainbow" = false
  /\ fst (Model0x56.set_effect "Rainbow" (Some 255) blank_state) = Raise ValueError
  /\ fst (set_color (720, 100) 255 blank_state)
     = Ok [0; 0; 128; 0; 0; 13; 14; 11; 65; 0; 255; 0; 0; 0; 0; 0; 50; 0; 0; 240; 114]
  /\ fst (Model0x56.set_effect "Effect 1" (Some 300) blank_state)
     = Ok [0; 0; 128; 0; 0; 5; 6; 11; 66; 1; 50; 117; 117]
  /\ fst (set_color (0, 0) 256 blank_state) = Raise ValueError.
Proof. repeat split; vm_compute; reflexivity. Qed.

Lemma encoders_raise_and_do_not_validate_witness :
  (contains EFFECT_LIST_0x56 "Rainbow" = false
   /\ contains EFFECT_LIST_0x56 "Effect 1" = true)
  /\ Model0x56.set_effect "Rainbow" (Some 300) blank_state = (Raise ValueError, blank_state)
  /\ brightness (snd (Model0x56.set_effect "Effect 1" (Some 300) blank_state)) = Some 300
  /\ snd (set_color (720, 100) 300 blank_state)
     = with_brightness (Some 300)
         (with_hs_color (720, 100) (with_color_mode HS blank_state)).
Proof.
  assert (contains EFFECT_LIST_0x56 "Rainbow" = false) as H by (vm_compute; reflexivity).
  assert (contains EFFECT_LIST_0x56 "Effect 1" = true) as H' by (vm_compute; reflexivity).
  split; [split; assumption |].
  pose proof (encoders_raise_and_do_not_validate
                "Rainbow" "Effect 1" (Some 300) (720, 100) 300 blank_state H H') as K.
  split; [apply K |]. split; apply K.
Defined.

(** 65537 two-byte frames over a link that is always up. *)
Lemma sequence_numbers_wrap_once_witness :
  (forall l : @Link always_connected, fst (@_ensure_connected always_connected l) = Ok tt)
  /\ _packet_counter (fresh_instance blank_state) = 0
  /\ Forall (fun d => (2 <= List.length d)%nat) (repeat [0; 0] (Z.to_nat 65537))
  /\ Z.of_nat (List.length (repeat [0; 0] (Z.to_nat 65537))) = 65537
  /\ map sequence_number
       (frames_written
          (write_all (repeat [0; 0] (Z.to_nat 65537)) (fresh_instance blank_state)))
     = (map sequence_number (frames_written (fresh_instance blank_state))
        ++ range 0 65536 ++ [0])%list.
Proof.
  assert (forall l : @Link always_connected,
             fst (@_ensure_connected always_connected l) = Ok tt) as H1
    by (intros l; reflexivity).
  assert (Forall (fun d => (2 <= List.length d)%nat) (repeat [0; 0] (Z.to_nat 65537)))
    as H2.
  { apply Forall_forall. intros d Hd. apply repeat_spec in Hd. subst d. apply le_n. }
  assert (Z.of_nat (List.length (repeat [0; 0] (Z.to_nat 65537))) = 65537) as H3.
  { rewrite repeat_length. apply Z2Nat.id. discriminate. }
  split; [exact H1 |]. split; [reflexivity |]. split; [exact H2 |]. split; [exact H3 |].
  exact (@sequence_numbers_wrap_once always_connected _ (fresh_instance blank_state)
           H1 eq_refl H2 H3).
Defined.

(** Green at half saturation on a device built without manufacturer data. *)
Lemma set_color_checksum_witness :
  (0 <= 120 < 360 /\ 0 <= 50 <= 100 /\ 0 <= 200 <= 255)
  /\ stored_bytes blank_state
  /\ exists pkt rgb,
       fst (set_color (120, 50) 200 blank_state) = Ok pkt
       /\ hsv_to_rgb 120 50 (Some 200) = Ok rgb
       /\ List.length pkt = 21%nat
       /\ slice 9 17 pkt
          = (0 :: rgb ++ triple_to_list (bg_color blank_state)
               ++ [effect_speed blank_state])%list
       /\ nth 20 pkt 0 = sum (slice 8 19 pkt) mod 256.
Proof.
  assert (stored_bytes blank_state) as H by (split; reflexivity).
  split; [lia |]. split; [exact H |].
  apply (set_color_checksum 120 50 200 blank_state); [lia | lia | lia | exact H].
Defined.

(** C8, the claim as stated fails: a device built without manufacturer
    data has the effect "off" and an unknown colour mode. *)
Lemma off_with_unknown_colour_mode :
  (forall C : Consts, reachable blank_state)
  /\ effect blank_state = EFFECT_OFF
  /\ color_mode blank_state = UNKNOWN
  /\ color_mode blank_state <> HS.
Proof.
  split; [intros C; apply (reachable_init None); reflexivity |].
  split; [reflexivity |]. split; [reflexivity | discriminate].
Qed.

(** The same device after a colour command. *)
Lemma off_implies_hs_or_unknown_witness :
  @reachable every_value
    (@apply_operation every_value (OpSetColor (0, 100) 255) blank_state)
  /\ effect (@apply_operation every_value (OpSetColor (0, 100) 255) blank_state)
     = EFFECT_OFF
  /\ (color_mode (@apply_operation every_value (OpSetColor (0, 100) 255) blank_state) = HS
      \/ color_mode (@apply_operation every_value (OpSetColor (0, 100) 255) blank_state)
         = UNKNOWN).
Proof.
  assert (@reachable every_value
            (@apply_operation every_value (OpSetColor (0, 100) 255) blank_state))
    as R by (apply reachable_step; apply (reachable_init None); reflexivity).
  assert (effect (@apply_operation every_value (OpSetColor (0, 100) 255) blank_state)
          = EFFECT_OFF) as E by (vm_compute; reflexivity).
  split; [exact R |]. split; [exact E |].
  exact (@off_implies_hs_or_unknown every_value _ R E).
Defined.

(* ================================================================== *)
(** ** Further properties of the codec and of the session               *)
(* ================================================================== *)

(** *** The effect tables, range by range *)

Lemma forallb_Forall {A} (p : A -> bool) (P : A -> Prop) (l : list A) :
  (forall x, p x = true -> P x) -> forallb p l = true -> Forall P l.
Proof.
  intros Hp H. apply Forall_forall. intros x Hx.
  rewrite forallb_forall in H. auto.
Qed.

Lemma dict_item_absent (d : list (Z * string)) (k : Z) :
  ~ In k (map fst d) -> dict_item Z.eqb d k = Raise KeyError.
Proof.
  unfold dict_item. induction d as [| [k' v'] d IH]; cbn [dict_get map fst In];
    [reflexivity |].
  intros H. destruct (Z.eqb k' k) eqn:E.
  - apply Z.eqb_eq in E. tauto.
  - apply IH. tauto.
Qed.

Lemma dict_get_absent (d : list (string * Z)) (k : string) :
  existsb (String.eqb k) (map fst d) = false -> dict_get String.eqb d k = None.
Proof.
  induction d as [| [k' v'] d IH]; cbn [dict_get map fst existsb]; [reflexivity |].
  intros H. apply orb_false_iff in H. destruct H as [H1 H2].
  rewrite String.eqb_sym in H1. rewrite H1. auto.
Qed.

Lemma contains_sorted (l : list string) (x : string) :
  contains (sorted l) x = existsb (String.eqb x) l.
Proof.
  unfold contains, sorted. induction l as [| y l IH]; [reflexivity |].
  cbn [fold_right existsb]. rewrite <- IH. clear IH.
  generalize (fold_right insert_sorted [] l). intros t.
  induction t as [| z t IHt]; cbn [insert_sorted existsb]; [reflexivity |].
  destruct (String.leb y z); cbn [existsb]; [reflexivity |].
  rewrite IHt. destruct (String.eqb x z), (String.eqb x y); reflexivity.
Qed.

(** The entry [name -> code] is in the encoder's table and [code -> name]
    in the decoder's. *)
Definition table_entry (name : string) (code : Z) : bool :=
  match encode_effect name, decode_effect code with
  | Some c, Ok n => (c =? code) && String.eqb n name
  | _, _ => false
  end.

Lemma table_entry_sound (name : string) (code : Z) :
  table_entry name code = true ->
  encode_effect name = Some code /\ decode_effect code = Ok name.
Proof.
  unfold table_entry.
  destruct (encode_effect name) as [c |]; [| discriminate].
  destruct (decode_effect code) as [n |]; [| discriminate].
  intros H. apply andb_true_iff in H. destruct H as [H1 H2].
  apply Z.eqb_eq in H1. apply String.eqb_eq in H2. subst. split; reflexivity.
Qed.

(** X1. The two tables, range by range: "Effect e" is coded e for e in
    1..99, "Cycle Modes" 255, "Static Effect e" [e << 8] for e in 1..10 and
    "Sound Reactive e" [(e + 0x32) << 8] for e in 1..15, each way; every
    other code raises [KeyError] in the decoder, and every name that is
    not in the effect list has no code. *)
Theorem effect_tables_by_range :
  Forall (fun e => encode_effect ("Effect " ++ str_of_int e) = Some e
                   /\ decode_effect e = Ok ("Effect " ++ str_of_int e)%string)
    (range 1 100)
  /\ (encode_effect "Cycle Modes" = Some 255 /\ decode_effect 255 = Ok "Cycle Modes"%string)
  /\ Forall (fun e => encode_effect ("Static Effect " ++ str_of_int e) = Some (Z.shiftl e 8)
                      /\ decode_effect (Z.shiftl e 8)
                         = Ok ("Static Effect " ++ str_of_int e)%string)
       (range 1 11)
  /\ Forall (fun e => encode_effect ("Sound Reactive " ++ str_of_int e)
                      = Some (Z.shiftl (e + 0x32) 8)
                      /\ decode_effect (Z.shiftl (e + 0x32) 8)
                         = Ok ("Sound Reactive " ++ str_of_int e)%string)
       (range 1 16)
  /\ (forall code, ~ In code (plain_codes ++ static_codes ++ sound_codes) ->
      decode_effect code = Raise KeyError)
  /\ (forall name, contains EFFECT_LIST_0x56 name = false -> encode_effect name = None).
Proof.
  split; [| split; [| split; [| split; [| split]]]].
  - apply (forallb_Forall (fun e => table_entry ("Effect " ++ str_of_int e) e));
      [intros e; apply table_entry_sound | vm_compute; reflexivity].
  - apply table_entry_sound. vm_compute. reflexivity.
  - apply (forallb_Forall
             (fun e => table_entry ("Static Effect " ++ str_of_int e) (Z.shiftl e 8)));
      [intros e; apply table_entry_sound | vm_compute; reflexivity].
  - apply (forallb_Forall
             (fun e => table_entry ("Sound Reactive " ++ str_of_int e)
                         (Z.shiftl (e + 0x32) 8)));
      [intros e; apply table_entry_sound | vm_compute; reflexivity].
  - intros code H. unfold decode_effect. apply dict_item_absent.
    replace (map fst EFFECT_ID_TO_NAME_0x56)
      with (plain_codes ++ static_codes ++ sound_codes)%list
      by (vm_compute; reflexivity).
    exact H.
  - intros name H. unfold encode_effect. apply dict_get_absent.
    unfold EFFECT_LIST_0x56 in H. rewrite contains_sorted in H. exact H.
Qed.

(** *** The effect encoder *)

Lemma brightness_percent_floor (b : Z) :
  0 <= b <= 255 ->
  rbind (int_truediv (b * 100) 255) int_of_float = Ok (b * 100 / 255).
Proof.
  intros H.
  assert (forallb
            (fun b => match rbind (int_truediv (b * 100) 255) int_of_float with
                      | Ok p => p =? b * 100 / 255
                      | Raise _ => false
                      end) (range 0 256) = true) as Hall by (vm_compute; reflexivity).
  rewrite forallb_forall in Hall.
  specialize (Hall b (proj2 (In_range 0 256 b) ltac:(lia))).
  destruct (rbind (int_truediv (b * 100) 255) int_of_float) as [p |]; [| discriminate].
  apply Z.eqb_eq in Hall. now subst.
Qed.

Lemma dict_get_key (d : list (string * Z)) (k : string) (v : Z) :
  dict_get String.eqb d k = Some v -> existsb (String.eqb k) (map fst d) = true.
Proof.
  induction d as [| [k' v'] d IH]; cbn [dict_get map fst existsb]; [discriminate |].
  rewrite (String.eqb_sym k k').
  destruct (String.eqb k' k); [reflexivity |]. cbn [orb]. exact IH.
Qed.

Lemma encoded_name_listed (name : string) (code : Z) :
  encode_effect name = Some code -> contains EFFECT_LIST_0x56 name = true.
Proof.
  intros H. unfold EFFECT_LIST_0x56. rewrite contains_sorted.
  exact (dict_get_key _ _ _ H).
Qed.

Lemma setitem_ok (i : nat) (v : Z) (b : list Z) :
  (i < List.length b)%nat -> is_byte v = true -> setitem i v b = Ok (replace_nth i v b).
Proof.
  intros Hi Hv. unfold setitem. rewrite Hv.
  destruct (Nat.ltb i (List.length b)) eqn:E; [reflexivity |].
  apply Nat.ltb_ge in E. lia.
Qed.

Lemma is_byte_range (v : Z) : 0 <= v < 256 -> is_byte v = true.
Proof.
  intros H. unfold is_byte. apply andb_true_iff.
  split; [apply Z.leb_le | apply Z.ltb_lt]; lia.
Qed.

(** X2. The plain effects (codes below 0x100): for a brightness in 0..255
    and an effect speed that is a byte, [set_effect] returns the 13-byte
    packet [... 42 code speed percent checksum] with
    [percent = brightness * 100 // 255] and a checksum over bytes 8..10
    only (the percent is not summed), and leaves the effect, the
    brightness and the colour mode brightness-only in the state. *)
Theorem set_effect_plain_packet (name : string) (code b : Z) (st : DeviceState) :
  encode_effect name = Some code -> 0 <= code < 0x100 -> 0 <= b <= 255 ->
  is_byte (effect_speed st) = true ->
  Model0x56.set_effect name (Some b) st
  = (Ok [0; 0; 0x80; 0; 0; 5; 6; 0x0b; 0x42; code; effect_speed st; b * 100 / 255;
         (0x42 + code + effect_speed st) mod 256],
     with_color_mode BRIGHTNESS (with_brightness (Some b) (with_effect name st))).
Proof.
  intros Henc Hcode Hb Hsp.
  pose proof (encoded_name_listed name code Henc) as Hin.
  unfold Model0x56.set_effect, get_brightness_percent. rewrite Hin. cbn [negb].
  unfold_monad. rewrite Henc.
  replace (0x0100 <=? code) with false by (symmetry; apply Z.leb_gt; lia).
  replace (0x2100 <=? code) with false by (symmetry; apply Z.leb_gt; lia).
  cbn [andb fst snd brightness effect_speed with_color_mode with_brightness with_effect].
  pose proof (brightness_percent_floor b Hb) as Hp. unfold rbind in Hp.
  assert (0 <= b * 100 / 255 < 256) as Hpct.
  { split; [apply Z.div_pos; lia | apply Z.div_lt_upper_bound; lia]. }
  rewrite (setitem_ok 9 code) by (first [apply is_byte_range; lia | cbn; lia]).
  rewrite (setitem_ok 10) by (first [exact Hsp | cbn; lia]).
  destruct (int_truediv (b * 100) 255) as [f |]; [| discriminate]. rewrite Hp.
  rewrite (setitem_ok 11) by (first [apply is_byte_range; lia | cbn; lia]).
  rewrite land_0xFF_r.
  rewrite (setitem_ok 12) by (first [apply is_byte_mod | cbn; lia]).
  cbv [effect_packet_template replace_nth slice firstn skipn Nat.sub sum fold_left].
  rewrite !Z.add_0_l. reflexivity.
Qed.

Lemma set_effect_plain_packet_witness :
  (encode_effect "Effect 7" = Some 7 /\ 0 <= 7 < 0x100 /\ 0 <= 128 <= 255
   /\ is_byte (effect_speed blank_state) = true)
  /\ Model0x56.set_effect "Effect 7" (Some 128) blank_state
     = (Ok [0; 0; 0x80; 0; 0; 5; 6; 0x0b; 0x42; 7; effect_speed blank_state;
            128 * 100 / 255; (0x42 + 7 + effect_speed blank_state) mod 256],
        with_color_mode BRIGHTNESS
          (with_brightness (Some 128) (with_effect "Effect 7" blank_state))).
Proof.
  assert (encode_effect "Effect 7" = Some 7) as H1 by (vm_compute; reflexivity).
  assert (0 <= 7 < 0x100) as H2 by lia.
  assert (0 <= 128 <= 255) as H3 by lia.
  assert (is_byte (effect_speed blank_state) = true) as H4 by reflexivity.
  split; [repeat split; assumption || lia |].
  exact (set_effect_plain_packet "Effect 7" 7 128 blank_state H1 H2 H3 H4).
Defined.

Lemma static_entry (e : Z) :
  1 <= e <= 10 -> encode_effect ("Static Effect " ++ str_of_int e) = Some (Z.shiftl e 8).
Proof.
  intros H.
  assert (forallb (fun e => table_entry ("Static Effect " ++ str_of_int e) (Z.shiftl e 8))
            (range 1 11) = true) as Hall by (vm_compute; reflexivity).
  rewrite forallb_forall in Hall.
  apply table_entry_sound, Hall, In_range. lia.
Qed.

Lemma sound_entry (e : Z) :
  1 <= e <= 15 ->
  encode_effect ("Sound Reactive " ++ str_of_int e) = Some (Z.shiftl (e + 0x32) 8).
Proof.
  intros H.
  assert (forallb (fun e => table_entry ("Sound Reactive " ++ str_of_int e)
                              (Z.shiftl (e + 0x32) 8))
            (range 1 16) = true) as Hall by (vm_compute; reflexivity).
  rewrite forallb_forall in Hall.
  apply table_entry_sound, Hall, In_range. lia.
Qed.

(** The hue and saturation of the state are in the ranges of the colour
    picker. *)
Definition stored_colour (st : DeviceState) : Prop :=
  0 <= fst (hs_color st) < 360 /\ 0 <= snd (hs_color st) <= 100.

Ltac store_bytes :=
  unfold setitem, setslice;
  repeat first
    [ match goal with
      | H : is_byte _ = true |- _ => rewrite H
      end
    | rewrite land_0xFF_r | rewrite is_byte_mod
    | progress change (is_byte 0) with true
    | progress change (is_byte 1) with true
    | progress cbv [color_packet_template music_packet_template
                    List.length Nat.ltb Nat.leb replace_nth
                    firstn skipn Nat.max app triple_to_list forallb andb
                    slice Nat.sub sum fold_left fst] ].

(** X3. The static effects: "Static Effect e", e in 1..10, with a
    brightness in 0..255 on a state whose colour, background colour and
    speed are in range, gives the 21-byte colour packet with e at byte 9,
    the RGB of the state's colour at the new brightness at 10..12, the
    background colour at 13..15, the speed at 16 and the checksum of bytes
    8..18 at 20; the effect and the brightness are stored and the colour
    mode is left as it was. *)
Theorem set_effect_static_packet (e b : Z) (st : DeviceState) :
  1 <= e <= 10 -> 0 <= b <= 255 -> stored_colour st -> stored_bytes st ->
  exists pkt rgb,
    Model0x56.set_effect ("Static Effect " ++ str_of_int e) (Some b) st
    = (Ok pkt, with_brightness (Some b)
                 (with_effect ("Static Effect " ++ str_of_int e) st))
    /\ hsv_to_rgb (fst (hs_color st)) (snd (hs_color st)) (Some b) = Ok rgb
    /\ firstn 20 pkt
       = ([0; 0; 0x80; 0; 0; 0x0d; 0x0e; 0x0b; 0x41; e] ++ rgb
          ++ triple_to_list (bg_color st) ++ [effect_speed st; 0; 0; 0xf0])%list
    /\ skipn 20 pkt = [sum (slice 8 19 pkt) mod 256].
Proof.
  intros He Hb [Hh Hs] [Hbg Hsp].
  destruct (hsv_to_rgb_bytes _ _ b Hh Hs Hb) as (r & g & bl & Hrgb & Br & Bg & Bb).
  pose proof (static_entry e He) as Henc.
  pose proof (encoded_name_listed _ _ Henc) as Hin.
  destruct (bg_color st) as [[b0 b1] b2] eqn:Ebg.
  cbn [triple_to_list forallb] in Hbg.
  apply andb_true_iff in Hbg. destruct Hbg as [B0 Hbg].
  apply andb_true_iff in Hbg. destruct Hbg as [B1 Hbg].
  apply andb_true_iff in Hbg. destruct Hbg as [B2 _].
  assert (is_byte e = true) as Be by (apply is_byte_range; lia).
  unfold Model0x56.set_effect, get_rgb_color. rewrite Hin. cbn [negb].
  unfold_monad. rewrite Henc.
  rewrite Z.shiftl_mul_pow2, Z.shiftr_div_pow2 by lia.
  change (2 ^ 8) with 256. rewrite Z.div_mul by lia.
  replace (0x0100 <=? e * 256) with true by (symmetry; apply Z.leb_le; lia).
  replace (e * 256 <=? 0x1100) with true by (symmetry; apply Z.leb_le; lia).
  cbn [andb fst snd brightness hs_color bg_color effect_speed
       with_brightness with_effect].
  rewrite Hrgb, Ebg.
  store_bytes.
  eexists. eexists.
  split; [reflexivity |]. split; [reflexivity |]. split; reflexivity.
Qed.

(** X4. The sound-reactive effects: "Sound Reactive e", e in 1..15, gives
    the 21-byte music packet with 1 at byte 9, e at byte 11, the RGB of
    the state's colour at 12..14, the background colour at 15..17, the
    speed at 18 and the brightness percent at 19; the checksum at 20 sums
    bytes 8..18, so the percent is not part of it.  The colour mode is
    left as it was. *)
Theorem set_effect_sound_packet (e b : Z) (st : DeviceState) :
  1 <= e <= 15 -> 0 <= b <= 255 -> stored_colour st -> stored_bytes st ->
  exists pkt rgb,
    Model0x56.set_effect ("Sound Reactive " ++ str_of_int e) (Some b) st
    = (Ok pkt, with_brightness (Some b)
                 (with_effect ("Sound Reactive " ++ str_of_int e) st))
    /\ hsv_to_rgb (fst (hs_color st)) (snd (hs_color st)) (Some b) = Ok rgb
    /\ firstn 20 pkt
       = ([0; 0x22; 0x80; 0; 0; 0x0d; 0x0e; 0x0b; 0x73; 1; 0x26; e] ++ rgb
          ++ triple_to_list (bg_color st) ++ [effect_speed st; b * 100 / 255])%list
    /\ skipn 20 pkt = [sum (slice 8 19 pkt) mod 256].
Proof.
  intros He Hb [Hh Hs] [Hbg Hsp].
  destruct (hsv_to_rgb_bytes _ _ b Hh Hs Hb) as (r & g & bl & Hrgb & Br & Bg & Bb).
  pose proof (sound_entry e He) as Henc.
  pose proof (encoded_name_listed _ _ Henc) as Hin.
  destruct (bg_color st) as [[b0 b1] b2] eqn:Ebg.
  cbn [triple_to_list forallb] in Hbg.
  apply andb_true_iff in Hbg. destruct Hbg as [B0 Hbg].
  apply andb_true_iff in Hbg. destruct Hbg as [B1 Hbg].
  apply andb_true_iff in Hbg. destruct Hbg as [B2 _].
  assert (is_byte e = true) as Be by (apply is_byte_range; lia).
  pose proof (brightness_percent_floor b Hb) as Hp. unfold rbind in Hp.
  assert (is_byte (b * 100 / 255) = true) as Bp.
  { apply is_byte_range.
    split; [apply Z.div_pos; lia | apply Z.div_lt_upper_bound; lia]. }
  unfold Model0x56.set_effect, get_rgb_color, get_brightness_percent.
  rewrite Hin. cbn [negb].
  unfold_monad. rewrite Henc.
  rewrite Z.shiftl_mul_pow2, Z.shiftr_div_pow2 by lia.
  change (2 ^ 8) with 256. rewrite Z.div_mul by lia.
  replace (0x0100 <=? (e + 0x32) * 256) with true by (symmetry; apply Z.leb_le; lia).
  replace ((e + 0x32) * 256 <=? 0x1100) with false by (symmetry; apply Z.leb_gt; lia).
  replace (0x2100 <=? (e + 0x32) * 256) with true by (symmetry; apply Z.leb_le; lia).
  replace ((e + 0x32) * 256 <=? 0x4100) with true by (symmetry; apply Z.leb_le; lia).
  replace (e + 0x32 - 0x32) with e by lia.
  cbn [andb fst snd brightness hs_color bg_color effect_speed
       with_brightness with_effect].
  rewrite Hrgb, Ebg.
  destruct (int_truediv (b * 100) 255) as [f |]; [| discriminate]. rewrite Hp.
  store_bytes.
  eexists. eexists.
  split; [reflexivity |]. split; [reflexivity |]. split; reflexivity.
Qed.

(** "Static Effect 3" and "Sound Reactive 3" at half brightness on a
    device built without manufacturer data. *)
Lemma set_effect_static_packet_witness :
  (1 <= 3 <= 10 /\ 0 <= 128 <= 255 /\ stored_colour blank_state
   /\ stored_bytes blank_state)
  /\ exists pkt rgb,
       Model0x56.set_effect ("Static Effect " ++ str_of_int 3) (Some 128) blank_state
       = (Ok pkt, with_brightness (Some 128)
                    (with_effect ("Static Effect " ++ str_of_int 3) blank_state))
       /\ hsv_to_rgb (fst (hs_color blank_state)) (snd (hs_color blank_state)) (Some 128)
          = Ok rgb
       /\ firstn 20 pkt
          = ([0; 0; 0x80; 0; 0; 0x0d; 0x0e; 0x0b; 0x41; 3] ++ rgb
             ++ triple_to_list (bg_color blank_state)
             ++ [effect_speed blank_state; 0; 0; 0xf0])%list
       /\ skipn 20 pkt = [sum (slice 8 19 pkt) mod 256].
Proof.
  assert (1 <= 3 <= 10) as H1 by lia.
  assert (0 <= 128 <= 255) as H2 by lia.
  assert (stored_colour blank_state) as H3 by (split; cbn; lia).
  assert (stored_bytes blank_state) as H4 by (split; reflexivity).
  split; [repeat split; first [exact H3 | apply H3 | apply H4 | lia] |].
  exact (set_effect_static_packet 3 128 blank_state H1 H2 H3 H4).
Defined.

Lemma set_effect_sound_packet_witness :
  (1 <= 3 <= 15 /\ 0 <= 128 <= 255 /\ stored_colour blank_state
   /\ stored_bytes blank_state)
  /\ exists pkt rgb,
       Model0x56.set_effect ("Sound Reactive " ++ str_of_int 3) (Some 128) blank_state
       = (Ok pkt, with_brightness (Some 128)
                    (with_effect ("Sound Reactive " ++ str_of_int 3) blank_state))
       /\ hsv_to_rgb (fst (hs_color blank_state)) (snd (hs_color blank_state)) (Some 128)
          = Ok rgb
       /\ firstn 20 pkt
          = ([0; 0x22; 0x80; 0; 0; 0x0d; 0x0e; 0x0b; 0x73; 1; 0x26; 3] ++ rgb
             ++ triple_to_list (bg_color blank_state)
             ++ [effect_speed blank_state; 128 * 100 / 255])%list
       /\ skipn 20 pkt = [sum (slice 8 19 pkt) mod 256].
Proof.
  assert (1 <= 3 <= 15) as H1 by lia.
  assert (0 <= 128 <= 255) as H2 by lia.
  assert (stored_colour blank_state) as H3 by (split; cbn; lia).
  assert (stored_bytes blank_state) as H4 by (split; reflexivity).
  split; [repeat split; first [exact H3 | apply H3 | apply H4 | lia] |].
  exact (set_effect_sound_packet 3 128 blank_state H1 H2 H3 H4).
Defined.

(** *** Power *)

(** X5. A [turn_on] that returns: the light is recorded as on; the packet
    is the template with the background colour at 13..15 and, when a
    brightness other than 0 is known, the foreground RGB at 10..12 (zeros
    otherwise); nothing is summed afterwards, so the last byte keeps the
    template's 0x90 whatever colours were written. *)
Theorem turn_on_keeps_template_checksum (st : DeviceState) (pkt : list Z) :
  fst (ModelAbstractions.turn_on st) = Ok pkt ->
  snd (ModelAbstractions.turn_on st) = with_is_on true st
  /\ firstn 10 pkt = [0; 1; 0x80; 0; 0; 0x0d; 0x0e; 0x0b; 0x3b; 0x23]
  /\ Ok (slice 10 13 pkt)
     = match brightness st with
       | None => Ok [0; 0; 0]
       | Some b => if b =? 0 then Ok [0; 0; 0]
                   else hsv_to_rgb (fst (hs_color st)) (snd (hs_color st)) (Some b)
       end
  /\ slice 13 16 pkt = triple_to_list (bg_color st)
  /\ skipn 16 pkt = [0; 0x32; 0; 0; 0x90].
Proof.
  unfold ModelAbstractions.turn_on. unfold_monad.
  cbn [fst snd brightness hs_color bg_color with_is_on].
  destruct (bg_color st) as [[b0 b1] b2]. cbn [triple_to_list].
  destruct (setslice 13 16 [b0; b1; b2] turn_on_packet) as [p |] eqn:E1;
    [| discriminate].
  unfold setslice in E1.
  destruct (forallb is_byte [b0; b1; b2]); [| discriminate].
  injection E1 as <-.
  cbv [turn_on_packet firstn skipn Nat.max app].
  destruct (brightness st) as [b |].
  - destruct (b =? 0); cbn [fst snd].
    + intros [= <-]. repeat split.
    + destruct (hsv_to_rgb _ _ _) as [rgb |] eqn:Eh; [| discriminate].
      pose proof (hsv_to_rgb_length _ _ _ _ Eh) as Hlen.
      destruct rgb as [| r [| g [| bl [| ? ?]]]]; try discriminate Hlen.
      unfold setslice. destruct (forallb is_byte [r; g; bl]); [| discriminate].
      cbn [fst snd firstn skipn Nat.max app].
      intros [= <-]. repeat split.
  - cbn [fst snd]. intros [= <-]. repeat split.
Qed.

(** Turning on a device built without manufacturer data. *)
Lemma turn_on_keeps_template_checksum_witness :
  fst (ModelAbstractions.turn_on blank_state) = Ok turn_on_packet
  /\ snd (ModelAbstractions.turn_on blank_state) = with_is_on true blank_state
  /\ skipn 16 turn_on_packet = [0; 0x32; 0; 0; 0x90].
Proof.
  assert (fst (ModelAbstractions.turn_on blank_state) = Ok turn_on_packet) as H
    by reflexivity.
  split; [exact H |].
  pose proof (turn_on_keeps_template_checksum blank_state turn_on_packet H) as K.
  split; [apply K |]. apply K.
Defined.

(** *** [set_brightness] *)

Definition clamp_brightness (b : Z) : Z := Z.min 255 (Z.max 0 b).

(** X6. [set_brightness]: with the brightness the state already has,
    nothing is built and nothing changes.  With another one, the clamped
    value is stored first; it stays only when no packet is built (colour
    mode unknown or colour temperature) or when the effect of a
    brightness-only state is not in the effect list ([ValueError]); in
    hue-saturation mode, and in brightness-only mode with a listed effect,
    the encoder stores the brightness as it was given, out of range or
    not. *)
Theorem set_brightness_clamp_is_overwritten (b : Z) (st : DeviceState) :
  brightness st <> Some b ->
  set_brightness b (with_brightness (Some b) st) = (Ok None, with_brightness (Some b) st)
  /\ brightness (snd (set_brightness b st))
     = match color_mode st with
       | HS => Some b
       | BRIGHTNESS =>
         if contains EFFECT_LIST_0x56 (effect st) then Some b
         else Some (clamp_brightness b)
       | _ => Some (clamp_brightness b)
       end
  /\ (color_mode st = UNKNOWN \/ color_mode st = COLOR_TEMP ->
      set_brightness b st = (Ok None, with_brightness (Some (clamp_brightness b)) st))
  /\ (color_mode st = BRIGHTNESS -> contains EFFECT_LIST_0x56 (effect st) = false ->
      set_brightness b st
      = (Raise ValueError, with_brightness (Some (clamp_brightness b)) st)).
Proof.
  intros Hne.
  assert (match brightness st with Some b0 => b =? b0 | None => false end = false) as E.
  { destruct (brightness st) as [b0 |]; [| reflexivity].
    apply Z.eqb_neq. congruence. }
  split; [| split; [| split]].
  - unfold set_brightness. unfold_monad.
    cbn [brightness with_brightness]. rewrite Z.eqb_refl. reflexivity.
  - unfold set_brightness. unfold bind at 1. unfold get at 1. rewrite E.
    unfold bind at 1. unfold modify at 1. unfold bind at 1. unfold get at 1.
    cbn [color_mode with_brightness hs_color effect]. fold (clamp_brightness b).
    destruct (color_mode st).
    + reflexivity.
    + unfold bind.
      pose proof (set_color_stores (hs_color st) b
                    (with_brightness (Some (clamp_brightness b)) st)) as K.
      destruct (set_color _ _ _) as [[p | e] s']; cbn [snd] in *; subst s'; reflexivity.
    + destruct (contains EFFECT_LIST_0x56 (effect st)) eqn:Hin.
      * unfold bind.
        pose proof (set_effect_stores_brightness (effect st) (Some b)
                      (with_brightness (Some (clamp_brightness b)) st) Hin) as K.
        destruct (Model0x56.set_effect _ _ _) as [[p | e] s']; cbn [snd] in *; exact K.
      * unfold bind, Model0x56.set_effect. rewrite Hin. reflexivity.
    + reflexivity.
  - intros Hm. unfold set_brightness. unfold_monad. rewrite E.
    cbn [color_mode with_brightness]. fold (clamp_brightness b).
    destruct Hm as [-> | ->]; reflexivity.
  - intros Hm Hin. unfold set_brightness. unfold bind at 1. unfold get at 1. rewrite E.
    unfold bind at 1. unfold modify at 1. unfold bind at 1. unfold get at 1.
    cbn [color_mode with_brightness effect]. rewrite Hm. fold (clamp_brightness b).
    unfold bind, Model0x56.set_effect. cbn [effect with_brightness].
    rewrite Hin. reflexivity.
Qed.

(** A brightness of 300 on a device built without manufacturer data. *)
Lemma set_brightness_clamp_is_overwritten_witness :
  brightness blank_state <> Some 300
  /\ set_brightness 300 blank_state
     = (Ok None, with_brightness (Some (clamp_brightness 300)) blank_state).
Proof.
  assert (brightness blank_state <> Some 300) as H by discriminate.
  split; [exact H |].
  apply (set_brightness_clamp_is_overwritten 300 blank_state H).
  left. reflexivity.
Defined.

(** *** [set_led_settings] *)

Definition option_delay (o : LedOptions) : Z :=
  match CONF_DELAY o with Some d => d | None => 120 end.

Definition option_segments (o : LedOptions) : Z :=
  match CONF_SEGMENTS o with Some n => n | None => 1 end.

(** X7. [set_led_settings] with a LED count in 0..65535, a chip type, a
    colour order and a segment count that are bytes, on an object that has
    an owner: the packet carries the count big-endian at 9..10 and its low
    byte again at 15, the segments at 12 and 16, the chip type at 13 and
    the colour order at 14; byte 17 is the sum of bytes 9..17, the 0xf0
    the template holds at 17 included; the options and the delay are
    stored. *)
Theorem set_led_settings_packet (o : LedOptions) (n t c old : Z) (st : DeviceState) :
  CONF_LEDCOUNT o = Some n -> CONF_LEDTYPE o = Some t -> CONF_COLORORDER o = Some c ->
  _parent_instance st = Some old ->
  0 <= n < 65536 -> is_byte t = true -> is_byte c = true ->
  is_byte (option_segments o) = true ->
  set_led_settings o st
  = (Ok (Some [0; 0; 0x80; 0; 0; 0x0b; 0x0c; 0x0b; 0x62;
               n / 256; n mod 256; 0; option_segments o; t; c; n mod 256;
               option_segments o;
               (n / 256 + n mod 256 + 0 + option_segments o + t + c + n mod 256
                + option_segments o + 0xf0) mod 256;
               0x21]),
     with__parent_instance (Some (option_segments o))
       (with_led_count (Some n)
          (with_color_order (Some c)
             (with_chip_type (Some t)
                (with__delay (Some (option_delay o)) st))))).
Proof.
  intros Hn Ht Hc Hp Rn Bt Bc Bs.
  assert (is_byte (n / 256) = true) as Bhi.
  { apply is_byte_range.
    split; [apply Z.div_pos; lia | apply Z.div_lt_upper_bound; lia]. }
  unfold set_led_settings, set_segments, segments.
  fold (option_segments o). fold (option_delay o).
  rewrite Hn, Ht, Hc. unfold_monad.
  cbn [_parent_instance with_led_count with_color_order with_chip_type with__delay
       with__parent_instance fst snd].
  rewrite Hp. cbn [_parent_instance with__parent_instance fst snd].
  replace (0 <=? n) with true by (symmetry; apply Z.leb_le; lia).
  replace (n <? 65536) with true by (symmetry; apply Z.ltb_lt; lia).
  cbn [andb].
  rewrite Z.shiftr_div_pow2 by lia. change (2 ^ 8) with 256.
  rewrite !land_0xFF_r.
  unfold setslice. cbn [forallb]. rewrite Bhi, is_byte_mod. cbn [andb].
  cbn [_parent_instance with_led_count with_color_order with_chip_type with__delay
       with__parent_instance].
  unfold setitem.
  repeat first
    [ rewrite Bt | rewrite Bc | rewrite Bs | rewrite is_byte_mod
    | rewrite land_0xFF_r
    | progress cbv [led_settings_packet_template List.length Nat.ltb Nat.leb
                    replace_nth firstn skipn Nat.max app
                    slice Nat.sub sum fold_left fst] ].
  rewrite !Z.add_0_l. reflexivity.
Qed.

(** 300 LEDs in 3 segments. *)
Definition three_segments : LedOptions :=
  {| CONF_LEDCOUNT := Some 300; CONF_LEDTYPE := Some 1; CONF_COLORORDER := Some 2;
     CONF_DELAY := None; CONF_SEGMENTS := Some 3 |}.

Lemma set_led_settings_packet_witness :
  fst (set_led_settings three_segments (with__parent_instance (Some 1) blank_state))
  = Ok (Some [0; 0; 0x80; 0; 0; 0x0b; 0x0c; 0x0b; 0x62;
              300 / 256; 300 mod 256; 0; option_segments three_segments; 1; 2;
              300 mod 256; option_segments three_segments;
              (300 / 256 + 300 mod 256 + 0 + option_segments three_segments + 1 + 2
               + 300 mod 256 + option_segments three_segments + 0xf0) mod 256;
              0x21]).
Proof.
  rewrite (set_led_settings_packet three_segments 300 1 2 1
             (with__parent_instance (Some 1) blank_state)
             eq_refl eq_refl eq_refl eq_refl ltac:(lia) eq_refl eq_refl eq_refl).
  reflexivity.
Defined.

(** X8. [set_led_settings] without a packet.  When the LED count, the
    chip type or the colour order is missing, nothing is built and only
    the delay is stored.  When all three are given and the LED count does
    not fit two bytes, [to_bytes] raises [OverflowError], after the chip
    type, the colour order and the LED count were stored. *)
Theorem set_led_settings_without_packet (o : LedOptions) (st : DeviceState) :
  (CONF_LEDCOUNT o = None \/ CONF_LEDTYPE o = None \/ CONF_COLORORDER o = None ->
   set_led_settings o st = (Ok None, with__delay (Some (option_delay o)) st))
  /\ (forall n t c,
        CONF_LEDCOUNT o = Some n -> CONF_LEDTYPE o = Some t ->
        CONF_COLORORDER o = Some c -> ~ 0 <= n < 65536 ->
        fst (set_led_settings o st) = Raise OverflowError
        /\ led_count (snd (set_led_settings o st)) = Some n
        /\ chip_type (snd (set_led_settings o st)) = Some t
        /\ color_order (snd (set_led_settings o st)) = Some c).
Proof.
  split.
  - intros H. unfold set_led_settings. fold (option_delay o). unfold_monad.
    destruct (CONF_LEDCOUNT o) as [n |], (CONF_LEDTYPE o) as [t |],
      (CONF_COLORORDER o) as [c |]; try reflexivity.
    destruct H as [H | [H | H]]; discriminate H.
  - intros n t c Hn Ht Hc Hr.
    unfold set_led_settings, set_segments. rewrite Hn, Ht, Hc. unfold_monad.
    assert ((0 <=? n) && (n <? 65536) = false) as E.
    { destruct (0 <=? n) eqn:E1; [| reflexivity].
      destruct (n <? 65536) eqn:E2; [| reflexivity].
      apply Z.leb_le in E1. apply Z.ltb_lt in E2. lia. }
    rewrite E.
    cbn [_parent_instance with_led_count with_color_order with_chip_type with__delay
         fst snd].
    destruct (_parent_instance st); repeat split.
Qed.

Lemma set_led_settings_without_packet_witness :
  set_led_settings
    {| CONF_LEDCOUNT := None; CONF_LEDTYPE := Some 1; CONF_COLORORDER := Some 2;
       CONF_DELAY := Some 30; CONF_SEGMENTS := None |} blank_state
  = (Ok None, with__delay (Some 30) blank_state).
Proof.
  apply (set_led_settings_without_packet
           {| CONF_LEDCOUNT := None; CONF_LEDTYPE := Some 1; CONF_COLORORDER := Some 2;
              CONF_DELAY := Some 30; CONF_SEGMENTS := None |} blank_state).
  left. reflexivity.
Defined.

(** *** The ways a write fails *)

Section WriteFailures.
Context {T : Transport}.

(** What a call that reaches the GATT write returns is what the write
    returned. *)
Lemma write_result (data : list Z) (i : Instance) :
  fst (_ensure_connected (link i)) = Ok tt -> (2 <= List.length data)%nat ->
  fst (_write (Some data) i)
  = fst (write_gatt_char (stamped (wrapped (_packet_counter i)) data)
           (snd (_ensure_connected (link i)))).
Proof.
  intros Hc Hlen.
  unfold _write, ensure_connected, _write_while_connected, on_link, bind, modify, get,
    lift, ret.
  cbn [link log]. destruct (_ensure_connected (link i)) as [r l].
  cbn [fst snd] in *. subst r. cbn [_packet_counter with_link log].
  unfold wrapped, stamped.
  destruct data as [| a [| b rest]]; [cbn in Hlen; lia | cbn in Hlen; lia |].
  destruct (65535 <? _packet_counter i);
    unfold setitem; cbn [List.length Nat.ltb Nat.leb replace_nth];
    cbn [_packet_counter with_packet_counter with_link log];
    rewrite ?land_0xFF, ?high_byte, ?is_byte_mod;
    cbn [List.length Nat.ltb Nat.leb replace_nth link with_link with_packet_counter log];
    rewrite ?land_0xFF, ?is_byte_mod;
    cbn [List.length Nat.ltb Nat.leb replace_nth link with_link with_packet_counter log];
    destruct (write_gatt_char _ l) as [r' l']; reflexivity.
Qed.

(** X9. The ways [_write] fails.  When connecting raises, the exception
    goes through, the counter keeps its value and nothing is handed to the
    GATT write.  When the frame has fewer than two bytes, stamping it
    raises [IndexError]: nothing is written and the counter, reset if it
    was past 65535, is not advanced.  Otherwise the call returns what the
    GATT write returned, and the counter has moved on by one even when the
    write raised. *)
Theorem write_failure_modes (data : list Z) (i : Instance) :
  (forall e, fst (_ensure_connected (link i)) = Raise e ->
     fst (_write (Some data) i) = Raise e
     /\ _packet_counter (snd (_write (Some data) i)) = _packet_counter i
     /\ frames_written (snd (_write (Some data) i)) = frames_written i)
  /\ (fst (_ensure_connected (link i)) = Ok tt -> (List.length data < 2)%nat ->
      fst (_write (Some data) i) = Raise IndexError
      /\ _packet_counter (snd (_write (Some data) i)) = wrapped (_packet_counter i)
      /\ frames_written (snd (_write (Some data) i)) = frames_written i)
  /\ (fst (_ensure_connected (link i)) = Ok tt -> (2 <= List.length data)%nat ->
      fst (_write (Some data) i)
      = fst (write_gatt_char (stamped (wrapped (_packet_counter i)) data)
               (snd (_ensure_connected (link i))))
      /\ _packet_counter (snd (_write (Some data) i)) = wrapped (_packet_counter i) + 1).
Proof.
  split; [| split].
  - intros e He.
    unfold _write, ensure_connected, on_link, bind, modify.
    cbn [link log]. destruct (_ensure_connected (link i)) as [r l].
    cbn [fst] in He. subst r. repeat split.
  - intros Hc Hlen.
    unfold _write, ensure_connected, on_link, bind, modify, get, lift, ret.
    cbn [link log]. destruct (_ensure_connected (link i)) as [r l].
    cbn [fst] in Hc. subst r. cbn [_packet_counter with_link log].
    unfold wrapped.
    destruct data as [| a [| b rest]]; [| | cbn in Hlen; lia];
      destruct (65535 <? _packet_counter i);
      unfold setitem; cbn [List.length Nat.ltb Nat.leb replace_nth];
      rewrite ?high_byte, ?is_byte_mod;
      cbn [_packet_counter with_packet_counter with_link log List.length Nat.ltb Nat.leb];
      repeat split.
  - intros Hc Hlen.
    split; [apply (write_result data i Hc Hlen) | apply (write_step data i Hc Hlen)].
Qed.

End WriteFailures.

(** A link that cannot be brought up. *)
Definition never_connected : Transport :=
  {| Link := unit;
     _ensure_connected := fun l => (Raise BleakError, l);
     write_gatt_char := fun _ l => (Ok tt, l) |}.

Lemma write_failure_modes_witness :
  fst (@_write never_connected (Some [0; 0; 1])
         (@Build_Instance never_connected 7 blank_state false tt []))
  = Raise BleakError
  /\ fst (_write (Some [0]) (fresh_instance blank_state)) = Raise IndexError.
Proof.
  split.
  - apply (@write_failure_modes never_connected [0; 0; 1]
             (@Build_Instance never_connected 7 blank_state false tt [])).
    reflexivity.
  - apply (@write_failure_modes always_connected [0] (fresh_instance blank_state));
      [reflexivity | cbn; lia].
Defined.

(** *** Commands of the instance *)

Section UnknownName.
Context {B : BleakRetry} {T : Transport}.

(** X10. [set_effect] of the instance with a name that is not in the
    effect list: the encoder's [ValueError] is not one of the exceptions
    the decorator retries (given that the imported tuple does not hold
    it), so the call raises it on the first attempt; no connection is
    attempted, nothing is written or slept, the instance is unchanged. *)
Theorem set_effect_unknown_name_is_not_retried
    (name : string) (b : option Z) (i : Instance) :
  contains EFFECT_LIST_0x56 name = false -> BLEAK_EXCEPTIONS ValueError = false ->
  set_effect name b i = (Raise ValueError, i).
Proof.
  intros Hin Hbleak.
  unfold set_effect, retrying, retry_bluetooth_connection_error.
  change (range 0 DEFAULT_ATTEMPTS) with (0 :: [1; 2]). generalize [1; 2]. intros rest.
  cbn [retry_loop]. unfold on_model, bind, Model0x56.set_effect.
  rewrite Hin. cbn [negb]. unfold raise.
  cbn [exn_eqb]. unfold RETRY_BACKOFF_EXCEPTIONS. cbn [exn_eqb]. rewrite Hbleak.
  destruct i. reflexivity.
Qed.

End UnknownName.

(** A stand-in for the imported tuple in the concrete runs. *)
Definition bleak_retry_exceptions : BleakRetry :=
  {| BLEAK_EXCEPTIONS := fun e =>
       exn_eqb e AttributeError || exn_eqb e BleakError || exn_eqb e EOFError
       || exn_eqb e BrokenPipeError || exn_eqb e TimeoutError |}.

Lemma set_effect_unknown_name_is_not_retried_witness :
  (contains EFFECT_LIST_0x56 "Rainbow" = false
   /\ @BLEAK_EXCEPTIONS bleak_retry_exceptions ValueError = false)
  /\ @set_effect bleak_retry_exceptions always_connected "Rainbow" (Some 255)
       (fresh_instance blank_state)
     = (Raise ValueError, fresh_instance blank_state).
Proof.
  assert (contains EFFECT_LIST_0x56 "Rainbow" = false) as H1 by (vm_compute; reflexivity).
  assert (@BLEAK_EXCEPTIONS bleak_retry_exceptions ValueError = false) as H2
    by reflexivity.
  split; [split; assumption |].
  exact (@set_effect_unknown_name_is_not_retried bleak_retry_exceptions always_connected
           "Rainbow" (Some 255) (fresh_instance blank_state) H1 H2).
Defined.

Section OneFrame.
Context {B : BleakRetry} {T : Transport}.

(** A link on which connecting and writing succeed. *)
Definition link_is_up : Prop :=
  (forall l, fst (_ensure_connected l) = Ok tt)
  /\ (forall f l, fst (write_gatt_char f l) = Ok tt).

(** The shape the decorated commands share: encode, then write. *)
Lemma encoded_command_step (m : M DeviceState (list Z)) (pkt : list Z)
    (st : DeviceState) (i : Instance) :
  link_is_up -> m (_model_interface i) = (Ok pkt, st) -> (2 <= List.length pkt)%nat ->
  exists i',
    retrying (bind (on_model m) (fun p => _write (Some p))) i = (Ok (Some tt), i')
    /\ _model_interface i' = st
    /\ _packet_counter i' = wrapped (_packet_counter i) + 1
    /\ frames_written i'
       = (frames_written i ++ [stamped (wrapped (_packet_counter i)) pkt])%list.
Proof.
  intros [Hc Hw] Hm Hlen.
  set (j := with_model_interface st i).
  assert (fst (_ensure_connected (link j)) = Ok tt) as Hcj by apply Hc.
  pose proof (write_result pkt j Hcj Hlen) as Kr. rewrite Hw in Kr.
  destruct (write_step pkt j Hcj Hlen) as (Kc & Kf & _).
  pose proof (write_keeps_model (Some pkt) j) as Km.
  exists (snd (_write (Some pkt) j)).
  split; [| split; [| split]].
  - unfold retrying. apply retry_returns_at_once.
    unfold bind, on_model. rewrite Hm. fold j.
    destruct (_write (Some pkt) j) as [r i'']. cbn [fst snd] in *. now subst r.
  - rewrite Km. reflexivity.
  - rewrite Kc. reflexivity.
  - rewrite Kf. reflexivity.
Qed.

(** X11. A command over a link that is up: [set_hs_color], when the
    encoder returns a packet, and [turn_off] return on the first attempt;
    the model is left as the encoder left it, the counter moves on by one,
    and exactly one frame is handed to the GATT write, the encoder's
    packet with the sequence number in its two leading bytes. *)
Theorem commands_send_one_frame (hs : Z * Z) (b : Z) (pkt : list Z) (i : Instance) :
  link_is_up -> fst (set_color hs b (_model_interface i)) = Ok pkt ->
  (exists i',
     set_hs_color hs b i = (Ok (Some tt), i')
     /\ _model_interface i'
        = with_brightness (Some b) (with_hs_color hs (with_color_mode HS (_model_interface i)))
     /\ _packet_counter i' = wrapped (_packet_counter i) + 1
     /\ frames_written i'
        = (frames_written i ++ [stamped (wrapped (_packet_counter i)) pkt])%list)
  /\ (exists i',
        turn_off i = (Ok (Some tt), i')
        /\ _model_interface i' = with_is_on false (_model_interface i)
        /\ _packet_counter i' = wrapped (_packet_counter i) + 1
        /\ frames_written i'
           = (frames_written i
              ++ [stamped (wrapped (_packet_counter i)) turn_off_packet])%list).
Proof.
  intros Hup Hpkt. split.
  - unfold set_hs_color.
    pose proof (set_color_stores hs b (_model_interface i)) as Hs.
    pose proof (set_color_length hs b (_model_interface i) pkt Hpkt) as Hl.
    destruct (set_color hs b (_model_interface i)) as [r st] eqn:E.
    cbn [fst snd] in *. subst r st.
    apply (encoded_command_step _ pkt _ i Hup E). lia.
  - unfold turn_off.
    apply (encoded_command_step ModelAbstractions.turn_off turn_off_packet
             (with_is_on false (_model_interface i)) i Hup eq_refl).
    cbn. lia.
Qed.

End OneFrame.

Lemma commands_send_one_frame_witness :
  exists i',
    @turn_off bleak_retry_exceptions always_connected (fresh_instance blank_state)
    = (Ok (Some tt), i')
    /\ _model_interface i' = with_is_on false blank_state
    /\ _packet_counter i' = 1
    /\ frames_written i' = [stamped 0 turn_off_packet].
Proof.
  assert (@link_is_up always_connected) as Hup by (split; intros; reflexivity).
  assert (fst (set_color (120, 50) 200
                 (_model_interface (fresh_instance blank_state)))
          = Ok (match fst (set_color (120, 50) 200 blank_state) with
                | Ok p => p
                | Raise _ => []
                end)) as Hpkt by (vm_compute; reflexivity).
  exact (proj2 (@commands_send_one_frame bleak_retry_exceptions always_connected
                  (120, 50) 200 _ (fresh_instance blank_state) Hup Hpkt)).
Defined.

(** *** The constructor *)

Lemma decode_effect_absent (code : Z) :
  ~ In code (plain_codes ++ static_codes ++ sound_codes) ->
  decode_effect code = Raise KeyError.
Proof.
  intros H. unfold decode_effect. apply dict_item_absent.
  replace (map fst EFFECT_ID_TO_NAME_0x56)
    with (plain_codes ++ static_codes ++ sound_codes)%list
    by (vm_compute; reflexivity).
  exact H.
Qed.

Lemma getitem_nth (l : list Z) (k : nat) :
  (k < List.length l)%nat -> getitem l k = Ok (nth k l 0).
Proof.
  intros H. unfold getitem.
  destruct (nth_error l k) as [v |] eqn:E.
  - now rewrite (nth_error_nth l k 0 E).
  - apply nth_error_None in E. lia.
Qed.

Lemma getitem_short (l : list Z) (k : nat) :
  (List.length l <= k)%nat -> getitem l k = Raise IndexError.
Proof.
  intros H. unfold getitem.
  apply nth_error_None in H. now rewrite H.
Qed.

Lemma getitem_cases (l : list Z) (k : nat) :
  getitem l k = Raise IndexError \/ exists v, getitem l k = Ok v.
Proof.
  unfold getitem. destruct (nth_error l k) as [v |]; [right; now exists v | now left].
Qed.

(** A sound-reactive code outside the table. *)
Lemma sound_code_absent (eff : Z) :
  0 <= eff -> ~ 1 <= eff <= 15 ->
  ~ In (Z.shiftl (eff + 0x32) 8) (plain_codes ++ static_codes ++ sound_codes).
Proof.
  intros H0 Hr Hin. rewrite Z.shiftl_mul_pow2 in Hin by lia.
  change (2 ^ 8) with 256 in Hin.
  unfold plain_codes, static_codes, sound_codes in Hin.
  rewrite !in_app_iff in Hin.
  destruct Hin as [[Hin | Hin] | [Hin | Hin]].
  - apply In_range in Hin. lia.
  - cbn [In] in Hin. lia.
  - apply in_map_iff in Hin. destruct Hin as (e & He & Hin).
    apply In_range in Hin. rewrite Z.shiftl_mul_pow2 in He by lia.
    change (2 ^ 8) with 256 in He. lia.
  - apply in_map_iff in Hin. destruct Hin as (e & He & Hin).
    apply In_range in Hin. rewrite Z.shiftl_mul_pow2 in He by lia.
    change (2 ^ 8) with 256 in He. lia.
Qed.

Ltac read_manu_data md :=
  repeat match goal with
         | |- context [getitem md ?k] =>
           rewrite (getitem_nth md k) by lia
         end.

(** X12. The constructor on manufacturer data it cannot use.  With fewer
    than 25 bytes it raises [IndexError].  With mode byte 0x62 and an
    effect byte outside 1..15, and with mode byte 0x25 and an effect byte
    outside the plain codes, it raises [KeyError]: there is no
    [try]/[except] around the table here. *)
Theorem init_raises (md : list Z) :
  ((List.length md < 25)%nat -> init (Some md) = Raise IndexError)
  /\ ((25 <= List.length md)%nat -> nth 15 md 0 = 0x62 ->
      0 <= nth 16 md 0 -> ~ 1 <= nth 16 md 0 <= 15 ->
      init (Some md) = Raise KeyError)
  /\ ((25 <= List.length md)%nat -> nth 15 md 0 = 0x25 ->
      nth 16 md 0 < 0x100 -> ~ In (nth 16 md 0) plain_codes ->
      init (Some md) = Raise KeyError).
Proof.
  split; [| split].
  - intros Hlen. unfold init, DefaultModelAbstraction_init, rbind.
    rewrite (getitem_short md 24) by lia.
    destruct (getitem_cases md 0) as [-> | [v0 ->]]; [reflexivity |].
    destruct (getitem_cases md 8) as [-> | [v8 ->]]; [reflexivity |].
    destruct (getitem_cases md 9) as [-> | [v9 ->]]; [reflexivity |].
    destruct (getitem_cases md 10) as [-> | [v10 ->]]; reflexivity.
  - intros Hlen Hmode H0 Hr.
    unfold init, DefaultModelAbstraction_init, rbind. read_manu_data md.
    unfold init_body. unfold_monad. cbn [manu_data with_bg_color].
    read_manu_data md. rewrite Hmode. cbn [Z.eqb Pos.eqb].
    rewrite (decode_effect_absent _ (sound_code_absent _ H0 Hr)). reflexivity.
  - intros Hlen Hmode Hb Hr.
    unfold init, DefaultModelAbstraction_init, rbind. read_manu_data md.
    unfold init_body. unfold_monad. cbn [manu_data with_bg_color].
    read_manu_data md. rewrite Hmode. cbn [Z.eqb Pos.eqb].
    rewrite decode_effect_absent; [reflexivity |].
    intros Hin. rewrite in_app_iff in Hin. destruct Hin as [Hin | Hin]; [tauto |].
    assert (forallb (fun c => 256 <=? c) (static_codes ++ sound_codes) = true) as Hbig
      by (vm_compute; reflexivity).
    rewrite forallb_forall in Hbig. apply Hbig in Hin. apply Z.leb_le in Hin.
    lia.
Qed.

Lemma init_raises_witness :
  init (Some [0x56; 0; 0]) = Raise IndexError
  /\ init (Some (repeat 0 15 ++ [0x62; 0x20] ++ repeat 0 8)) = Raise KeyError.
Proof.
  split.
  - apply (init_raises [0x56; 0; 0]). cbn. lia.
  - apply (proj1 (proj2 (init_raises (repeat 0 15 ++ [0x62; 0x20] ++ repeat 0 8))));
      [cbn; lia | reflexivity | cbn; lia | cbn; lia].
Defined.

Lemma plain_decoded (e : Z) :
  1 <= e <= 99 -> decode_effect e = Ok ("Effect " ++ str_of_int e)%string.
Proof.
  intros H.
  assert (forallb (fun e => table_entry ("Effect " ++ str_of_int e) e) (range 1 100) = true)
    as Hall by (vm_compute; reflexivity).
  rewrite forallb_forall in Hall.
  apply table_entry_sound, Hall, In_range. lia.
Qed.

(** X13. The constructor on 25 bytes or more.  With a mode byte other than
    0x61, 0x62 and 0x25 the object keeps the defaults of the base class:
    effect "off", colour mode unknown, no brightness, speed 50; the
    firmware, the LED count and the power state are read at bytes 0, 24
    and 14.  With mode byte 0x25 and an effect byte e in 1..99 the effect
    is "Effect e", the speed is byte 17, the brightness is byte 18 as a
    percentage of 255, rounded down, and the colour mode is
    brightness-only. *)
Theorem init_reads_manu_data (md : list Z) :
  (25 <= List.length md)%nat ->
  (nth 15 md 0 <> 0x61 -> nth 15 md 0 <> 0x62 -> nth 15 md 0 <> 0x25 ->
   exists st,
     init (Some md) = Ok st
     /\ effect st = EFFECT_OFF /\ color_mode st = UNKNOWN /\ brightness st = None
     /\ effect_speed st = 50 /\ hs_color st = (0, 100) /\ bg_color st = (0, 0, 0)
     /\ fw_major st = nth 0 md 0 /\ led_count st = Some (nth 24 md 0)
     /\ is_on st = (nth 14 md 0 =? 0x23))
  /\ (nth 15 md 0 = 0x25 -> 1 <= nth 16 md 0 <= 99 ->
      exists st,
        init (Some md) = Ok st
        /\ effect st = ("Effect " ++ str_of_int (nth 16 md 0))%string
        /\ effect_speed st = nth 17 md 0
        /\ brightness st = Some (nth 18 md 0 * 255 / 100)
        /\ color_mode st = BRIGHTNESS
        /\ led_count st = Some (nth 24 md 0)).
Proof.
  intros Hlen. split.
  - intros H1 H2 H3.
    unfold init, DefaultModelAbstraction_init, rbind. read_manu_data md.
    unfold init_body. unfold_monad. cbn [manu_data with_bg_color].
    read_manu_data md.
    apply Z.eqb_neq in H1, H2, H3. rewrite H1, H2, H3.
    eexists. split; [reflexivity |]. repeat split.
  - intros Hmode He.
    unfold init, DefaultModelAbstraction_init, rbind. read_manu_data md.
    unfold init_body. unfold_monad. cbn [manu_data with_bg_color].
    read_manu_data md. rewrite Hmode. cbn [Z.eqb Pos.eqb].
    rewrite (plain_decoded _ He).
    cbn [manu_data with_effect with_effect_speed with_brightness with_color_mode].
    read_manu_data md.
    eexists. split; [reflexivity |]. repeat split.
Qed.

Lemma init_reads_manu_data_witness :
  exists st,
    init (Some (repeat 0 15 ++ [0x25; 7; 40; 50] ++ repeat 0 5 ++ [30])) = Ok st
    /\ effect st = ("Effect " ++ str_of_int 7)%string
    /\ effect_speed st = 40
    /\ brightness st = Some (50 * 255 / 100)
    /\ color_mode st = BRIGHTNESS
    /\ led_count st = Some 30.
Proof.
  apply (init_reads_manu_data (repeat 0 15 ++ [0x25; 7; 40; 50] ++ repeat 0 5 ++ [30]));
    [cbn; lia | reflexivity | cbn; lia].
Defined.

(* ================================================================== *)
(** ** The colour conversions on bytes                                  *)
(* ================================================================== *)

(** *** Truncation of a non-negative float *)

Lemma digits2_pos_lower (m : positive) : 2 ^ (Z.pos (digits2_pos m) - 1) <= Z.pos m.
Proof.
  induction m as [m IH | m IH |]; cbn [digits2_pos]; [| | cbn; lia];
    rewrite Pos2Z.inj_succ;
    replace (Z.succ (Z.pos (digits2_pos m)) - 1) with (Z.succ (Z.pos (digits2_pos m) - 1))
      by lia;
    rewrite Z.pow_succ_r by lia; lia.
Qed.

(** A non-negative finite float [x] as the integer [x * 2^1074]. *)
Definition scaled (x : float) : option Z :=
  match Prim2SF x with
  | S754_zero _ => Some 0
  | S754_finite false m e => Some (Z.pos m * 2 ^ (e + 1074))
  | _ => None
  end.

(** What validity says of a finite float: the exponent is at least the
    least one, the mantissa has at most 53 bits, and exactly 53 above the
    least exponent. *)
Lemma valid_finite (x : float) (sg : bool) (m : positive) (e : Z) :
  Prim2SF x = S754_finite sg m e ->
  -1074 <= e /\ Z.pos m < 2 ^ 53 /\ (-1074 < e -> 2 ^ 52 <= Z.pos m).
Proof.
  intros E. pose proof (Prim2SF_valid x) as Hv. rewrite E in Hv.
  cbn [SpecFloat.valid_binary] in Hv. unfold bounded, canonical_mantissa, fexp in Hv.
  apply andb_true_iff in Hv. destruct Hv as [Hc _]. apply Z.eqb_eq in Hc.
  change prec with 53 in Hc. change (SpecFloat.emin 53 emax) with (-1074) in Hc.
  change Z.max with IntDef.Z.max in *.
  pose proof (digits2_pos_bound m) as Hub.
  pose proof (digits2_pos_lower m) as Hlb.
  assert (Z.pos (digits2_pos m) <= 53) as Hd by lia.
  split; [lia |]. split.
  - eapply Z.lt_le_trans; [exact Hub |]. apply Z.pow_le_mono_r; lia.
  - intros He. assert (Z.pos (digits2_pos m) = 53) as Hd53 by lia.
    rewrite Hd53 in Hlb. exact Hlb.
Qed.

Lemma int_of_float_scaled (x : float) (n : Z) :
  scaled x = Some n -> int_of_float x = Ok (n / 2 ^ 1074) /\ 0 <= n.
Proof.
  unfold scaled, int_of_float.
  destruct (Prim2SF x) as [sz | si | | sg m e] eqn:E; try discriminate.
  - intros [= <-]. split; [reflexivity | lia].
  - destruct sg; [discriminate |]. intros Hn.
    assert (n = Z.pos m * 2 ^ (e + 1074)) as -> by congruence. clear Hn.
    destruct (valid_finite x false m e E) as (He & _ & _).
    assert (0 < 2 ^ 1074) as Hp by (apply Z.pow_pos_nonneg; lia).
    split; [| apply Z.mul_nonneg_nonneg; [lia | apply Z.pow_nonneg; lia]].
    f_equal. destruct (0 <=? e) eqn:E0.
    + apply Z.leb_le in E0. rewrite Z.shiftl_mul_pow2 by lia.
      rewrite Z.pow_add_r by lia. rewrite Z.mul_assoc.
      rewrite Z.div_mul by lia. reflexivity.
    + apply Z.leb_gt in E0. rewrite Z.shiftr_div_pow2 by lia.
      replace 1074 with (e + 1074 + - e) at 2 by lia.
      rewrite (Z.pow_add_r 2 (e + 1074) (- e)) by lia.
      rewrite (Z.mul_comm (2 ^ (e + 1074)) (2 ^ (- e))).
      rewrite Z.div_mul_cancel_r; [reflexivity | | ];
        apply Z.pow_nonzero; lia.
Qed.

(** The order of two non-negative finite floats is the order of their
    scaled integers. *)
Lemma finite_order (x y : float) (m1 m2 : positive) (e1 e2 : Z) :
  Prim2SF x = S754_finite false m1 e1 -> Prim2SF y = S754_finite false m2 e2 ->
  e1 < e2 -> Z.pos m1 * 2 ^ (e1 + 1074) < Z.pos m2 * 2 ^ (e2 + 1074).
Proof.
  intros E1 E2 He.
  destruct (valid_finite x false m1 e1 E1) as (Hlo1 & Hm1 & _).
  destruct (valid_finite y false m2 e2 E2) as (Hlo2 & _ & Hm2).
  specialize (Hm2 ltac:(lia)).
  assert (0 < 2 ^ (e1 + 1074)) as Hp by (apply Z.pow_pos_nonneg; lia).
  replace (e2 + 1074) with (e1 + 1074 + (e2 - e1)) by lia.
  rewrite (Z.pow_add_r 2 (e1 + 1074) (e2 - e1)) by lia.
  assert (2 ^ 1 <= 2 ^ (e2 - e1)) as Hd by (apply Z.pow_le_mono_r; lia).
  change (2 ^ 1) with 2 in Hd. change (2 ^ 53) with 9007199254740992 in Hm1.
  change (2 ^ 52) with 4503599627370496 in Hm2.
  revert Hp Hd. generalize (2 ^ (e1 + 1074)), (2 ^ (e2 - e1)). intros P D Hp Hd.
  assert (Z.pos m1 * P < 9007199254740992 * P) as H1
    by (apply Z.mul_lt_mono_pos_r; lia).
  assert (4503599627370496 * (P * 2) <= Z.pos m2 * (P * D)) as H2.
  { apply Z.mul_le_mono_nonneg; try lia. apply Z.mul_le_mono_nonneg_l; lia. }
  lia.
Qed.

Lemma scaled_order (x y : float) (n k : Z) :
  scaled x = Some n -> scaled y = Some k ->
  (PrimFloat.leb x y = true -> n <= k) /\ (PrimFloat.ltb x y = true -> n < k).
Proof.
  unfold scaled. rewrite leb_spec, ltb_spec. unfold SFleb, SFltb.
  destruct (Prim2SF x) as [sx | sx | | sx m1 e1] eqn:E1; try discriminate;
    destruct (Prim2SF y) as [sy | sy | | sy m2 e2] eqn:E2; try discriminate.
  - intros [= <-] [= <-]. cbn. split; [lia | discriminate].
  - destruct sy; [discriminate |]. intros Hn Hk.
    assert (n = 0) as -> by congruence.
    assert (k = Z.pos m2 * 2 ^ (e2 + 1074)) as -> by congruence. clear Hn Hk.
    assert (0 < Z.pos m2 * 2 ^ (e2 + 1074)).
    { destruct (valid_finite y false m2 e2 E2) as (He & _ & _).
      apply Z.mul_pos_pos; [lia | apply Z.pow_pos_nonneg; lia]. }
    split; intros _; lia.
  - destruct sx; [discriminate |]. intros [= <-] [= <-]. cbn. split; discriminate.
  - destruct sx; [discriminate |]. destruct sy; [discriminate |].
    intros Hn Hk.
    assert (n = Z.pos m1 * 2 ^ (e1 + 1074)) as -> by congruence.
    assert (k = Z.pos m2 * 2 ^ (e2 + 1074)) as -> by congruence. clear Hn Hk.
    cbn [SFcompare].
    destruct (e1 ?= e2) eqn:Ee.
    + apply Z.compare_eq in Ee. subst e2.
      destruct (valid_finite x false m1 e1 E1) as (He & _ & _).
      assert (0 < 2 ^ (e1 + 1074)) as Hp by (apply Z.pow_pos_nonneg; lia).
      change (PosDef.Pos.compare_cont Eq m1 m2) with (Pos.compare m1 m2).
      destruct (Pos.compare m1 m2) eqn:Em.
      * apply Pos.compare_eq in Em. subst. split; [lia | discriminate].
      * rewrite Pos.compare_lt_iff in Em. split; intros _; nia.
      * split; discriminate.
    + rewrite Z.compare_lt_iff in Ee.
      pose proof (finite_order x y m1 m2 e1 e2 E1 E2 Ee). split; intros _; lia.
    + split; discriminate.
Qed.

(** Between 0 and a finite float there are finite floats only. *)
Lemma scaled_between (x y : float) (k : Z) :
  PrimFloat.leb 0 x = true -> PrimFloat.leb x y = true -> scaled y = Some k ->
  exists n, scaled x = Some n.
Proof.
  unfold scaled. rewrite !leb_spec. unfold SFleb.
  replace (Prim2SF 0) with (S754_zero false) by (vm_compute; reflexivity).
  destruct (Prim2SF x) as [sx | sx | | sx m1 e1]; cbn [SFcompare].
  - intros _ _ _. now exists 0.
  - destruct sx; [discriminate |]. intros _.
    destruct (Prim2SF y) as [sy | sy | | sy m2 e2]; cbn [SFcompare];
      try discriminate; destruct sy; discriminate.
  - discriminate.
  - destruct sx; [discriminate |]. intros _ _ _. eexists. reflexivity.
Qed.

(** Truncation is monotone on the non-negative floats, and below an
    integral bound it stays below the integer. *)
Lemma int_of_float_le (x y : float) (b : Z) :
  PrimFloat.leb 0 x = true -> PrimFloat.leb x y = true ->
  (exists k, scaled y = Some k) -> int_of_float y = Ok b ->
  exists a, int_of_float x = Ok a /\ 0 <= a <= b.
Proof.
  intros H0 Hxy [k Hk] Hb.
  destruct (scaled_between x y k H0 Hxy Hk) as [n Hn].
  destruct (int_of_float_scaled x n Hn) as [Ex Hn0].
  destruct (int_of_float_scaled y k Hk) as [Ey _].
  rewrite Ey in Hb. injection Hb as <-.
  destruct (scaled_order x y n k Hn Hk) as [Hle _]. specialize (Hle Hxy).
  assert (0 < 2 ^ 1074) as Hp by (apply Z.pow_pos_nonneg; lia).
  exists (n / 2 ^ 1074). split; [exact Ex |]. split.
  - apply Z.div_pos; lia.
  - apply Z.div_le_mono; lia.
Qed.

Lemma int_of_float_lt (x y : float) (b : Z) :
  PrimFloat.leb 0 x = true -> PrimFloat.ltb x y = true ->
  scaled y = Some (b * 2 ^ 1074) ->
  exists a, int_of_float x = Ok a /\ 0 <= a < b.
Proof.
  intros H0 Hxy Hk.
  assert (PrimFloat.leb x y = true) as Hle.
  { rewrite leb_spec. rewrite ltb_spec in Hxy. unfold SFleb, SFltb in *.
    destruct (SFcompare _ _) as [[| |] |]; try discriminate; reflexivity. }
  destruct (scaled_between x y _ H0 Hle Hk) as [n Hn].
  destruct (int_of_float_scaled x n Hn) as [Ex Hn0].
  destruct (scaled_order x y n _ Hn Hk) as [_ Hlt]. specialize (Hlt Hxy).
  assert (0 < 2 ^ 1074) as Hp by (apply Z.pow_pos_nonneg; lia).
  exists (n / 2 ^ 1074). split; [exact Ex |]. split.
  - apply Z.div_pos; lia.
  - apply Z.div_lt_upper_bound; lia.
Qed.

(** A float strictly between -1 and 1 truncates to 0. *)
Definition unit_float (x : float) : bool :=
  PrimFloat.ltb (-1) x && PrimFloat.ltb x 1.

Lemma int_of_float_unit (x : float) : unit_float x = true -> int_of_float x = Ok 0.
Proof.
  unfold unit_float. rewrite andb_true_iff. intros [Hlo Hhi].
  destruct (PrimFloat.leb 0 x) eqn:H0.
  - assert (scaled 1 = Some (1 * 2 ^ 1074)) as H1 by (vm_compute; reflexivity).
    destruct (int_of_float_lt x 1 1 H0 Hhi H1) as (a & Ea & Ha).
    rewrite Ea. f_equal. lia.
  - rewrite ltb_spec in Hlo. unfold SFltb in Hlo.
    replace (Prim2SF (-1)) with (S754_finite true 4503599627370496 (-52)) in Hlo
      by (vm_compute; reflexivity).
    unfold int_of_float.
    destruct (Prim2SF x) as [sx | sx | | sx m e] eqn:E.
    + reflexivity.
    + destruct sx; [discriminate |].
      rewrite leb_spec in H0. unfold SFleb in H0. rewrite E in H0.
      replace (Prim2SF 0) with (S754_zero false) in H0 by (vm_compute; reflexivity).
      discriminate H0.
    + discriminate.
    + destruct (valid_finite x sx m e E) as (He & Hm & Hn).
      destruct sx.
      * cbn [SFcompare] in Hlo.
        destruct (-52 ?= e) eqn:Ee; try discriminate.
        { apply Z.compare_eq in Ee. subst e. specialize (Hn ltac:(lia)).
          change (PosDef.Pos.compare_cont Eq 4503599627370496 m)
            with (Pos.compare 4503599627370496 m) in Hlo.
          destruct (Pos.compare 4503599627370496 m) eqn:Em; try discriminate.
          assert (4503599627370496 > Z.pos m) as Em' by exact Em.
          change (2 ^ 52) with 4503599627370496 in Hn.
          clear Em Hlo Hm E H0 Hhi. lia. }
        rewrite Z.compare_gt_iff in Ee.
        replace (0 <=? e) with false by (symmetry; apply Z.leb_gt; lia).
        rewrite Z.shiftr_div_pow2 by lia.
        rewrite Z.div_small; [reflexivity |].
        split; [lia |].
        eapply Z.lt_le_trans; [exact Hm |]. apply Z.pow_le_mono_r; lia.
      * rewrite leb_spec in H0. unfold SFleb in H0. rewrite E in H0.
        replace (Prim2SF 0) with (S754_zero false) in H0 by (vm_compute; reflexivity).
        discriminate H0.
Qed.

(** [x % 1.0] on such a float, without the truncation. *)
Definition mod1_unit (x : float) : float :=
  let m := (x - 0)%float in
  if PrimFloat.eqb m 0 then 0%float
  else if PrimFloat.ltb m 0 then (m + 1)%float
  else m.

Lemma mod1_mod1_unit (x : float) : unit_float x = true -> mod1 x = mod1_unit x.
Proof.
  intros H. unfold mod1, fmod1. rewrite (int_of_float_unit x H).
  replace (float_of_int 0) with (Ok 0%float) by (vm_compute; reflexivity).
  reflexivity.
Qed.

(** *** [rgb_to_hsv] on three bytes *)

(** The check for one colour, on floats: the hue before [% 1.0] lies
    strictly between -1 and 1, and the hue and the saturation, scaled, lie
    in their ranges. *)
Definition hsv_floats_ok (r g b : float) : bool :=
  let maxc := max3 r g b in
  let minc := min3 r g b in
  let rangec := (maxc - minc)%float in
  if PrimFloat.eqb minc maxc then true
  else
    match truediv rangec maxc, truediv (maxc - r) rangec,
          truediv (maxc - g) rangec, truediv (maxc - b) rangec with
    | Ok s, Ok rc, Ok gc, Ok bc =>
      let h :=
        if PrimFloat.eqb r maxc then (bc - gc)%float
        else if PrimFloat.eqb g maxc then (2 + rc - bc)%float
        else (4 + gc - rc)%float in
      unit_float (h / 6)
      && PrimFloat.leb 0 (mod1_unit (h / 6) * 360)
      && PrimFloat.ltb (mod1_unit (h / 6) * 360) 360
      && PrimFloat.leb 0 (s * 100) && PrimFloat.leb (s * 100) 100
    | _, _, _, _ => false
    end.

Definition rgb_ok (rr rg rb : result float) : bool :=
  match rr, rg, rb with
  | Ok r, Ok g, Ok b => hsv_floats_ok r g b
  | _, _, _ => false
  end.

Lemma all_rgb_checked :
  forallb (fun rr => forallb (fun rg => forallb (rgb_ok rr rg) value_floats) value_floats)
    value_floats = true.
Proof. vm_compute. reflexivity. Qed.

Lemma rgb_to_hsv_floats (r g b : float) :
  hsv_floats_ok r g b = true ->
  exists h s,
    Colorsys.rgb_to_hsv r g b = Ok (h, s, max3 r g b)
    /\ PrimFloat.leb 0 (h * 360) = true /\ PrimFloat.ltb (h * 360) 360 = true
    /\ PrimFloat.leb 0 (s * 100) = true /\ PrimFloat.leb (s * 100) 100 = true.
Proof.
  unfold hsv_floats_ok, Colorsys.rgb_to_hsv. cbv zeta.
  destruct (PrimFloat.eqb (min3 r g b) (max3 r g b)).
  - intros _. exists 0%float, 0%float.
    split; [reflexivity |]. repeat split; vm_compute; reflexivity.
  - unfold rbind.
    destruct (truediv (max3 r g b - min3 r g b) (max3 r g b)) as [s |]; [| discriminate].
    destruct (truediv (max3 r g b - r) _) as [rc |]; [| discriminate].
    destruct (truediv (max3 r g b - g) _) as [gc |]; [| discriminate].
    destruct (truediv (max3 r g b - b) _) as [bc |]; [| discriminate].
    intros H.
    apply andb_true_iff in H. destruct H as [H Hs2].
    apply andb_true_iff in H. destruct H as [H Hs1].
    apply andb_true_iff in H. destruct H as [H Hh2].
    apply andb_true_iff in H. destruct H as [Hu Hh1].
    rewrite (mod1_mod1_unit _ Hu).
    eexists. exists s. split; [reflexivity |]. repeat split; assumption.
Qed.

(** The bytes as [rgb_to_hsv] and [hsv_to_rgb] divide them: the division
    keeps their order, and multiplying back and truncating returns the
    byte. *)
Definition value_pairs : list (Z * result float) :=
  map (fun v => (v, int_div_float v 255)) (range 0 256).

Definition value_pair_ok (p q : Z * result float) : bool :=
  match snd p, snd q with
  | Ok fx, Ok fy =>
    Bool.eqb (PrimFloat.ltb fx fy) (fst p <? fst q)
    && match int_of_float (fx * 255) with
       | Ok z => z =? fst p
       | Raise _ => false
       end
    && PrimFloat.leb 0 (fx * 255)
  | _, _ => false
  end.

Lemma value_pairs_checked :
  forallb (fun p => forallb (value_pair_ok p) value_pairs) value_pairs = true.
Proof. vm_compute. reflexivity. Qed.

Lemma In_value_pairs (v : Z) :
  0 <= v <= 255 -> In (v, int_div_float v 255) value_pairs.
Proof.
  intros H. apply (in_map (fun v => (v, int_div_float v 255))). apply In_range. lia.
Qed.

Lemma value_order (x y : Z) :
  0 <= x <= 255 -> 0 <= y <= 255 ->
  exists fx fy,
    int_div_float x 255 = Ok fx /\ int_div_float y 255 = Ok fy
    /\ PrimFloat.ltb fx fy = (x <? y)
    /\ int_of_float (fx * 255) = Ok x
    /\ PrimFloat.leb 0 (fx * 255) = true.
Proof.
  intros Hx Hy.
  pose proof value_pairs_checked as H. rewrite forallb_forall in H.
  specialize (H _ (In_value_pairs x Hx)). rewrite forallb_forall in H.
  specialize (H _ (In_value_pairs y Hy)). unfold value_pair_ok in H.
  cbn [fst snd] in H.
  destruct (int_div_float x 255) as [fx |]; [| discriminate].
  destruct (int_div_float y 255) as [fy |]; [| discriminate].
  apply andb_true_iff in H. destruct H as [H H0].
  apply andb_true_iff in H. destruct H as [Hlt Hi].
  exists fx, fy. split; [reflexivity |]. split; [reflexivity |].
  split; [now apply eqb_prop |]. split; [| exact H0].
  destruct (int_of_float (fx * 255)) as [z |]; [| discriminate].
  apply Z.eqb_eq in Hi. now subst.
Qed.

(** The largest of three divided bytes is the largest byte, divided. *)
Lemma max3_bytes (r g b : Z) (fr fg fb : float) :
  0 <= r <= 255 -> 0 <= g <= 255 -> 0 <= b <= 255 ->
  int_div_float r 255 = Ok fr -> int_div_float g 255 = Ok fg ->
  int_div_float b 255 = Ok fb ->
  int_div_float (Z.max (Z.max r g) b) 255 = Ok (max3 fr fg fb).
Proof.
  intros Hr Hg Hb Er Eg Eb. unfold max3.
  assert (int_div_float (Z.max r g) 255 = Ok (if PrimFloat.ltb fr fg then fg else fr)) as Em.
  { destruct (value_order r g Hr Hg) as (x & y & Ex & Ey & Hlt & _).
    rewrite Er in Ex. rewrite Eg in Ey. injection Ex as <-. injection Ey as <-.
    rewrite Hlt. destruct (r <? g) eqn:E.
    - apply Z.ltb_lt in E. rewrite Z.max_r by lia. exact Eg.
    - apply Z.ltb_ge in E. rewrite Z.max_l by lia. exact Er. }
  set (fm := if PrimFloat.ltb fr fg then fg else fr) in *.
  assert (0 <= Z.max r g <= 255) as Hm by lia.
  destruct (value_order (Z.max r g) b Hm Hb) as (x & y & Ex & Ey & Hlt & _).
  rewrite Em in Ex. rewrite Eb in Ey. injection Ex as <-. injection Ey as <-.
  rewrite Hlt. destruct (Z.max r g <? b) eqn:E.
  - apply Z.ltb_lt in E. rewrite Z.max_r by lia. exact Eb.
  - apply Z.ltb_ge in E. rewrite Z.max_l by lia. exact Em.
Qed.

Lemma rgb_checked (r g b : Z) :
  0 <= r <= 255 -> 0 <= g <= 255 -> 0 <= b <= 255 ->
  rgb_ok (int_div_float r 255) (int_div_float g 255) (int_div_float b 255) = true.
Proof.
  intros Hr Hg Hb.
  pose proof (In_value_floats r Hr) as Ir.
  pose proof (In_value_floats g Hg) as Ig.
  pose proof (In_value_floats b Hb) as Ib.
  pose proof all_rgb_checked as H.
  revert Ir Ig Ib H. generalize value_floats. intros vals Ir Ig Ib H.
  rewrite forallb_forall in H. specialize (H _ Ir).
  rewrite forallb_forall in H. specialize (H _ Ig).
  rewrite forallb_forall in H. exact (H _ Ib).
Qed.

Lemma rgb_to_hsv_on_bytes (r g b : Z) :
  0 <= r <= 255 -> 0 <= g <= 255 -> 0 <= b <= 255 ->
  exists h s,
    rgb_to_hsv [r; g; b] = Ok (h, s, Z.max (Z.max r g) b)
    /\ 0 <= h < 360 /\ 0 <= s <= 100.
Proof.
  intros Hr Hg Hb.
  pose proof (rgb_checked r g b Hr Hg Hb) as Hok.
  pose proof (max3_bytes r g b) as Hmax.
  assert (0 <= Z.max (Z.max r g) b <= 255) as Hm by lia.
  destruct (value_order _ _ Hm Hm) as (fm & _ & Em & _ & _ & Ev & _).
  unfold rgb_ok in Hok.
  destruct (int_div_float r 255) as [fr |] eqn:Er; [| discriminate].
  destruct (int_div_float g 255) as [fg |] eqn:Eg; [| discriminate].
  destruct (int_div_float b 255) as [fb |] eqn:Eb; [| discriminate].
  specialize (Hmax fr fg fb Hr Hg Hb eq_refl eq_refl eq_refl).
  rewrite Em in Hmax. injection Hmax as Hmax. subst fm.
  destruct (rgb_to_hsv_floats fr fg fb Hok) as (fh & fs & Ec & Hh1 & Hh2 & Hs1 & Hs2).
  assert (scaled 360 = Some (360 * 2 ^ 1074)) as S360 by (vm_compute; reflexivity).
  destruct (int_of_float_lt _ 360 360 Hh1 Hh2 S360) as (h & Eh & Rh).
  assert (exists k, scaled 100 = Some k) as S100 by (eexists; vm_compute; reflexivity).
  assert (int_of_float 100 = Ok 100) as I100 by (vm_compute; reflexivity).
  destruct (int_of_float_le _ 100 100 Hs1 Hs2 S100 I100) as (s & Es & Rs).
  exists h, s. split; [| split; assumption].
  unfold rgb_to_hsv, rbind. unfold getitem. cbn [nth_error].
  rewrite Er, Eg, Eb, Ec, Eh, Es, Ev. reflexivity.
Qed.

(** X14. [rgb_to_hsv] on three bytes returns: the hue is in 0..359, the
    saturation in 0..100, and the value is the largest of the three
    bytes.  So [update_color_state] on three bytes does not raise, and
    stores that hue and saturation and the largest byte as brightness. *)
Theorem rgb_to_hsv_bytes (r g b : Z) :
  0 <= r <= 255 -> 0 <= g <= 255 -> 0 <= b <= 255 ->
  exists h s,
    rgb_to_hsv [r; g; b] = Ok (h, s, Z.max (Z.max r g) b)
    /\ 0 <= h < 360 /\ 0 <= s <= 100
    /\ forall st,
         update_color_state [r; g; b] st
         = (Ok tt, with_brightness (Some (Z.max (Z.max r g) b)) (with_hs_color (h, s) st)).
Proof.
  intros Hr Hg Hb.
  destruct (rgb_to_hsv_on_bytes r g b Hr Hg Hb) as (h & s & E & Rh & Rs).
  exists h, s. split; [exact E |]. split; [exact Rh |]. split; [exact Rs |].
  intros st. unfold update_color_state. unfold_monad. rewrite E. reflexivity.
Qed.

(** Orange. *)
Lemma rgb_to_hsv_bytes_witness :
  exists h s,
    rgb_to_hsv [255; 128; 0] = Ok (h, s, Z.max (Z.max 255 128) 0)
    /\ 0 <= h < 360 /\ 0 <= s <= 100
    /\ forall st,
         update_color_state [255; 128; 0] st
         = (Ok tt, with_brightness (Some (Z.max (Z.max 255 128) 0))
                     (with_hs_color (h, s) st)).
Proof.
  apply (rgb_to_hsv_bytes 255 128 0); lia.
Defined.

(** *** The brightness there and back *)

Lemma scaled_nonneg (y : float) (b : Z) :
  PrimFloat.leb 0 y = true -> int_of_float y = Ok b -> exists k, scaled y = Some k.
Proof.
  rewrite leb_spec. unfold SFleb, scaled, int_of_float.
  replace (Prim2SF 0) with (S754_zero false) by (vm_compute; reflexivity).
  destruct (Prim2SF y) as [sy | sy | | sy m e]; cbn [SFcompare]; try discriminate.
  - intros _ _. now exists 0.
  - destruct sy; [discriminate |]. intros _ _. eexists. reflexivity.
Qed.

(** A component that is at most the value, before truncation. *)
Definition below (fv c : float) : bool :=
  PrimFloat.leb 0 (c * 255) && PrimFloat.leb (c * 255) (fv * 255).

Definition hue_below (sats vals : list (result float)) (rh : result float) : bool :=
  match rh with
  | Raise _ => false
  | Ok fh =>
    match int_of_float (fh * 6) with
    | Raise _ => false
    | Ok i =>
      match float_of_int i with
      | Raise _ => false
      | Ok fi =>
        let f := (fh * 6 - fi)%float in
        forallb
          (fun rs =>
             match rs with
             | Raise _ => false
             | Ok fs =>
               let xp := (1 - fs)%float in
               let xq := (1 - fs * f)%float in
               let xt := (1 - fs * (1 - f))%float in
               forallb
                 (fun rv =>
                    match rv with
                    | Raise _ => false
                    | Ok fv =>
                      below fv (fv * xp) && below fv (fv * xq) && below fv (fv * xt)
                    end)
                 vals
             end)
          sats
      end
    end
  end.

Lemma all_colours_below :
  forallb (hue_below saturation_floats value_floats) hue_floats = true.
Proof. vm_compute. reflexivity. Qed.

Lemma below_int (fv c : float) (v : Z) :
  int_of_float (fv * 255) = Ok v -> PrimFloat.leb 0 (fv * 255) = true ->
  below fv c = true ->
  exists z, int_of_float (c * 255) = Ok z /\ 0 <= z <= v.
Proof.
  intros Ev H0 H. apply andb_true_iff in H. destruct H as [Hc0 Hcv].
  exact (int_of_float_le _ _ v Hc0 Hcv (scaled_nonneg _ _ H0 Ev) Ev).
Qed.

Lemma hsv_to_rgb_max (h s v : Z) :
  0 <= h < 360 -> 0 <= s <= 100 -> 0 <= v <= 255 ->
  exists r g b,
    hsv_to_rgb h s (Some v) = Ok [r; g; b]
    /\ 0 <= r /\ 0 <= g /\ 0 <= b /\ Z.max (Z.max r g) b = v.
Proof.
  intros Hh Hs Hv.
  pose proof (In_saturation_floats s Hs) as Is.
  pose proof (In_value_floats v Hv) as Iv.
  destruct (value_order v v Hv Hv) as (fv0 & _ & Efv & _ & _ & Ev & Hv0).
  pose proof all_colours_below as H.
  rewrite forallb_forall in H.
  specialize (H _ (In_hue_floats h Hh)).
  rewrite hsv_to_rgb_components.
  revert Is Iv H.
  generalize saturation_floats, value_floats. intros sats vals Is Iv H.
  destruct (int_div_float h 360) as [fh |]; [| discriminate].
  unfold hue_below in H.
  destruct (int_of_float (fh * 6)) as [i |] eqn:Ei; [| discriminate].
  destruct (float_of_int i) as [fi |] eqn:Ef; [| discriminate].
  cbv zeta in H. rewrite forallb_forall in H.
  specialize (H _ Is).
  destruct (int_div_float s 100) as [fs |]; [| discriminate].
  rewrite forallb_forall in H.
  specialize (H _ Iv).
  destruct (int_div_float v 255) as [fv |]; [| discriminate].
  injection Efv as <-.
  apply andb_true_iff in H. destruct H as [H Ht].
  apply andb_true_iff in H. destruct H as [Hp Hq].
  destruct (below_int _ _ v Ev Hv0 Hp) as (zp & Ezp & Bp).
  destruct (below_int _ _ v Ev Hv0 Hq) as (zq & Ezq & Bq).
  destruct (below_int _ _ v Ev Hv0 Ht) as (zt & Ezt & Bt).
  cbv beta iota delta [rbind components Colorsys.hsv_to_rgb].
  destruct (PrimFloat.eqb fs 0).
  - rewrite Ev. exists v, v, v. repeat split; lia.
  - rewrite Ei, Ef. cbv zeta.
    pose proof (Z.mod_pos_bound i 6 ltac:(lia)) as Hi.
    destruct (i mod 6 =? 0) eqn:E0;
      [rewrite Ev, Ezt, Ezp; exists v, zt, zp; repeat split; lia |].
    destruct (i mod 6 =? 1) eqn:E1;
      [rewrite Ezq, Ev, Ezp; exists zq, v, zp; repeat split; lia |].
    destruct (i mod 6 =? 2) eqn:E2;
      [rewrite Ezp, Ev, Ezt; exists zp, v, zt; repeat split; lia |].
    destruct (i mod 6 =? 3) eqn:E3;
      [rewrite Ezp, Ezq, Ev; exists zp, zq, v; repeat split; lia |].
    destruct (i mod 6 =? 4) eqn:E4;
      [rewrite Ezt, Ezp, Ev; exists zt, zp, v; repeat split; lia |].
    destruct (i mod 6 =? 5) eqn:E5;
      [rewrite Ev, Ezp, Ezq; exists v, zp, zq; repeat split; lia |].
    apply Z.eqb_neq in E0, E1, E2, E3, E4, E5. lia.
Qed.

(** X15. The brightness there and back: for a hue in 0..359, a saturation
    in 0..100 and a brightness in 0..255, [hsv_to_rgb] returns three bytes
    the largest of which is the brightness, and [rgb_to_hsv] on them
    returns that brightness again, with a hue in 0..359 and a saturation
    in 0..100. *)
Theorem brightness_round_trip (h s v : Z) :
  0 <= h < 360 -> 0 <= s <= 100 -> 0 <= v <= 255 ->
  exists rgb h' s',
    hsv_to_rgb h s (Some v) = Ok rgb
    /\ Forall (fun c => 0 <= c <= v) rgb /\ In v rgb
    /\ rgb_to_hsv rgb = Ok (h', s', v)
    /\ 0 <= h' < 360 /\ 0 <= s' <= 100.
Proof.
  intros Hh Hs Hv.
  destruct (hsv_to_rgb_max h s v Hh Hs Hv) as (r & g & b & E & Hr & Hg & Hb & Hm).
  destruct (rgb_to_hsv_on_bytes r g b) as (h' & s' & E' & Rh & Rs); try lia.
  rewrite Hm in E'.
  exists [r; g; b], h', s'.
  split; [exact E |]. split; [repeat constructor; lia |].
  split; [cbn [In]; lia |]. split; [exact E' |]. split; assumption.
Qed.

(** Green at half saturation and brightness 200. *)
Lemma brightness_round_trip_witness :
  exists rgb h' s',
    hsv_to_rgb 120 50 (Some 200) = Ok rgb
    /\ Forall (fun c => 0 <= c <= 200) rgb /\ In 200 rgb
    /\ rgb_to_hsv rgb = Ok (h', s', 200)
    /\ 0 <= h' < 360 /\ 0 <= s' <= 100.
Proof.
  apply (brightness_round_trip 120 50 200); lia.
Defined.

(* ================================================================== *)
(** ** Notifications that are decoded                                   *)
(* ================================================================== *)

(** *** The text envelope *)

(** The text a device sends for a payload: two upper-case hexadecimal
    digits for each byte. *)
Definition hex_text (p : list Z) : list Z :=
  flat_map (fun b => codepoints (format_02X b)) p.

Definition ascii_only (bs : list Z) : Prop := Forall (fun b => (b <? 0x80) = true) bs.
Definition no_quote (bs : list Z) : Prop := Forall (fun b => (b =? QUOTE) = false) bs.

Lemma utf8_decode_ascii (bs : list Z) : ascii_only bs -> utf8_decode_ignore bs = bs.
Proof.
  induction 1 as [| b bs Hb _ IH]; [reflexivity |].
  cbn [utf8_decode_ignore]. rewrite Hb, IH. reflexivity.
Qed.

Lemma rfind_from_absent (c : Z) (s : list Z) (idx found : Z) :
  Forall (fun b => (b =? c) = false) s -> rfind_from c s idx found = found.
Proof.
  intros H. revert idx found.
  induction H as [| b s Hb _ IH]; intros idx found; [reflexivity |].
  cbn [rfind_from]. rewrite Hb. apply IH.
Qed.

Lemma rfind_from_last (c : Z) (a b : list Z) (idx found : Z) :
  Forall (fun x => (x =? c) = false) b ->
  rfind_from c (a ++ c :: b) idx found = idx + Z.of_nat (List.length a).
Proof.
  intros Hb. revert idx found.
  induction a as [| x a IH]; intros idx found.
  - cbn [app rfind_from List.length]. rewrite Z.eqb_refl.
    rewrite rfind_from_absent by exact Hb. cbn. lia.
  - cbn [app rfind_from List.length]. rewrite IH. lia.
Qed.

Lemma quoted_payload_last_pair (pre mid post : list Z) :
  pre <> [] -> no_quote mid -> no_quote post ->
  quoted_payload (pre ++ QUOTE :: mid ++ QUOTE :: post) = Some mid.
Proof.
  intros Hpre Hmid Hpost. unfold quoted_payload, rfind.
  assert (0 < List.length pre)%nat as Hlen
    by (destruct pre; [congruence | cbn; lia]).
  rewrite firstn_all.
  replace (pre ++ QUOTE :: mid ++ QUOTE :: post)%list
    with ((pre ++ QUOTE :: mid) ++ QUOTE :: post)%list
    by (rewrite <- app_assoc; reflexivity).
  rewrite (rfind_from_last QUOTE (pre ++ QUOTE :: mid) post) by exact Hpost.
  rewrite Z.add_0_l, Nat2Z.id.
  replace (0 <? Z.of_nat (List.length (pre ++ QUOTE :: mid))) with true
    by (symmetry; apply Z.ltb_lt; rewrite length_app; cbn [List.length]; lia).
  rewrite firstn_app, firstn_all, Nat.sub_diag. cbn [firstn]. rewrite app_nil_r.
  rewrite (rfind_from_last QUOTE pre mid) by exact Hmid.
  rewrite Z.add_0_l.
  replace (0 <? Z.of_nat (List.length pre)) with true by (symmetry; apply Z.ltb_lt; lia).
  replace (Z.to_nat (Z.of_nat (List.length pre) + 1)) with (S (List.length pre)) by lia.
  rewrite length_app. cbn [List.length].
  replace (List.length pre + S (List.length mid) - S (List.length pre))%nat
    with (List.length mid) by lia.
  rewrite <- app_assoc. cbn [app].
  replace (S (List.length pre)) with (List.length (pre ++ [QUOTE]))
    by (rewrite length_app; cbn; lia).
  replace (pre ++ QUOTE :: mid ++ QUOTE :: post)%list
    with ((pre ++ [QUOTE]) ++ mid ++ QUOTE :: post)%list
    by (rewrite <- app_assoc; reflexivity).
  rewrite skipn_app, skipn_all, Nat.sub_diag. cbn [skipn app].
  rewrite firstn_app, firstn_all, Nat.sub_diag. cbn [firstn]. rewrite app_nil_r.
  reflexivity.
Qed.

(** The two digits of a byte. *)
Definition hex_pair_ok (b : Z) : bool :=
  match codepoints (format_02X b) with
  | [c; d] =>
    negb (is_space c)
    && match hex_value c, hex_value d with
       | Some t, Some u => t * 16 + u =? b
       | _, _ => false
       end
    && (c <? 0x80) && (d <? 0x80) && negb (c =? QUOTE) && negb (d =? QUOTE)
  | _ => false
  end.

Lemma hex_pairs_checked : forallb hex_pair_ok (range 0 256) = true.
Proof. vm_compute. reflexivity. Qed.

Lemma hex_pair (b : Z) :
  is_byte b = true ->
  exists c d t u,
    codepoints (format_02X b) = [c; d]
    /\ is_space c = false /\ hex_value c = Some t /\ hex_value d = Some u
    /\ t * 16 + u = b
    /\ ascii_only [c; d] /\ no_quote [c; d].
Proof.
  intros Hb. unfold is_byte in Hb. apply andb_true_iff in Hb. destruct Hb as [H0 H1].
  apply Z.leb_le in H0. apply Z.ltb_lt in H1.
  pose proof hex_pairs_checked as H. rewrite forallb_forall in H.
  specialize (H b (proj2 (In_range 0 256 b) ltac:(lia))). unfold hex_pair_ok in H.
  destruct (codepoints (format_02X b)) as [| c [| d [| ? ?]]]; try discriminate.
  repeat (apply andb_true_iff in H; destruct H as [H ?]).
  destruct (hex_value c) as [t |] eqn:Ec; [| discriminate].
  destruct (hex_value d) as [u |] eqn:Ed; [| discriminate].
  exists c, d, t, u. split; [reflexivity |].
  split; [now apply negb_true_iff |]. split; [exact Ec |]. split; [exact Ed |].
  split; [now apply Z.eqb_eq |].
  split; repeat constructor; try assumption; now apply negb_true_iff.
Qed.

Lemma hex_text_facts (p : list Z) :
  Forall (fun b => is_byte b = true) p ->
  fromhex (hex_text p) = Ok p /\ ascii_only (hex_text p) /\ no_quote (hex_text p).
Proof.
  induction 1 as [| b p Hb _ IH].
  - repeat split; constructor.
  - destruct IH as (IH1 & IH2 & IH3).
    destruct (hex_pair b Hb) as (c & d & t & u & E & Hs & Hc & Hd & Hv & Ha & Hq).
    unfold hex_text in *. cbn [flat_map]. rewrite E. cbn [app].
    split; [| split].
    + cbn [fromhex]. rewrite Hs, Hc, Hd, IH1. cbn [rbind]. now rewrite Hv.
    + inversion Ha as [| ? ? Hc' Ha']; subst. inversion Ha' as [| ? ? Hd' _]; subst.
      constructor; [exact Hc' |]. constructor; [exact Hd' | exact IH2].
    + inversion Hq as [| ? ? Hc' Hq']; subst. inversion Hq' as [| ? ? Hd' _]; subst.
      constructor; [exact Hc' |]. constructor; [exact Hd' | exact IH3].
Qed.

(** A text frame: any ASCII text that is not empty, the payload in
    hexadecimal between quotes, and ASCII text without quotes. *)
Definition text_frame (pre p post : list Z) : list Z :=
  (pre ++ QUOTE :: hex_text p ++ QUOTE :: post)%list.

Lemma text_frame_payload (pre p post : list Z) :
  pre <> [] -> ascii_only pre -> ascii_only post -> no_quote post ->
  Forall (fun b => is_byte b = true) p ->
  quoted_payload (utf8_decode_ignore (text_frame pre p post)) = Some (hex_text p)
  /\ fromhex (hex_text p) = Ok p.
Proof.
  intros Hpre Ha Hb Hq Hp.
  destruct (hex_text_facts p Hp) as (Hf & Hha & Hhq).
  split; [| exact Hf].
  unfold text_frame. rewrite utf8_decode_ascii.
  - apply quoted_payload_last_pair; assumption.
  - apply Forall_app. split; [exact Ha |].
    constructor; [reflexivity |]. apply Forall_app. split; [exact Hha |].
    constructor; [reflexivity | exact Hb].
Qed.

Section TextFrames.
Context {C : Consts}.

(** X16. The envelope of a text notification.  The payload is what stands
    between the last two quotes, whatever text, quotes included, comes
    before: a frame made of non-empty ASCII text, a quote, the payload in
    hexadecimal, a quote and ASCII text without quotes is decoded to that
    payload.  An empty payload raises [IndexError]; a payload of two bytes
    or more that starts with neither 0x81 nor 0x0F and whose second byte
    is not 0x63 is ignored. *)
Theorem text_frame_is_decoded (pre p post : list Z) (st : DeviceState) :
  pre <> [] -> ascii_only pre -> ascii_only post -> no_quote post ->
  Forall (fun b => is_byte b = true) p ->
  (quoted_payload (utf8_decode_ignore (text_frame pre p post)) = Some (hex_text p)
   /\ fromhex (hex_text p) = Ok p)
  /\ (p = [] ->
      notification_handler_text (text_frame pre p post) st = (Raise IndexError, st))
  /\ (forall p0 p1 rest,
        p = p0 :: p1 :: rest -> p0 <> 0x81 -> p0 <> 0x0F -> p1 <> 0x63 ->
        notification_handler_text (text_frame pre p post) st = (Ok tt, st)).
Proof.
  intros Hpre Ha Hb Hq Hp.
  destruct (text_frame_payload pre p post Hpre Ha Hb Hq Hp) as [E1 E2].
  split; [split; assumption |]. split.
  - intros ->. unfold notification_handler_text. rewrite E1. unfold_monad.
    rewrite E2. reflexivity.
  - intros p0 p1 rest -> H0 H1 H2. unfold notification_handler_text.
    rewrite E1. unfold_monad. rewrite E2. unfold getitem. cbn [nth_error].
    apply Z.eqb_neq in H0, H1, H2. rewrite H0, H1, H2. reflexivity.
Qed.

End TextFrames.

(** Two bytes that are no block the decoder knows, between braces. *)
Lemma text_frame_is_decoded_witness :
  @notification_handler_text every_value (text_frame [123] [1; 2] [125]) blank_state
  = (Ok tt, blank_state).
Proof.
  assert ([123] <> []) as H1 by discriminate.
  assert (ascii_only [123]) as H2 by (repeat constructor).
  assert (ascii_only [125]) as H3 by (repeat constructor).
  assert (no_quote [125]) as H4 by (repeat constructor).
  assert (Forall (fun b => is_byte b = true) [1; 2]) as H5 by (repeat constructor).
  apply (proj2 (proj2 (@text_frame_is_decoded every_value [123] [1; 2] [125] blank_state
                         H1 H2 H3 H4 H5)) 1 2 []);
    [reflexivity | discriminate | discriminate | discriminate].
Defined.

(** *** Status frames in colour mode *)

Section ColourStatus.
Context {C : Consts}.

(** X17. The status block of a text notification in colour mode (mode
    0x61, effect byte 0xf0), 13 bytes or more with three colour bytes at
    6..8: the decoder does not raise; the LED count is byte 12, the power
    state byte 2, the effect is "off" in hue-saturation mode, and the
    brightness is the largest of the three colour bytes. *)
Theorem colour_status_is_decoded (p : list Z) (st : DeviceState) :
  (13 <= List.length p)%nat -> nth 3 p 0 = 0x61 -> nth 4 p 0 = 0xf0 ->
  0 <= nth 6 p 0 <= 255 -> 0 <= nth 7 p 0 <= 255 -> 0 <= nth 8 p 0 <= 255 ->
  exists h s,
    0 <= h < 360 /\ 0 <= s <= 100
    /\ status_response p st
       = (Ok tt,
          with_brightness (Some (Z.max (Z.max (nth 6 p 0) (nth 7 p 0)) (nth 8 p 0)))
            (with_hs_color (h, s)
               (with_color_temperature_kelvin None
                  (with_color_mode HS
                     (with_effect EFFECT_OFF
                        (with_is_on (nth 2 p 0 =? 0x23)
                           (with_led_count (Some (nth 12 p 0)) st))))))).
Proof.
  intros Hlen Hmode Heff H6 H7 H8.
  destruct (rgb_to_hsv_on_bytes _ _ _ H6 H7 H8) as (h & s & E & Rh & Rs).
  exists h, s. split; [exact Rh |]. split; [exact Rs |].
  assert (slice 6 9 p = [nth 6 p 0; nth 7 p 0; nth 8 p 0]) as Es.
  { do 13 (destruct p as [| ? p]; [cbn in Hlen; lia |]). reflexivity. }
  unfold status_response, update_color_state. unfold_monad.
  read_manu_data p. rewrite Hmode, Heff, Es, E. reflexivity.
Qed.

(** X18. The status frame of firmware 0x80 in colour mode: bytes 5..6 are
    0e 0f, byte 11 is 0x61, byte 12 is 0xf0 and bytes 14..16 are the
    colour.  The decoder does not raise; the power state is byte 10, the
    effect is "off" in hue-saturation mode and the brightness is the
    largest of the three colour bytes. *)
Theorem colour_status_0x80_is_decoded (data : list Z) (st : DeviceState) :
  fw_major st = 0x80 -> (17 <= List.length data)%nat ->
  nth 5 data 0 = 0x0e -> nth 6 data 0 = 0x0f ->
  nth 11 data 0 = 0x61 -> nth 12 data 0 = 0xf0 ->
  0 <= nth 14 data 0 <= 255 -> 0 <= nth 15 data 0 <= 255 -> 0 <= nth 16 data 0 <= 255 ->
  exists h s,
    0 <= h < 360 /\ 0 <= s <= 100
    /\ notification_handler data st
       = (Ok tt,
          with_color_temperature_kelvin None
            (with_color_mode HS
               (with_effect EFFECT_OFF
                  (with_brightness
                     (Some (Z.max (Z.max (nth 14 data 0) (nth 15 data 0)) (nth 16 data 0)))
                     (with_hs_color (h, s) (with_is_on (nth 10 data 0 =? 0x23) st)))))).
Proof.
  intros Hfw Hlen H5 H6 Hmode Heff H14 H15 H16.
  destruct (rgb_to_hsv_on_bytes _ _ _ H14 H15 H16) as (h & s & E & Rh & Rs).
  destruct (int_truediv_byte (nth 15 data 0) ltac:(lia)) as [f Ef].
  exists h, s. split; [exact Rh |]. split; [exact Rs |].
  assert (slice 5 8 data = [0x0e; 0x0f; nth 7 data 0]
          /\ slice 5 7 data = [0x0e; 0x0f]) as [Es1 Es2].
  { rewrite <- H5, <- H6.
    do 17 (destruct data as [| ? data]; [cbn in Hlen; lia |]). split; reflexivity. }
  unfold notification_handler, notification_handler_0x80, update_effect_state,
    update_color_state.
  unfold_monad. rewrite Hfw, Es1, Es2. cbn [bytes_eqb Z.eqb Pos.eqb andb].
  read_manu_data data. rewrite Hmode, Heff, Ef, E. reflexivity.
Qed.

End ColourStatus.

(** Orange, reported by a device that is on, over text and by firmware
    0x80. *)
Definition orange_status : list Z :=
  [0x81; 0; 0x23; 0x61; 0xf0; 0; 255; 128; 0; 0; 0; 0; 30].

Lemma colour_status_is_decoded_witness :
  exists h s,
    0 <= h < 360 /\ 0 <= s <= 100
    /\ status_response orange_status blank_state
       = (Ok tt,
          with_brightness
            (Some (Z.max (Z.max (nth 6 orange_status 0) (nth 7 orange_status 0))
                     (nth 8 orange_status 0)))
            (with_hs_color (h, s)
               (with_color_temperature_kelvin None
                  (with_color_mode HS
                     (with_effect EFFECT_OFF
                        (with_is_on (nth 2 orange_status 0 =? 0x23)
                           (with_led_count (Some (nth 12 orange_status 0))
                              blank_state))))))).
Proof.
  apply (colour_status_is_decoded orange_status blank_state);
    (reflexivity || (cbn; lia)).
Defined.

Definition orange_status_0x80 : list Z :=
  [0; 1; 0x80; 0; 0; 0x0e; 0x0f; 0; 0; 0; 0x23; 0x61; 0xf0; 50; 255; 128; 0].

Lemma colour_status_0x80_is_decoded_witness :
  exists h s,
    0 <= h < 360 /\ 0 <= s <= 100
    /\ @notification_handler every_value orange_status_0x80 blank_state_0x80
       = (Ok tt,
          with_color_temperature_kelvin None
            (with_color_mode HS
               (with_effect EFFECT_OFF
                  (with_brightness
                     (Some (Z.max (Z.max (nth 14 orange_status_0x80 0)
                                     (nth 15 orange_status_0x80 0))
                              (nth 16 orange_status_0x80 0)))
                     (with_hs_color (h, s)
                        (with_is_on (nth 10 orange_status_0x80 0 =? 0x23)
                           blank_state_0x80)))))).
Proof.
  apply (@colour_status_0x80_is_decoded every_value orange_status_0x80 blank_state_0x80);
    (reflexivity || (cbn; lia)).
Defined.

(** *** LED settings and effect status *)

Section SettingsFrames.
Context {C : Consts}.

(** The segment count as the decoders store it: through the owner, when
    there is one. *)
Definition store_segments (v : Z) (st : DeviceState) : DeviceState :=
  match _parent_instance st with
  | Some _ => with__parent_instance (Some v) st
  | None => st
  end.

(** X19. The LED-settings frame of firmware 0x80 (bytes 5..7 are 0b 0c
    15), 16 bytes or more, with a chip type and a colour order the
    enumerations know: the LED count is byte 11 as it stands, the chip
    type byte 14, the colour order byte 15, and the segment count, byte
    13, goes to the owner when there is one. *)
Theorem led_settings_0x80_is_decoded (data : list Z) (st : DeviceState) :
  fw_major st = 0x80 -> (16 <= List.length data)%nat ->
  nth 5 data 0 = 0x0b -> nth 6 data 0 = 0x0c -> nth 7 data 0 = 0x15 ->
  LedTypes_StripLight (nth 14 data 0) = true -> ColorOrdering (nth 15 data 0) = true ->
  notification_handler data st
  = (Ok tt,
     store_segments (nth 13 data 0)
       (with_color_order (Some (nth 15 data 0))
          (with_chip_type (Some (nth 14 data 0))
             (with_led_count (Some (nth 11 data 0)) st)))).
Proof.
  intros Hfw Hlen H5 H6 H7 Hchip Horder.
  assert (slice 5 8 data = [0x0b; 0x0c; 0x15]) as Es.
  { rewrite <- H5, <- H6, <- H7.
    do 16 (destruct data as [| ? data]; [cbn in Hlen; lia |]). reflexivity. }
  unfold notification_handler, notification_handler_0x80, set_segments, enum_call,
    store_segments.
  unfold_monad. rewrite Hfw, Es. cbn [bytes_eqb Z.eqb Pos.eqb andb].
  read_manu_data data. rewrite Hchip, Horder.
  cbn [_parent_instance with_color_order with_chip_type with_led_count].
  destruct (_parent_instance st) eqn:Ep; [read_manu_data data |];
    cbn [_parent_instance with_color_order with_chip_type with_led_count];
    rewrite ?Ep; reflexivity.
Qed.

(** X20. The LED-settings block of a text notification, 8 bytes or more,
    with a chip type and a colour order the enumerations know: the LED
    count is the big-endian count of bytes 2..3 multiplied by the segment
    count of byte 5; the segment count goes to the owner when there is
    one; the chip type is byte 6 and the colour order byte 7. *)
Theorem led_settings_text_is_decoded (p : list Z) (st : DeviceState) :
  (8 <= List.length p)%nat ->
  LedTypes_StripLight (nth 6 p 0) = true -> ColorOrdering (nth 7 p 0) = true ->
  led_settings_response p st
  = (Ok tt,
     with_color_order (Some (nth 7 p 0))
       (with_chip_type (Some (nth 6 p 0))
          (store_segments (nth 5 p 0)
             (with_led_count (Some ((nth 2 p 0 * 256 + nth 3 p 0) * nth 5 p 0)) st)))).
Proof.
  intros Hlen Hchip Horder.
  unfold led_settings_response, set_segments, enum_call, store_segments.
  unfold_monad. read_manu_data p. rewrite Hchip, Horder.
  cbn [_parent_instance with_led_count].
  destruct (_parent_instance st) eqn:Ep;
    cbn [_parent_instance with_color_order with_chip_type with_led_count];
    rewrite ?Ep; reflexivity.
Qed.

(** X21. The status block of a text notification in effects mode (mode
    0x25) with an effect byte e in 1..99, 13 bytes or more: the effect is
    "Effect e", the speed byte 5, the colour mode brightness-only, and the
    brightness byte 6 as a percentage of 255, rounded down. *)
Theorem effect_status_is_decoded (p : list Z) (st : DeviceState) :
  (13 <= List.length p)%nat -> nth 3 p 0 = 0x25 -> 1 <= nth 4 p 0 <= 99 ->
  status_response p st
  = (Ok tt,
     with_brightness (Some (nth 6 p 0 * 255 / 100))
       (with_color_mode BRIGHTNESS
          (with_effect_speed (nth 5 p 0)
             (with_effect ("Effect " ++ str_of_int (nth 4 p 0))
                (with_is_on (nth 2 p 0 =? 0x23)
                   (with_led_count (Some (nth 12 p 0)) st)))))).
Proof.
  intros Hlen Hmode He.
  unfold status_response. unfold_monad. read_manu_data p.
  rewrite Hmode. cbn [Z.eqb Pos.eqb]. rewrite (plain_decoded _ He).
  read_manu_data p. reflexivity.
Qed.

End SettingsFrames.

(** The frame the source quotes for 15 LEDs, and two text payloads. *)
Definition led_settings_frame_0x80 : list Z :=
  [0x04; 0x04; 0x80; 0; 0; 0x0b; 0x0c; 0x15; 0; 0x63; 0; 0x0f; 0; 0x01; 0x02; 0;
   0x0f; 0x01; 0x85].

Lemma led_settings_0x80_is_decoded_witness :
  @notification_handler every_value led_settings_frame_0x80 blank_state_0x80
  = (Ok tt,
     store_segments (nth 13 led_settings_frame_0x80 0)
       (with_color_order (Some (nth 15 led_settings_frame_0x80 0))
          (with_chip_type (Some (nth 14 led_settings_frame_0x80 0))
             (with_led_count (Some (nth 11 led_settings_frame_0x80 0))
                blank_state_0x80)))).
Proof.
  apply (@led_settings_0x80_is_decoded every_value led_settings_frame_0x80
           blank_state_0x80);
    (reflexivity || (cbn; lia)).
Defined.

Lemma led_settings_text_is_decoded_witness :
  @led_settings_response every_value [0; 0x63; 0; 30; 0; 2; 1; 2] blank_state
  = (Ok tt,
     with_color_order (Some 2)
       (with_chip_type (Some 1)
          (store_segments 2 (with_led_count (Some ((0 * 256 + 30) * 2)) blank_state)))).
Proof.
  apply (@led_settings_text_is_decoded every_value [0; 0x63; 0; 30; 0; 2; 1; 2]
           blank_state);
    (reflexivity || (cbn; lia)).
Defined.

Lemma effect_status_is_decoded_witness :
  status_response [0x81; 0; 0x23; 0x25; 7; 40; 50; 0; 0; 0; 0; 0; 30] blank_state
  = (Ok tt,
     with_brightness (Some (50 * 255 / 100))
       (with_color_mode BRIGHTNESS
          (with_effect_speed 40
             (with_effect ("Effect " ++ str_of_int 7)
                (with_is_on (0x23 =? 0x23)
                   (with_led_count (Some 30) blank_state)))))).
Proof.
  apply (effect_status_is_decoded [0x81; 0; 0x23; 0x25; 7; 40; 50; 0; 0; 0; 0; 0; 30]
           blank_state);
    (reflexivity || (cbn; lia)).
Defined.

(* ================================================================== *)
(** ** Start-up                                                         *)
(* ================================================================== *)

Section Held.
Context {T : Transport}.

Lemma held_hold (r : request) (v : list Z) (q : Requests) : held r (hold r v q) = v.
Proof. destruct r; reflexivity. Qed.

Lemma hold_hold (r : request) (v w : list Z) (q : Requests) :
  hold r v (hold r w q) = hold r v q.
Proof. destruct r; reflexivity. Qed.

(** On a frame of two bytes or more, the instance goes through [_write]
    as on a copy, and the bytearray that was passed is left stamped. *)
Lemma write_held_write (r : request) (i : Instance) (q : Requests) :
  fst (_ensure_connected (link i)) = Ok tt -> (2 <= List.length (held r q))%nat ->
  _write_held r {| instance := i; requests := q |}
  = (fst (_write (Some (held r q)) i),
     {| instance := snd (_write (Some (held r q)) i);
        requests := hold r (stamped (wrapped (_packet_counter i)) (held r q)) q |}).
Proof.
  intros Hc Hlen.
  unfold _write_held, _write, on_instance, on_requests, ensure_connected,
    _write_while_connected, on_link, bind, modify, get, lift, ret.
  cbn [link log instance requests].
  destruct (_ensure_connected (link i)) as [res l].
  cbn [fst] in Hc. subst res. cbn [_packet_counter with_link log instance requests].
  unfold wrapped, stamped.
  destruct (held r q) as [| a [| b rest]] eqn:Eh; [cbn in Hlen; lia | cbn in Hlen; lia |].
  destruct (65535 <? _packet_counter i);
    cbn [_packet_counter with_packet_counter with_link log instance requests];
    rewrite ?Eh;
    unfold setitem; cbn [List.length Nat.ltb Nat.leb replace_nth];
    rewrite ?land_0xFF, ?high_byte, ?is_byte_mod;
    cbn [instance requests _packet_counter with_packet_counter with_link log];
    rewrite ?held_hold;
    cbn [List.length Nat.ltb Nat.leb replace_nth];
    rewrite ?land_0xFF, ?high_byte, ?is_byte_mod;
    cbn [instance requests _packet_counter with_packet_counter with_link log link];
    rewrite ?held_hold, ?hold_hold;
    destruct (write_gatt_char _ l) as [r' l']; reflexivity.
Qed.


Lemma stamped_stamped (c c' : Z) (data : list Z) :
  stamped c (stamped c' data) = stamped c data.
Proof. destruct data as [| a [| b rest]]; reflexivity. Qed.

Lemma stamped_length (c : Z) (data : list Z) :
  List.length (stamped c data) = List.length data.
Proof. unfold stamped. now rewrite !replace_nth_length. Qed.

Lemma write_held_up (r : request) (i : Instance) (q : Requests) :
  link_is_up -> (2 <= List.length (held r q))%nat -> 0 <= _packet_counter i <= 65535 ->
  exists i',
    _write_held r {| instance := i; requests := q |}
    = (Ok tt, {| instance := i';
                 requests := hold r (stamped (_packet_counter i) (held r q)) q |})
    /\ _model_interface i' = _model_interface i
    /\ _packet_counter i' = _packet_counter i + 1
    /\ frames_written i'
       = (frames_written i ++ [stamped (_packet_counter i) (held r q)])%list.
Proof.
  intros Hup Hlen Hcnt.
  assert (wrapped (_packet_counter i) = _packet_counter i) as Ew.
  { unfold wrapped. replace (65535 <? _packet_counter i) with false; [reflexivity |].
    symmetry. apply Z.ltb_ge. lia. }
  pose proof (write_held_write r i q (proj1 Hup _) Hlen) as E. rewrite Ew in E.
  pose proof (write_result (held r q) i (proj1 Hup _) Hlen) as Kr.
  rewrite (proj2 Hup) in Kr.
  destruct (write_step (held r q) i (proj1 Hup _) Hlen) as (Kc & Kf & _).
  rewrite Ew in Kc, Kf.
  exists (snd (_write (Some (held r q)) i)).
  split; [rewrite E, Kr; reflexivity |].
  split; [apply (write_keeps_model (Some (held r q)) i) |]. split; assumption.
Qed.

(** X22. [send_initial_packets] over a link that is up, with room for
    three numbers before the counter wraps, on request packets of two
    bytes or more: the status request, the LED-settings request and the
    effect-colour request are written in this order under three
    consecutive sequence numbers; the packets are stamped in place, so
    afterwards each packet the model object holds is the frame that was
    written, sequence number included; the bytes from 2 on are as before,
    and a number stamped earlier does not show in a later frame.  The
    attributes of the model that the decoder and the encoders use are not
    touched. *)
Theorem send_initial_packets_stamps_in_place (i : Instance) (q : Requests) :
  link_is_up -> 0 <= _packet_counter i <= 65533 ->
  (forall r, (2 <= List.length (held r q))%nat) ->
  exists i',
    send_initial_packets {| instance := i; requests := q |}
    = (Ok tt,
       {| instance := i';
          requests :=
            {| initial_packet := stamped (_packet_counter i) (initial_packet q);
               get_led_settings_packet :=
                 stamped (_packet_counter i + 1) (get_led_settings_packet q);
               get_effect_color_settings_packet :=
                 stamped (_packet_counter i + 2) (get_effect_color_settings_packet q) |} |})
    /\ _model_interface i' = _model_interface i
    /\ _packet_counter i' = _packet_counter i + 3
    /\ frames_written i'
       = (frames_written i
          ++ [stamped (_packet_counter i) (initial_packet q);
              stamped (_packet_counter i + 1) (get_led_settings_packet q);
              stamped (_packet_counter i + 2) (get_effect_color_settings_packet q)])%list
    /\ (forall c c' data,
          stamped c (stamped c' data) = stamped c data
          /\ skipn 2 (stamped c data) = skipn 2 data).
Proof.
  intros Hup Hcnt Hlen.
  destruct (write_held_up Initial i q Hup (Hlen Initial) ltac:(lia))
    as (i1 & E1 & M1 & C1 & F1).
  set (q1 := hold Initial (stamped (_packet_counter i) (held Initial q)) q) in *.
  destruct (write_held_up GetLedSettings i1 q1 Hup (Hlen GetLedSettings) ltac:(lia))
    as (i2 & E2 & M2 & C2 & F2).
  set (q2 := hold GetLedSettings
               (stamped (_packet_counter i1) (held GetLedSettings q1)) q1) in *.
  destruct (write_held_up GetEffectColorSettings i2 q2 Hup
              (Hlen GetEffectColorSettings) ltac:(lia))
    as (i3 & E3 & M3 & C3 & F3).
  exists i3. split; [| split; [| split; [| split]]].
  - unfold send_initial_packets, bind. rewrite E1, E2, E3.
    subst q2 q1. cbn [held hold initial_packet get_led_settings_packet
                       get_effect_color_settings_packet].
    rewrite C2, C1.
    replace (_packet_counter i + 1 + 1) with (_packet_counter i + 2) by lia.
    reflexivity.
  - congruence.
  - lia.
  - rewrite F3, F2, F1, C2, C1. subst q2 q1.
    cbn [held hold initial_packet get_led_settings_packet
         get_effect_color_settings_packet].
    rewrite <- !app_assoc. cbn [app].
    replace (_packet_counter i + 1 + 1) with (_packet_counter i + 2) by lia.
    reflexivity.
  - intros c c' data. split; [apply stamped_stamped |].
    destruct data as [| a [| b rest]]; reflexivity.
Qed.

End Held.

(** The packets as the constructors build them, on a device built without
    manufacturer data. *)
Lemma send_initial_packets_stamps_in_place_witness :
  exists i',
    @send_initial_packets always_connected
      {| instance := fresh_instance blank_state; requests := Requests_init blank_state |}
    = (Ok tt,
       {| instance := i';
          requests :=
            {| initial_packet := stamped 0 (INITIAL_PACKET blank_state);
               get_led_settings_packet :=
                 stamped (0 + 1) (GET_LED_SETTINGS_PACKET blank_state);
               get_effect_color_settings_packet :=
                 stamped (0 + 2) GET_EFFECT_COLOR_SETTINGS_PACKET |} |})
    /\ frames_written i'
       = ([] ++ [stamped 0 (INITIAL_PACKET blank_state);
                 stamped (0 + 1) (GET_LED_SETTINGS_PACKET blank_state);
                 stamped (0 + 2) GET_EFFECT_COLOR_SETTINGS_PACKET])%list.
Proof.
  destruct (@send_initial_packets_stamps_in_place always_connected
              (fresh_instance blank_state) (Requests_init blank_state))
    as (i' & E & _ & _ & F & _).
  - split; intros; reflexivity.
  - cbn. lia.
  - intros []; cbn; lia.
  - exists i'. split; [exact E | exact F].
Defined.

(* ================================================================== *)
(** ** Runs of the decorator                                            *)
(* ================================================================== *)

(** A command that fails with [BleakDBusError] every time, on a journal
    of attempts (0) and sleeps (their length): three attempts, two sleeps
    of 3. *)
Lemma retry_decorator_policy_witness :
  @retry_bluetooth_connection_error bleak_retry_exceptions (list Z) unit
    (fun t j => t :: j) (fun j => (Raise BleakDBusError, 0 :: j)) []
  = (Raise BleakDBusError, [0; 3; 0; 3; 0]).
Proof.
  exact (proj1 (proj2 (@retry_decorator_policy bleak_retry_exceptions (list Z) unit
                         (fun t j => t :: j) (fun j => (Raise BleakDBusError, 0 :: j)) []))
           BleakDBusError (cons 0) (fun _ => eq_refl)).
Defined.

(* ================================================================== *)
(** ** Frames the decoder drops, and frames it fails on                 *)
(* ================================================================== *)

(** The number of quote bytes of a frame. *)
Definition quotes (bs : list Z) : nat := count_occ Z.eq_dec bs QUOTE.

Lemma quotes_cons (b : Z) (bs : list Z) :
  quotes (b :: bs) = ((if Z.eqb b QUOTE then 1 else 0) + quotes bs)%nat.
Proof.
  unfold quotes. cbn [count_occ].
  destruct (Z.eq_dec b QUOTE) as [-> | Hn].
  - rewrite Z.eqb_refl. reflexivity.
  - apply Z.eqb_neq in Hn. rewrite Hn. reflexivity.
Qed.

Lemma quotes_none (bs : list Z) : quotes bs = 0%nat -> no_quote bs.
Proof.
  unfold no_quote. induction bs as [| b bs IH]; [constructor |].
  rewrite quotes_cons. destruct (b =? QUOTE) eqn:E; [discriminate |].
  intros H. constructor; [exact E | apply IH; exact H].
Qed.

Lemma quotes_one (bs : list Z) :
  quotes bs = 1%nat -> exists a b, bs = (a ++ QUOTE :: b)%list /\ no_quote a /\ no_quote b.
Proof.
  induction bs as [| x bs IH]; [discriminate |].
  rewrite quotes_cons. destruct (x =? QUOTE) eqn:E.
  - intros H. apply Z.eqb_eq in E. subst x.
    exists [], bs. split; [reflexivity |]. split; [constructor |].
    apply quotes_none. lia.
  - intros H. destruct (IH H) as (a & b & -> & Ha & Hb).
    exists (x :: a), b. split; [reflexivity |]. split; [| exact Hb].
    constructor; assumption.
Qed.

(** Fewer than two quotes, or a leading quote and at most one more: no
    quoted payload. *)
Lemma quoted_payload_few_quotes (s : list Z) :
  (quotes s <= 1)%nat -> quoted_payload s = None.
Proof.
  intros H. unfold quoted_payload, rfind. rewrite firstn_all.
  destruct (quotes s) as [| [| n]] eqn:E; [| | lia].
  - rewrite rfind_from_absent by (apply quotes_none; exact E). reflexivity.
  - destruct (quotes_one s E) as (a & b & -> & Ha & Hb).
    rewrite (rfind_from_last QUOTE a b) by exact Hb. rewrite Z.add_0_l.
    destruct (0 <? Z.of_nat (List.length a)); [| reflexivity].
    rewrite Nat2Z.id, firstn_app, firstn_all, Nat.sub_diag. cbn [firstn].
    rewrite app_nil_r, rfind_from_absent by exact Ha. reflexivity.
Qed.

Lemma quoted_payload_leading_quote (t : list Z) :
  (quotes t <= 1)%nat -> quoted_payload (QUOTE :: t) = None.
Proof.
  intros H. unfold quoted_payload, rfind. rewrite firstn_all.
  destruct (quotes t) as [| [| n]] eqn:E; [| | lia].
  - rewrite (rfind_from_last QUOTE [] t) by (apply quotes_none; exact E).
    reflexivity.
  - destruct (quotes_one t E) as (a & b & -> & Ha & Hb).
    rewrite (rfind_from_last QUOTE (QUOTE :: a) b) by exact Hb.
    cbn [List.length]. rewrite Z.add_0_l.
    replace (0 <? Z.of_nat (S (List.length a))) with true
      by (symmetry; apply Z.ltb_lt; lia).
    rewrite Nat2Z.id.
    change (QUOTE :: a ++ QUOTE :: b)%list with ((QUOTE :: a) ++ QUOTE :: b)%list.
    replace (S (List.length a)) with (List.length (QUOTE :: a)) by reflexivity.
    rewrite firstn_app, firstn_all, Nat.sub_diag. cbn [firstn].
    rewrite app_nil_r.
    rewrite (rfind_from_last QUOTE [] a) by exact Ha. reflexivity.
Qed.

(** The code point of a well-formed sequence of two, three or four bytes
    is no quote. *)
Definition continuation_bytes : list Z := range 0x80 0xC0.

Lemma In_continuation_bytes (b : Z) : is_cont b = true -> In b continuation_bytes.
Proof.
  unfold is_cont. rewrite andb_true_iff, Z.leb_le, Z.ltb_lt. intros H.
  apply In_range. lia.
Qed.

Lemma two_bytes_no_quote (b0 b1 : Z) :
  0xC2 <= b0 < 0xE0 -> is_cont b1 = true ->
  (Z.lor (Z.shiftl (Z.land b0 0x1F) 6) (Z.land b1 0x3F) =? QUOTE) = false.
Proof.
  intros H0 H1.
  assert (forallb (fun b0 => forallb (fun b1 =>
            negb (Z.lor (Z.shiftl (Z.land b0 0x1F) 6) (Z.land b1 0x3F) =? QUOTE))
            continuation_bytes) (range 0xC2 0xE0) = true) as H
    by (vm_compute; reflexivity).
  rewrite forallb_forall in H. specialize (H b0 (proj2 (In_range _ _ _) H0)).
  rewrite forallb_forall in H. specialize (H b1 (In_continuation_bytes _ H1)).
  now apply negb_true_iff.
Qed.

Lemma three_bytes_no_quote (b0 b1 b2 : Z) :
  0xE0 <= b0 < 0xF0 -> is_cont b1 = true -> is_cont b2 = true ->
  (if b1 <? 0xA0 then b0 =? 0xE0 else b0 =? 0xED) = false ->
  (Z.lor (Z.shiftl (Z.land b0 0x0F) 12)
     (Z.lor (Z.shiftl (Z.land b1 0x3F) 6) (Z.land b2 0x3F)) =? QUOTE) = false.
Proof.
  intros H0 H1 H2 Hs.
  assert (forallb (fun b0 => forallb (fun b1 => forallb (fun b2 =>
            (if b1 <? 0xA0 then b0 =? 0xE0 else b0 =? 0xED)
            || negb (Z.lor (Z.shiftl (Z.land b0 0x0F) 12)
                       (Z.lor (Z.shiftl (Z.land b1 0x3F) 6) (Z.land b2 0x3F)) =? QUOTE))
            continuation_bytes) continuation_bytes) (range 0xE0 0xF0) = true) as H
    by (vm_compute; reflexivity).
  rewrite forallb_forall in H. specialize (H b0 (proj2 (In_range _ _ _) H0)).
  rewrite forallb_forall in H. specialize (H b1 (In_continuation_bytes _ H1)).
  rewrite forallb_forall in H. specialize (H b2 (In_continuation_bytes _ H2)).
  rewrite Hs in H. now apply negb_true_iff.
Qed.

Lemma land_63 (b : Z) : Z.land b 0x3F = b mod 64.
Proof. apply (Z.land_ones b 6). lia. Qed.

Lemma four_bytes_no_quote (b0 b1 b2 b3 : Z) :
  0xF0 <= b0 < 0xF5 -> is_cont b1 = true -> is_cont b2 = true -> is_cont b3 = true ->
  (if b1 <? 0x90 then b0 =? 0xF0 else b0 =? 0xF4) = false ->
  (Z.lor (Z.shiftl (Z.land b0 0x07) 18)
     (Z.lor (Z.shiftl (Z.land b1 0x3F) 12)
        (Z.lor (Z.shiftl (Z.land b2 0x3F) 6) (Z.land b3 0x3F))) =? QUOTE) = false.
Proof.
  intros H0 H1 _ _ Hs.
  assert (forallb (fun b0 => forallb (fun b1 =>
            (if b1 <? 0x90 then b0 =? 0xF0 else b0 =? 0xF4)
            || negb (Z.lor (Z.shiftl (Z.land b0 0x07) 6) (Z.land b1 0x3F) =? 0))
            continuation_bytes) (range 0xF0 0xF5) = true) as H
    by (vm_compute; reflexivity).
  rewrite forallb_forall in H. specialize (H b0 (proj2 (In_range _ _ _) H0)).
  rewrite forallb_forall in H. specialize (H b1 (In_continuation_bytes _ H1)).
  rewrite Hs in H. cbn [orb] in H. apply negb_true_iff, Z.eqb_neq in H.
  apply Z.eqb_neq. intros E. apply H.
  apply (f_equal (fun x => Z.shiftr x 12)) in E.
  rewrite !Z.shiftr_lor in E.
  rewrite (Z.shiftr_shiftl_l _ 18 12), (Z.shiftr_shiftl_l _ 12 12),
    (Z.shiftr_shiftl_r _ 6 12) in E by lia.
  rewrite !land_63 in E. rewrite !Z.shiftr_div_pow2 in E by lia.
  change (12 - 12) with 0 in E. rewrite Z.shiftl_0_r in E.
  change (2 ^ (12 - 6)) with 64 in E. change (2 ^ 12) with 4096 in E.
  change (18 - 12) with 6 in E.
  pose proof (Z.mod_pos_bound b2 64 ltac:(lia)) as B2.
  pose proof (Z.mod_pos_bound b3 64 ltac:(lia)) as B3.
  rewrite (Z.div_small (b2 mod 64) 64), (Z.div_small (b3 mod 64) 4096) in E by lia.
  change (QUOTE / 4096) with 0 in E.
  rewrite !Z.lor_0_r in E. rewrite land_63. exact E.
Qed.

(** Decoding adds no quote: a quote of the text is a quote byte of the
    frame. *)
Lemma quotes_decoded_bound (n : nat) :
  forall bs, (List.length bs <= n)%nat ->
             (quotes (utf8_decode_ignore bs) <= quotes bs)%nat.
Proof.
  induction n as [| n IH]; intros bs Hlen.
  { destruct bs; [apply le_n | cbn in Hlen; lia]. }
  destruct bs as [| b0 r0]; [apply le_n |].
  cbn [List.length] in Hlen.
  assert (forall r, (List.length r <= List.length r0)%nat ->
                    (quotes (utf8_decode_ignore r) <= quotes r)%nat) as IHr
    by (intros r Hr; apply IH; lia).
  pose proof (IHr r0 (le_n _)) as I0.
  pose proof (quotes_cons b0 r0) as Q0.
  cbn [utf8_decode_ignore].
  destruct (b0 <? 0x80) eqn:E80.
  { rewrite quotes_cons. lia. }
  apply Z.ltb_ge in E80.
  destruct (b0 <? 0xC2) eqn:EC2; [lia |]. apply Z.ltb_ge in EC2.
  destruct r0 as [| b1 r1].
  { repeat match goal with |- context [if ?c then _ else _] => destruct c end;
      cbn; lia. }
  cbn [List.length] in IHr.
  pose proof (IHr r1 ltac:(lia)) as I1.
  pose proof (quotes_cons b1 r1) as Q1.
  destruct (b0 <? 0xE0) eqn:EE0.
  { apply Z.ltb_lt in EE0. destruct (is_cont b1) eqn:C1; [| lia].
    rewrite quotes_cons, two_bytes_no_quote by (lia || assumption). lia. }
  apply Z.ltb_ge in EE0.
  destruct (b0 <? 0xF0) eqn:EF0.
  { apply Z.ltb_lt in EF0. destruct (is_cont b1) eqn:C1; cbn [negb orb]; [| lia].
    destruct (if b1 <? 0xA0 then b0 =? 0xE0 else b0 =? 0xED) eqn:Es; [lia |].
    destruct r1 as [| b2 r2]; [cbn; lia |].
    cbn [List.length] in IHr.
    pose proof (IHr r2 ltac:(lia)) as I2.
    pose proof (quotes_cons b2 r2) as Q2.
    destruct (is_cont b2) eqn:C2; [| lia].
    rewrite quotes_cons, three_bytes_no_quote by (lia || assumption). lia. }
  apply Z.ltb_ge in EF0.
  destruct (b0 <? 0xF5) eqn:EF5; [| lia].
  apply Z.ltb_lt in EF5. destruct (is_cont b1) eqn:C1; cbn [negb orb]; [| lia].
  destruct (if b1 <? 0x90 then b0 =? 0xF0 else b0 =? 0xF4) eqn:Es; [lia |].
  destruct r1 as [| b2 r2]; [cbn; lia |].
  cbn [List.length] in IHr.
  pose proof (IHr r2 ltac:(lia)) as I2.
  pose proof (quotes_cons b2 r2) as Q2.
  destruct (is_cont b2) eqn:C2; cbn [negb]; [| lia].
  destruct r2 as [| b3 r3]; [cbn; lia |].
  cbn [List.length] in IHr.
  pose proof (IHr r3 ltac:(lia)) as I3.
  pose proof (quotes_cons b3 r3) as Q3.
  destruct (is_cont b3) eqn:C3; [| lia].
  rewrite quotes_cons, four_bytes_no_quote by (lia || assumption). lia.
Qed.

Lemma quotes_decoded (bs : list Z) : (quotes (utf8_decode_ignore bs) <= quotes bs)%nat.
Proof. exact (quotes_decoded_bound (List.length bs) bs (le_n _)). Qed.

Lemma bytes_eqb_eq (a b : list Z) : bytes_eqb a b = true <-> a = b.
Proof.
  revert b. induction a as [| x a IH]; intros [| y b]; cbn [bytes_eqb];
    try (split; [discriminate | discriminate]); [split; reflexivity |].
  rewrite andb_true_iff, Z.eqb_eq, IH. split.
  - intros [-> ->]. reflexivity.
  - intros [= -> ->]. split; reflexivity.
Qed.

Lemma bytes_eqb_neq (a b : list Z) : a <> b -> bytes_eqb a b = false.
Proof.
  intros H. destruct (bytes_eqb a b) eqn:E; [| reflexivity].
  apply bytes_eqb_eq in E. contradiction.
Qed.

Lemma fromhex_raises (s : list Z) (e : exn) : fromhex s = Raise e -> e = ValueError.
Proof.
  remember (List.length s) as n eqn:Hn. revert s Hn.
  induction n as [n IH] using lt_wf_ind. intros s Hn.
  destruct s as [| c r]; [discriminate |]. cbn [fromhex].
  destruct (is_space c).
  { apply (IH (List.length r)); [subst n; cbn; lia | reflexivity]. }
  destruct (hex_value c) as [top |]; [| now intros [= <-]].
  destruct r as [| d r']; [now intros [= <-] |].
  destruct (hex_value d) as [bot |]; [| now intros [= <-]].
  destruct (fromhex r') as [t | e'] eqn:Er; cbn [rbind]; [discriminate |].
  intros [= <-]. apply (IH (List.length r') ltac:(subst n; cbn; lia) r' eq_refl Er).
Qed.

Lemma slice_short (i j : nat) (l : list Z) :
  (List.length l < j)%nat -> (i < j)%nat -> (List.length (slice i j l) < j - i)%nat.
Proof.
  intros Hl Hij. unfold slice. rewrite length_firstn, length_skipn. lia.
Qed.

Lemma slice_three (l : list Z) :
  (8 <= List.length l)%nat -> slice 5 8 l = [nth 5 l 0; nth 6 l 0; nth 7 l 0].
Proof.
  intros H. do 8 (destruct l as [| ? l]; [cbn in H; lia |]). reflexivity.
Qed.

Lemma slice_two (l : list Z) :
  (7 <= List.length l)%nat -> slice 5 7 l = [nth 5 l 0; nth 6 l 0].
Proof.
  intros H. do 7 (destruct l as [| ? l]; [cbn in H; lia |]). reflexivity.
Qed.

Section FramesRefused.
Context {C : Consts}.

(** An ASCII frame whose last two quotes enclose [mid], the first of them
    not at position 0. *)
Definition quoted_frame (pre mid post : list Z) : list Z :=
  (pre ++ QUOTE :: mid ++ QUOTE :: post)%list.

Definition well_quoted (pre mid post : list Z) : Prop :=
  pre <> [] /\ ascii_only pre /\ ascii_only mid /\ ascii_only post
  /\ no_quote mid /\ no_quote post.

Lemma quoted_frame_payload (pre mid post : list Z) :
  well_quoted pre mid post ->
  quoted_payload (utf8_decode_ignore (quoted_frame pre mid post)) = Some mid.
Proof.
  intros (Hpre & Ha & Hm & Hp & Hqm & Hqp).
  unfold quoted_frame. rewrite utf8_decode_ascii.
  - apply quoted_payload_last_pair; assumption.
  - apply Forall_app. split; [exact Ha |].
    constructor; [reflexivity |]. apply Forall_app. split; [exact Hm |].
    constructor; [reflexivity | exact Hp].
Qed.

(** C2, as the code has it. The decoder is not total.

    It returns, and the state is the state it found: with firmware 0x80,
    for a frame whose bytes 5..7 are not 0b 0c 15 and whose bytes 5..6 are
    not 0e 0f, every frame of fewer than 7 bytes among them; with any
    other firmware, for a frame that holds fewer than two quote bytes, or
    that starts with a quote and holds at most one more.

    It raises on recognised frames that are cut or ill-formed.  With
    firmware 0x80: the LED-settings frame raises [IndexError], the state
    unchanged when it has fewer than 12 bytes, the LED count of byte 11
    stored when it has 12 to 14; the status frame raises [IndexError], the
    state unchanged when it has fewer than 11 bytes, the power state of
    byte 10 stored when it has 11 to 16.  With any other firmware, on an
    ASCII frame whose last two quotes, the first of them not at position
    0, enclose the text [mid]: [ValueError] when [mid] is no hexadecimal
    text, [IndexError] when it is the hexadecimal of no byte at all or of
    a status block (first byte 0x81) of fewer than 13 bytes; the state is
    unchanged in the three cases. *)
Theorem notification_handler_is_partial (data : list Z) (st : DeviceState) :
  (fw_major st = 0x80 ->
   ((slice 5 8 data <> [0x0b; 0x0c; 0x15] -> slice 5 7 data <> [0x0e; 0x0f] ->
     notification_handler data st = (Ok tt, st))
    /\ ((List.length data < 7)%nat -> notification_handler data st = (Ok tt, st))
    /\ (slice 5 8 data = [0x0b; 0x0c; 0x15] ->
        ((List.length data < 12)%nat ->
         notification_handler data st = (Raise IndexError, st))
        /\ ((12 <= List.length data < 15)%nat ->
            notification_handler data st
            = (Raise IndexError, with_led_count (Some (nth 11 data 0)) st)))
    /\ (slice 5 7 data = [0x0e; 0x0f] ->
        ((List.length data < 11)%nat ->
         notification_handler data st = (Raise IndexError, st))
        /\ ((11 <= List.length data < 17)%nat ->
            notification_handler data st
            = (Raise IndexError, with_is_on (nth 10 data 0 =? 0x23) st)))))
  /\ (fw_major st <> 0x80 ->
      (((quotes data <= 1)%nat -> notification_handler data st = (Ok tt, st))
       /\ (forall rest, data = QUOTE :: rest -> (quotes rest <= 1)%nat ->
           notification_handler data st = (Ok tt, st))
       /\ (forall pre mid post,
             data = quoted_frame pre mid post -> well_quoted pre mid post ->
             ((forall p, fromhex mid <> Ok p) ->
              notification_handler data st = (Raise ValueError, st))
             /\ (forall p, fromhex mid = Ok p ->
                 p = [] \/ (nth 0 p 0 = 0x81 /\ (List.length p < 13)%nat) ->
                 notification_handler data st = (Raise IndexError, st))))).
Proof.
  split.
  - intros Hfw. unfold notification_handler, bind, get. rewrite Hfw.
    change (0x80 =? 0x80) with true. cbv iota. unfold notification_handler_0x80.
    split; [| split; [| split]].
    + intros H1 H2. rewrite (bytes_eqb_neq _ _ H1), (bytes_eqb_neq _ _ H2). reflexivity.
    + intros Hlen.
      rewrite bytes_eqb_neq, bytes_eqb_neq; [reflexivity | |];
        intros E; apply (f_equal (@List.length Z)) in E;
        [pose proof (slice_short 5 7 data) | pose proof (slice_short 5 8 data)];
        cbn [List.length] in E; lia.
    + intros E. rewrite E. cbn [bytes_eqb Z.eqb Pos.eqb andb].
      assert (8 <= List.length data)%nat as H8.
      { apply (f_equal (@List.length Z)) in E. unfold slice in E.
        rewrite length_firstn, length_skipn in E. cbn [List.length] in E. lia. }
      split; intros Hlen; unfold_monad.
      * rewrite (getitem_short data 11) by lia. reflexivity.
      * rewrite (getitem_nth data 11), (getitem_short data 14) by lia. reflexivity.
    + intros E.
      assert (7 <= List.length data)%nat as H7.
      { apply (f_equal (@List.length Z)) in E. unfold slice in E.
        rewrite length_firstn, length_skipn in E. cbn [List.length] in E. lia. }
      assert (bytes_eqb (slice 5 8 data) [0x0b; 0x0c; 0x15] = false) as E8.
      { apply bytes_eqb_neq. intros E'.
        assert (8 <= List.length data)%nat as H8.
        { apply (f_equal (@List.length Z)) in E'. unfold slice in E'.
          rewrite length_firstn, length_skipn in E'. cbn [List.length] in E'. lia. }
        rewrite slice_three in E' by exact H8. rewrite slice_two in E by exact H7.
        congruence. }
      rewrite E8, E. cbn [bytes_eqb Z.eqb Pos.eqb andb].
      split; intros Hlen; unfold_monad.
      * rewrite (getitem_short data 10) by lia. reflexivity.
      * rewrite (getitem_nth data 10) by lia.
        destruct (getitem_cases data 11) as [-> | [v11 ->]]; [reflexivity |].
        destruct (getitem_cases data 12) as [-> | [v12 ->]]; [reflexivity |].
        destruct (getitem_cases data 13) as [-> | [v13 ->]]; [reflexivity |].
        destruct (getitem_cases data 14) as [-> | [v14 ->]]; [reflexivity |].
        destruct (getitem_cases data 15) as [-> | [v15 ->]]; [reflexivity |].
        rewrite (getitem_short data 16) by lia. reflexivity.
  - intros Hfw. unfold notification_handler, bind, get.
    apply Z.eqb_neq in Hfw. rewrite Hfw. unfold notification_handler_text.
    split; [| split].
    + intros Hq. rewrite quoted_payload_few_quotes; [reflexivity |].
      pose proof (quotes_decoded data). lia.
    + intros rest -> Hq.
      change (utf8_decode_ignore (QUOTE :: rest))
        with (QUOTE :: utf8_decode_ignore rest).
      rewrite quoted_payload_leading_quote; [reflexivity |].
      pose proof (quotes_decoded rest). lia.
    + intros pre mid post -> Hw. rewrite (quoted_frame_payload _ _ _ Hw).
      split.
      * intros Hbad. unfold_monad.
        destruct (fromhex mid) as [p | e] eqn:Ef; [now elim (Hbad p) |].
        rewrite (fromhex_raises _ _ Ef). reflexivity.
      * intros p Ef Hp. unfold_monad. rewrite Ef.
        destruct Hp as [-> | [H0 Hlen]]; [reflexivity |].
        destruct p as [| p0 rest]; [reflexivity |].
        cbn [nth] in H0. subst p0.
        unfold getitem at 1. cbn [nth_error]. change (0x81 =? 0x81) with true.
        cbv iota. unfold status_response. unfold_monad.
        destruct (getitem_cases (0x81 :: rest) 2) as [-> | [v2 ->]]; [reflexivity |].
        destruct (getitem_cases (0x81 :: rest) 3) as [-> | [v3 ->]]; [reflexivity |].
        destruct (getitem_cases (0x81 :: rest) 4) as [-> | [v4 ->]]; [reflexivity |].
        rewrite (getitem_short (0x81 :: rest) 12) by lia. reflexivity.
Qed.

End FramesRefused.

(** A frame of three bytes, a text envelope cut inside its payload (the
    text between its last two quotes is a colon), and a status frame of
    firmware 0x80 cut to 12 bytes. *)
Lemma notification_handler_is_partial_witness :
  @notification_handler every_value [1; 2; 3] blank_state = (Ok tt, blank_state)
  /\ @notification_handler every_value [123; 34; 97; 34; 58; 34; 56; 49] blank_state
     = (Raise ValueError, blank_state)
  /\ @notification_handler every_value
       [0; 1; 0x80; 0; 0; 0x0e; 0x0f; 0; 0; 0; 0x23; 0x61] blank_state_0x80
     = (Raise IndexError, with_is_on (0x23 =? 0x23) blank_state_0x80).
Proof.
  split; [| split].
  - apply (proj2 (@notification_handler_is_partial every_value [1; 2; 3] blank_state));
      [discriminate | cbn; lia].
  - destruct (proj2 (@notification_handler_is_partial every_value
                       [123; 34; 97; 34; 58; 34; 56; 49] blank_state)
                ltac:(discriminate)) as (_ & _ & K).
    apply (K [123; 34; 97] [58] [56; 49]); [reflexivity | | intros p; discriminate].
    split; [discriminate |]. repeat split; repeat constructor.
  - destruct (proj1 (@notification_handler_is_partial every_value
                       [0; 1; 0x80; 0; 0; 0x0e; 0x0f; 0; 0; 0; 0x23; 0x61]
                       blank_state_0x80) eq_refl) as (_ & _ & _ & K).
    apply (K eq_refl). cbn. lia.
Defined.
